(** * Academic credential verification: retry engine, transaction submitter,
      attestation verifier, session manager and NIN service

    A shallow embedding of
      - [src/lib/utils/async.ts]            (sleep, withRetry),
      - [src/lib/utils/crypto.ts]           (hashNIN, verifyNINHash,
        generateSeedFromNIN),
      - [src/lib/solana/address-generation.ts] (the derivations from a NIN,
        and the verifier of [SolanaAttestationService]),
      - [src/lib/services/BlockchainService.ts] (transaction flow,
        attestation helpers, session, socket and subscriptions),
      - [src/lib/services/NINService.ts],
      - [src/lib/services/VerificationService.ts] (the retry helper).

    Asynchronous TypeScript code is written in a state-and-exception monad
    over an abstract outside world [W]; every effect that a caller can
    observe (timers, emitted lifecycle events, RPC requests) is appended to
    a trace.  The libraries the code calls ([@solana/web3.js], [crypto],
    [crypto-js], [limiter], [JSON]) are interfaces, with small executable
    instances to run the model on concrete inputs.

    Conventions: JavaScript numbers are integers ([Z]), but for the
    product [Math.random() * 500], which is rounded as a double is; what
    the code and the libraries throw is an [Error] object, and the callback
    handed to [withRetry] may also reject with a falsy value; text is 7-bit
    ASCII; the listeners of the transaction events are part of the outside
    world and may throw; [console] output is left out; the members of a
    [Promise.all] are run in the order in which they are started. *)

From Stdlib Require Import ZArith Lia Ascii String.
From stdpp Require Import gmap strings list pretty.

Local Open Scope string_scope.
Local Open Scope Z_scope.

(** ** JavaScript values, errors and completions *)

Module Js.

(** The error classes the code distinguishes with [instanceof].
    [TransactionTimeoutError] and [TransactionFailedError] extend
    [BlockchainError], which extends [Error]; every other throwable
    (library errors, [TypeError], ...) is an [ErrorC]. *)
Inductive ErrorClass :=
| ErrorC
| BlockchainErrorC
| TransactionTimeoutErrorC
| TransactionFailedErrorC.

Record JsError := mkError {
  err_class : ErrorClass;
  message : string;
  code : option string;
  txSignature : option string
}.

Definition Error (msg : string) : JsError :=
  mkError ErrorC msg None None.

(** [new BlockchainError(message, code?, txSignature?)] *)
Definition BlockchainError (msg : string) (c sig : option string) : JsError :=
  mkError BlockchainErrorC msg c sig.

(** [new TransactionTimeoutError(message, txSignature?)] *)
Definition TransactionTimeoutError (msg : string) (sig : option string) : JsError :=
  mkError TransactionTimeoutErrorC msg (Some "TRANSACTION_TIMEOUT") sig.

(** [new TransactionFailedError(message, logs?, txSignature?)]; the
    [logs] field is always [undefined] in this code base. *)
Definition TransactionFailedError (msg : string) (sig : option string) : JsError :=
  mkError TransactionFailedErrorC msg (Some "TRANSACTION_FAILED") sig.

Definition instanceof_TransactionFailedError (e : JsError) : bool :=
  match err_class e with TransactionFailedErrorC => true | _ => false end.

Definition instanceof_TransactionTimeoutError (e : JsError) : bool :=
  match err_class e with TransactionTimeoutErrorC => true | _ => false end.

(** The outcome of evaluating a call: a value, or a thrown error (for an
    [async] function: a resolved or a rejected promise). *)
Inductive Completion (A : Type) :=
| Return (a : A)
| Throw (e : JsError).
Arguments Return {A} a.
Arguments Throw {A} e.

(** What the promise of a caller's callback is rejected with: an [Error]
    object, or a value that is falsy ([undefined], [null], [false], [0],
    [NaN] or the empty string).  An object is truthy. *)
Inductive Reason :=
| AnError (e : JsError)
| Falsy.

(** How the promise of a callback settles. *)
Inductive Settlement (T : Type) :=
| Fulfilled (v : T)
| Rejected (reason : Reason).
Arguments Fulfilled {T} v.
Arguments Rejected {T} reason.

(** Doubles have 53 significant bits.  For a whole number [n >= 0],
    [round53 n / 2^53] is the double nearest to [n / 2^53], ties to the
    even one: the [s] bits of [n] beyond the first 53 are rounded away. *)
Definition round53 (n : Z) : Z :=
  let s := Z.log2 n - 52 in
  if s <=? 0 then n
  else
    let q := n / 2 ^ s in
    let r := n mod 2 ^ s in
    let half := 2 ^ (s - 1) in
    (if (half <? r) || ((r =? half) && Z.odd q) then q + 1 else q) * 2 ^ s.

(** Values read from parsed JSON, as far as [typeof] and truthiness
    tell them apart.  Numbers are integers (timestamps). *)
Inductive JsVal :=
| JUndefined
| JNull
| JBool (b : bool)
| JNum (z : Z)
| JStr (s : string)
| JObject.

Definition truthy (v : JsVal) : bool :=
  match v with
  | JUndefined | JNull => false
  | JBool b => b
  | JNum z => negb (Z.eqb z 0)
  | JStr s => negb (String.eqb s EmptyString)
  | JObject => true
  end.

Definition typeof_string (v : JsVal) : bool :=
  match v with JStr _ => true | _ => false end.

Definition typeof_number (v : JsVal) : bool :=
  match v with JNum _ => true | _ => false end.

End Js.
Export Js.

(** ** Observable effects and the execution monad *)

Inductive BlockchainEvent :=
| TRANSACTION_CREATED
| TRANSACTION_SENT
| TRANSACTION_CONFIRMED
| TRANSACTION_FAILED
| ACCOUNT_CHANGED
| SAS_AUTHENTICATION_STARTED
| SAS_AUTHENTICATION_COMPLETED
| SAS_AUTHENTICATION_FAILED
| SAS_SESSION_EXPIRED.

Inductive EmitArg :=
| ArgStr (s : string)
| ArgErr (e : JsError).

Inductive RpcCall :=
| GetLatestBlockhash
| SendRawTransaction
| GetSignatureStatuses
| GetSlot
| GetAccountInfo.

Inductive Effect :=
| Invoked                                       (* operation() *)
| Slept (ms : Z)                                (* await sleep(ms) *)
| Emitted (ev : BlockchainEvent) (args : list EmitArg)   (* this.emit(ev, ...args) *)
| Requested (call : RpcCall).                   (* a call on this.connection *)

(** The machine state: the outside world and the effects so far, oldest
    first. *)
Record Machine (W : Type) := mkMachine {
  world : W;
  trace : list Effect
}.
Arguments mkMachine {W} world trace.
Arguments world {W} m.
Arguments trace {W} m.

(** A computation either does not finish within the given fuel ([None]) or
    completes with a value or a thrown error, in a new machine state. *)
Definition M (W A : Type) : Type := Machine W -> option (Completion A * Machine W).

Section Monad.
Context {W : Type}.

Definition ret {A} (a : A) : M W A := fun m => Some (Return a, m).

Definition throw {A} (e : JsError) : M W A := fun m => Some (Throw e, m).

Definition diverge {A} : M W A := fun _ => None.

Definition bind {A B} (c : M W A) (k : A -> M W B) : M W B :=
  fun m =>
    match c m with
    | None => None
    | Some (Return a, m') => k a m'
    | Some (Throw e, m') => Some (Throw e, m')
    end.

(** [try { c } catch (err) { h err }] *)
Definition try_catch {A} (c : M W A) (h : JsError -> M W A) : M W A :=
  fun m =>
    match c m with
    | None => None
    | Some (Return a, m') => Some (Return a, m')
    | Some (Throw e, m') => h e m'
    end.

Definition record (e : Effect) : M W unit :=
  fun m => Some (Return tt, mkMachine (world m) (trace m ++ [e])).

(** A call into the outside world that may throw. *)
Definition call_world {A} (f : W -> Completion A * W) : M W A :=
  fun m => let '(r, w') := f (world m) in Some (r, mkMachine w' (trace m)).

(** A read of the outside world that cannot throw. *)
Definition read_world {A} (f : W -> A) : M W A :=
  fun m => Some (Return (f (world m)), m).

Definition update_world (f : W -> W) : M W unit :=
  fun m => Some (Return tt, mkMachine (f (world m)) (trace m)).

End Monad.

(** A callback [() => Promise<T>] handed in by a caller: called in a
    machine state it settles, unless the fuel runs out first. *)
Definition Callback (W T : Type) : Type :=
  Machine W -> option (Settlement T * Machine W).

(** An [async] function of this model as a callback: what it throws is an
    [Error] object. *)
Definition settled {W T} (c : M W T) : Callback W T :=
  fun m =>
    match c m with
    | None => None
    | Some (Return v, m') => Some (Fulfilled v, m')
    | Some (Throw e, m') => Some (Rejected (AnError e), m')
    end.

Notation "x <- c ;; k" := (bind c (fun x => k))
  (at level 100, c at next level, right associativity).
Notation "c ;;; k" := (bind c (fun _ => k))
  (at level 100, right associativity).

(** The listeners registered on the service, through
    [config.eventListeners] or [on]: [emit] calls those of the event one
    after the other, within the caller's turn, and what one of them throws
    leaves [emit]. *)
Class Listeners (W : Type) := {
  run_listeners : BlockchainEvent -> list EmitArg -> W -> Completion unit * W
}.

(** [this.emit(ev, ...args)] *)
Definition emit {W} `{Listeners W} (ev : BlockchainEvent) (args : list EmitArg)
    : M W unit :=
  record (Emitted ev args) ;;; call_world (run_listeners ev args).

(** What the JavaScript runtime supplies. *)
Class Runtime (W : Type) := {
  (** [Date.now()] *)
  Date_now : W -> Z;
  (** the world once a [setTimeout] of [ms] milliseconds has fired *)
  timer_fires : Z -> W -> W;
  (** [Math.random()], as the numerator [k] of the double [k / 2^53] *)
  Math_random : W -> Z * W
}.

(** ** src/lib/utils/async.ts *)

Module Async.
Section Async.
Context {W : Type} `{Runtime W}.

(** [sleep(ms)] *)
Definition sleep (ms : Z) : M W unit :=
  update_world (timer_fires ms) ;;; record (Slept ms).

Context {T : Type}.
Variable operation : Callback W T.
Variable maxRetries : Z.
Variable initialDelayMs : Z.

(** [await operation()] inside the [try]: the value, or what
    [catch (error)] binds. *)
Definition await_operation : M W (T + Reason) :=
  record Invoked ;;;
  (fun m =>
     match operation m with
     | None => None
     | Some (Fulfilled v, m') => Some (Return (inl v), m')
     | Some (Rejected error, m') => Some (Return (inr error), m')
     end).

(** [lastError || new Error('Operation failed after maximum retries')];
    [lastError] starts as [null]. *)
Definition lastError_or_new (lastError : option Reason) : JsError :=
  match lastError with
  | Some (AnError e) => e
  | Some Falsy | None => Error "Operation failed after maximum retries"
  end.

(** The [for (let attempt = 1; attempt <= maxRetries; attempt++)] loop
    of [withRetry], followed by the final [throw]. *)
Fixpoint withRetry_loop (fuel : nat) (attempt : Z) (lastError : option Reason) : M W T :=
  if attempt <=? maxRetries then
    match fuel with
    | O => diverge
    | S fuel' =>
        r <- await_operation ;;
        match r with
        | inl v => ret v
        | inr error =>
            (if attempt <? maxRetries
             then sleep (initialDelayMs * 2 ^ (attempt - 1))
             else ret tt) ;;;
            withRetry_loop fuel' (attempt + 1) (Some error)
        end
    end
  else
    throw (lastError_or_new lastError).

Definition withRetry : M W T :=
  withRetry_loop (Z.to_nat maxRetries) 1 None.

End Async.
End Async.

(** ** What [@solana/web3.js], [crypto] and [crypto-js] supply

    The pure parts of the libraries the code calls. *)

Definition Buffer := list Byte.byte.

Class Web3 := {
  Keypair : Type;
  PublicKey : Type;
  Transaction : Type;
  RawTransaction : Type;
  (** [Keypair.fromSeed(seed)]; throws on a seed that is not 32 bytes *)
  Keypair_fromSeed : Buffer -> Completion Keypair;
  (** [keypair.publicKey] *)
  Keypair_publicKey : Keypair -> PublicKey;
  (** [publicKey.toBase58()], also [publicKey.toString()] *)
  PublicKey_toBase58 : PublicKey -> string;
  (** [new PublicKey(value)]; throws on a malformed address *)
  PublicKey_new : string -> Completion PublicKey;
  (** [a.equals(b)] *)
  PublicKey_equals : PublicKey -> PublicKey -> bool;
  (** [tx.recentBlockhash = blockhash; tx.feePayer = payer;
       tx.sign(...signers); tx.serialize()] *)
  sign_and_serialize :
    Transaction -> string -> PublicKey -> list Keypair -> Completion RawTransaction
}.

Class Hashes := {
  (** [CryptoJS.SHA256(data).toString(CryptoJS.enc.Hex)] *)
  CryptoJS_SHA256_hex : string -> string;
  (** [crypto.createHash('sha256').update(data).digest()] *)
  crypto_sha256_digest : string -> Buffer
}.

(** ** src/lib/utils/crypto.ts *)

Module Crypto.
Section Crypto.
Context `{Hashes}.
(** [process.env.NIN_SALT] *)
Variable env_NIN_SALT : option string.

(** [!salt]: the variable is unset or is the empty string. *)
Definition salt_missing : bool :=
  match env_NIN_SALT with
  | None => true
  | Some s => String.eqb s EmptyString
  end.

Definition salt_value : string :=
  match env_NIN_SALT with
  | None => EmptyString
  | Some s => s
  end.

Definition hashNIN (nin : string) : Completion string :=
  if salt_missing
  then Throw (Error "NIN_SALT environment variable is required")
  else Return (CryptoJS_SHA256_hex (nin +:+ salt_value)).

Definition generateSeedFromNIN (nin : string) : Completion Buffer :=
  if salt_missing
  then Throw (Error "NIN_SALT environment variable is required")
  else Return (crypto_sha256_digest (nin +:+ salt_value)).

Definition verifyNINHash (nin hash : string) : Completion bool :=
  match hashNIN nin with
  | Throw e => Throw e
  | Return h => Return (String.eqb h hash)
  end.

End Crypto.
End Crypto.

(** ** src/lib/solana/address-generation.ts *)

Module AddressGeneration.
Section AddressGeneration.
Context `{Hashes} `{Web3}.
Variable env_NIN_SALT : option string.

(** [buffer.slice(0, 32)] *)
Definition slice_0_32 (b : Buffer) : Buffer := take 32 b.

Definition generateAddressFromNIN (nin : string) : Completion string :=
  match Crypto.generateSeedFromNIN env_NIN_SALT nin with
  | Throw e => Throw e
  | Return seed =>
      match Keypair_fromSeed (slice_0_32 seed) with
      | Throw e => Throw e
      | Return keypair => Return (PublicKey_toBase58 (Keypair_publicKey keypair))
      end
  end.

Definition verifyAddressForNIN (nin address : string) : Completion bool :=
  match generateAddressFromNIN nin with
  | Throw e => Throw e
  | Return expectedAddress => Return (String.eqb expectedAddress address)
  end.

Definition generateKeypairFromNIN (nin : string) : Completion Keypair :=
  match Crypto.generateSeedFromNIN env_NIN_SALT nin with
  | Throw e => Throw e
  | Return seed => Keypair_fromSeed (slice_0_32 seed)
  end.

End AddressGeneration.
End AddressGeneration.

(** ** src/lib/services/BlockchainService.ts *)

Inductive Commitment :=
| processed
| confirmed
| finalized.

Record SignatureStatus := mkStatus {
  (** [info.err], JSON-stringified; [None] for [null] *)
  status_err : option string;
  (** [info.confirmationStatus] *)
  confirmationStatus : option Commitment
}.

Record SendOptions := mkSendOptions {
  skipPreflight : bool;
  preflightCommitment : Commitment
}.

Record AccountInfo `{Web3} := mkAccountInfo {
  owner : PublicKey;
  data : Buffer
}.
Arguments mkAccountInfo {_} owner data.

(** The RPC surface of [Connection] that the service uses. *)
Class Connection (W : Type) `{Web3} := {
  getLatestBlockhash : Commitment -> W -> Completion (string * Z) * W;
  sendRawTransaction : RawTransaction -> SendOptions -> W -> Completion string * W;
  getSignatureStatuses : string -> W -> Completion (option SignatureStatus) * W;
  getSlot : Commitment -> W -> Completion Z * W;
  getAccountInfo : PublicKey -> W -> Completion (option AccountInfo) * W
}.

(** The fields of a parsed attestation account that the service reads;
    an absent key is [JUndefined]. *)
Record AttestationAccountData := mkAttestation {
  credentialId : JsVal;
  studentId : JsVal;
  universityId : JsVal;
  attestationType : JsVal;
  timestamp : JsVal;
  issuer : JsVal
}.

Class Json := {
  (** [Buffer.from(raw).toString('utf-8').trim()] *)
  Buffer_toString_trim : Buffer -> string;
  (** [JSON.parse(s)]; [None] when it throws or when the value is not an
      object whose properties can be read ([null] makes the property access
      throw, a primitive has none of the properties: both paths of
      [parseAttestationData] return [null]). *)
  JSON_parse : string -> option AttestationAccountData
}.

Module BlockchainService.

Record VerificationResult := mkVerification {
  isValid : bool;
  vdata : option AttestationAccountData;
  error : option string
}.

(** The object [results] that [batchVerifyAttestations] fills and returns:
    its own properties, keyed by address, and its prototype once an
    assignment has replaced [Object.prototype]. *)
Record Results := mkResults {
  own : gmap string VerificationResult;
  prototype : option VerificationResult
}.

(** [{}] *)
Definition no_results : Results := mkResults ∅ None.

(** [results[addr] = res].  The key [__proto__] is the accessor that every
    object inherits from [Object.prototype]: assigning an object to it
    replaces the prototype of [results] and adds no property. *)
Definition assign (results : Results) (addr : string) (res : VerificationResult)
    : Results :=
  if String.eqb addr "__proto__"
  then mkResults (own results) (Some res)
  else mkResults (<[addr := res]> (own results)) (prototype results).

Record SendTransactionOptions := mkSendTransactionOptions {
  opt_retries : option Z;
  opt_commitment : option Commitment;
  opt_skipPreflight : option bool
}.

Record SendResult := mkSendResult {
  signature : string;
  blockhash : string;
  lastValidBlockHeight : Z
}.

(** [private confirmationTimeout = 30_000] *)
Definition confirmationTimeout : Z := 30000.
(** [private maxRetries = 5] *)
Definition maxRetries : Z := 5.
(** [private retryDelay = 1000] *)
Definition retryDelay : Z := 1000.

Section BlockchainService.
Context {W : Type} `{Runtime W} `{Connection W} `{Listeners W} `{Json}.
(** [this.programId] and [this.wallet] *)
Variable programId : PublicKey.
Variable wallet : Keypair.

(** *** Transaction flow *)

Definition reached (status : option Commitment) : bool :=
  match status with
  | Some confirmed | Some finalized => true
  | _ => false
  end.

(** The first [try]/[catch] in the loop of [waitForConfirmation]: [true]
    where the source returns from the function. *)
Definition poll_status (signature : string) : M W bool :=
  try_catch
    (resp <- (record (Requested GetSignatureStatuses) ;;;
              call_world (getSignatureStatuses signature)) ;;
     match resp with
     | Some info =>
         match status_err info with
         | Some e =>
             throw (TransactionFailedError
                      ("Transaction failed: " +:+ e) (Some signature))
         | None => ret (reached (confirmationStatus info))
         end
     | None => ret false
     end)
    (fun err =>
       if instanceof_TransactionFailedError err then throw err
       else ret false).

(** The second [try]/[catch]: the slot check, whose [catch] is empty. *)
Definition check_slot (signature : string) (lastValidBlockHeight : Z)
    (commitment : Commitment) : M W unit :=
  try_catch
    (slot <- (record (Requested GetSlot) ;;;
              call_world (getSlot commitment)) ;;
     if slot >? lastValidBlockHeight
     then throw (TransactionTimeoutError
                   "Blockhash expired before confirmation" (Some signature))
     else ret tt)
    (fun _ => ret tt).

(** The [while (Date.now() - start < this.confirmationTimeout)] loop of
    [waitForConfirmation] and the [throw] after it. *)
Fixpoint waitForConfirmation_loop (fuel : nat) (start : Z)
    (signature : string) (lastValidBlockHeight : Z) (commitment : Commitment)
    : M W unit :=
  now <- read_world Date_now ;;
  if now - start <? confirmationTimeout then
    match fuel with
    | O => diverge
    | S fuel' =>
        done <- poll_status signature ;;
        if done : bool then ret tt
        else
          check_slot signature lastValidBlockHeight commitment ;;;
          Async.sleep 1000 ;;;
          waitForConfirmation_loop fuel' start signature lastValidBlockHeight commitment
    end
  else
    throw (TransactionTimeoutError
             ("Transaction not confirmed within " +:+ pretty confirmationTimeout +:+ "ms")
             (Some signature)).

Definition waitForConfirmation (fuel : nat) (signature : string)
    (lastValidBlockHeight : Z) (commitment : Commitment) : M W unit :=
  start <- read_world Date_now ;;
  waitForConfirmation_loop fuel start signature lastValidBlockHeight commitment.

(** [Math.floor(Math.random() * 500)]: the product of the doubles
    [k / 2^53] and [500] is rounded to a double, then floored. *)
Definition jitter500 : M W Z :=
  k <- call_world (fun w => let '(k, w') := Math_random w in (Return k, w')) ;;
  ret (round53 (k * 500) / 2 ^ 53).

(** One iteration of the body of the outer [try] of
    [sendTransactionWithRetry]. *)
Definition send_attempt (pollFuel : nat) (transaction : Transaction)
    (signers : list Keypair) (options : SendTransactionOptions)
    (commitment : Commitment) : M W SendResult :=
  bh <- (record (Requested GetLatestBlockhash) ;;;
         call_world (getLatestBlockhash commitment)) ;;
  let '(blockhash, lastValidBlockHeight) := bh in
  raw <- (match sign_and_serialize transaction blockhash
                  (Keypair_publicKey wallet) (wallet :: signers) with
          | Return raw => ret raw
          | Throw e => throw e
          end) ;;
  let sendOptions :=
    mkSendOptions (default false (opt_skipPreflight options)) commitment in
  signature <- (record (Requested SendRawTransaction) ;;;
                call_world (sendRawTransaction raw sendOptions)) ;;
  emit TRANSACTION_SENT [ArgStr signature] ;;;
  try_catch
    (waitForConfirmation pollFuel signature lastValidBlockHeight commitment ;;;
     emit TRANSACTION_CONFIRMED [ArgStr signature] ;;;
     ret (mkSendResult signature blockhash lastValidBlockHeight))
    (fun err =>
       emit TRANSACTION_FAILED [ArgErr err; ArgStr signature] ;;;
       throw err).

(** The [for (let attempt = 0; attempt <= retries; attempt++)] loop and the
    [throw] after it.  The handler yields [None] where the source
    [continue]s. *)
Fixpoint sendTransaction_loop (fuel pollFuel : nat) (retries attempt : Z)
    (transaction : Transaction) (signers : list Keypair)
    (options : SendTransactionOptions) (commitment : Commitment)
    : M W SendResult :=
  if attempt <=? retries then
    match fuel with
    | O => diverge
    | S fuel' =>
        r <- try_catch
          (res <- send_attempt pollFuel transaction signers options commitment ;;
           ret (Some res))
          (fun err =>
             if instanceof_TransactionFailedError err
                || instanceof_TransactionTimeoutError err
             then throw err
             else if attempt <? retries then
               let backoff := retryDelay * 2 ^ attempt in
               jitter <- jitter500 ;;
               Async.sleep (backoff + jitter) ;;;
               ret None
             else
               throw (BlockchainError
                        ("Failed to send transaction after retries: " +:+ message err)
                        None None)) ;;
        match r with
        | Some res => ret res
        | None =>
            sendTransaction_loop fuel' pollFuel retries (attempt + 1)
              transaction signers options commitment
        end
    end
  else
    throw (BlockchainError "Failed to send transaction (unknown reason)" None None).

Definition sendTransactionWithRetry (pollFuel : nat) (transaction : Transaction)
    (signers : list Keypair) (options : SendTransactionOptions)
    : M W SendResult :=
  let retries := default maxRetries (opt_retries options) in
  let commitment := default confirmed (opt_commitment options) in
  sendTransaction_loop (Z.to_nat (retries + 1)) pollFuel retries 0
    transaction signers options commitment.

(** *** Attestation helpers *)

Definition parseAttestationData (raw : Buffer) : M W (option AttestationAccountData) :=
  let s := Buffer_toString_trim raw in
  if String.eqb s EmptyString then ret None
  else
    match JSON_parse s with
    | None => ret None
    | Some parsed =>
        if negb (truthy (credentialId parsed))
           || negb (truthy (studentId parsed))
           || negb (truthy (universityId parsed))
        then ret None
        else
          now <- read_world Date_now ;;
          (* [{ timestamp: .. ?? Date.now(), issuer: .. ?? .., ...parsed }]:
             a key present in [parsed] overrides the default, also with [null] *)
          ret (Some
            (mkAttestation (credentialId parsed) (studentId parsed)
               (universityId parsed) (attestationType parsed)
               (match timestamp parsed with
                | JUndefined => JNum now
                | v => v
                end)
               (match issuer parsed with
                | JUndefined =>
                    JStr (PublicKey_toBase58 (Keypair_publicKey wallet))
                | v => v
                end)))
    end.

(** [['UNIVERSITY_ISSUED', 'GOVERNMENT_ACCREDITED'].includes(v)] *)
Definition known_attestationType (v : JsVal) : bool :=
  match v with
  | JStr s => String.eqb s "UNIVERSITY_ISSUED" || String.eqb s "GOVERNMENT_ACCREDITED"
  | _ => false
  end.

Definition validateAttestationStructure (data : option AttestationAccountData)
    : M W bool :=
  match data with
  | None => ret false
  | Some d =>
      if negb (typeof_string (credentialId d)) then ret false
      else if negb (typeof_string (studentId d)) then ret false
      else if negb (typeof_string (universityId d)) then ret false
      else if negb (known_attestationType (attestationType d)) then ret false
      else
        now <- read_world Date_now ;;
        if truthy (timestamp d)
           && match timestamp d with
              | JNum ts => ts >? now
              | _ => true
              end
        then ret false
        else ret true
  end.

Definition invalid (reason : string) : VerificationResult :=
  mkVerification false None (Some reason).

Definition verifyAttestation (attestationAddress : string) : M W VerificationResult :=
  try_catch
    (if String.eqb attestationAddress EmptyString then
       ret (invalid "Invalid attestation address")
     else
       match PublicKey_new attestationAddress with
       | Throw _ => ret (invalid "Invalid attestation address format")
       | Return pubKey =>
           accountInfo <- (record (Requested GetAccountInfo) ;;;
                           call_world (getAccountInfo pubKey)) ;;
           match accountInfo with
           | None => ret (invalid "Attestation account not found")
           | Some info =>
               if negb (PublicKey_equals (owner info) programId) then
                 ret (invalid "Attestation account is not owned by expected program")
               else
                 parsed <- parseAttestationData (data info) ;;
                 ok <- validateAttestationStructure parsed ;;
                 ret (if ok : bool
                      then mkVerification true parsed None
                      else invalid "Attestation data invalid or malformed")
           end
       end)
    (fun err => ret (invalid ("Verification failed: " +:+ message err))).

Definition BATCH_SIZE : nat := 10.

(** The [async (addr) => { try { .. } catch (err) { .. } }] closure of
    [batchVerifyAttestations], over the verification it calls. *)
Definition verify_one (verify : string -> M W VerificationResult) (addr : string)
    : M W (string * VerificationResult) :=
  try_catch
    (res <- verify addr ;; ret (addr, res))
    (fun err => ret (addr, invalid (message err))).

(** [await Promise.all(batch.map(f))]: the closures are started in input
    order and the promise rejects as soon as one of them does. *)
Fixpoint promise_all_map {A B} (f : A -> M W B) (batch : list A) : M W (list B) :=
  match batch with
  | [] => ret []
  | a :: rest =>
      b <- f a ;;
      bs <- promise_all_map f rest ;;
      ret (b :: bs)
  end.

(** [batchResults.forEach(({ addr, res }) => (results[addr] = res))] *)
Definition merge_results (results : Results)
    (batchResults : list (string * VerificationResult)) : Results :=
  foldl (fun acc ar => assign acc (fst ar) (snd ar)) results batchResults.

(** The [for (let i = 0; i < attestationAddresses.length; i += BATCH_SIZE)]
    loop and the [return results] after it. *)
Fixpoint batchVerify_loop (verify : string -> M W VerificationResult)
    (fuel : nat) (i : nat) (attestationAddresses : list string)
    (results : Results) : M W Results :=
  if (i <? length attestationAddresses)%nat then
    match fuel with
    | O => diverge
    | S fuel' =>
        let batch := take BATCH_SIZE (drop i attestationAddresses) in
        batchResults <- promise_all_map (verify_one verify) batch ;;
        let results' := merge_results results batchResults in
        (if (i + BATCH_SIZE <? length attestationAddresses)%nat
         then Async.sleep 500
         else ret tt) ;;;
        batchVerify_loop verify fuel' (i + BATCH_SIZE)%nat attestationAddresses results'
    end
  else ret results.

(** [batchVerifyAttestations], over the per-address verification. *)
Definition batchVerifyAttestations_with (verify : string -> M W VerificationResult)
    (attestationAddresses : list string) : M W Results :=
  batchVerify_loop verify (length attestationAddresses) 0%nat attestationAddresses
    no_results.

Definition batchVerifyAttestations (attestationAddresses : list string)
    : M W Results :=
  batchVerifyAttestations_with verifyAttestation attestationAddresses.

End BlockchainService.
End BlockchainService.

(** *** Batch verification, as the specification words it

    "Partitions the input into fixed-size chunks (default 10), verifies
    each chunk's members, inserts a small pause between chunks, and merges
    results." *)

Module BatchSpec.

Fixpoint chunks_fuel {A} (fuel n : nat) (l : list A) : list (list A) :=
  match fuel with
  | O => []
  | S fuel' =>
      match l with
      | [] => []
      | _ :: _ => take n l :: chunks_fuel fuel' n (drop n l)
      end
  end.

(** The chunks of [n] elements of [l], the last one possibly shorter. *)
Definition chunks {A} (n : nat) (l : list A) : list (list A) :=
  chunks_fuel (length l) n l.

Section BatchSpec.
Context {W : Type} `{Runtime W}.
Variable verify : string -> M W BlockchainService.VerificationResult.

Fixpoint process_chunks (cs : list (list string))
    (results : BlockchainService.Results) : M W BlockchainService.Results :=
  match cs with
  | [] => ret results
  | c :: rest =>
      batchResults <-
        BlockchainService.promise_all_map (BlockchainService.verify_one verify) c ;;
      let results' := BlockchainService.merge_results results batchResults in
      (match rest with
       | [] => ret tt
       | _ :: _ => Async.sleep 500
       end) ;;;
      process_chunks rest results'
  end.

Definition batchVerify (addresses : list string) : M W BlockchainService.Results :=
  process_chunks (chunks BlockchainService.BATCH_SIZE addresses)
    BlockchainService.no_results.

(** What is recorded for [addr] is what its own verification returned, or
    the message of what it threw. *)
Definition captured (addr : string) (r : BlockchainService.VerificationResult) : Prop :=
  exists m1 m2,
    verify addr m1 = Some (Return r, m2)
    \/ exists e, verify addr m1 = Some (Throw e, m2)
                 /\ r = BlockchainService.invalid (message e).

End BatchSpec.
End BatchSpec.

(** ** src/lib/services/NINService.ts *)

(** Regular expressions and string methods, on 7-bit ASCII text. *)
Module Text.

Definition chars (s : string) : list ascii := String.list_ascii_of_string s.

Definition code_of (c : ascii) : nat := Ascii.nat_of_ascii c.

(** [\d] *)
Definition is_digit (c : ascii) : bool :=
  (48 <=? code_of c)%nat && (code_of c <=? 57)%nat.

Definition is_upper (c : ascii) : bool :=
  (65 <=? code_of c)%nat && (code_of c <=? 90)%nat.

Definition is_lower (c : ascii) : bool :=
  (97 <=? code_of c)%nat && (code_of c <=? 122)%nat.

(** [[A-Za-z]] *)
Definition is_alpha (c : ascii) : bool := is_upper c || is_lower c.

(** [[a-zA-Z0-9]] *)
Definition is_alnum (c : ascii) : bool := is_alpha c || is_digit c.

(** White space as [String.prototype.trim] sees it: TAB, LF, VT, FF, CR
    and SPACE. *)
Definition is_space (c : ascii) : bool :=
  ((9 <=? code_of c)%nat && (code_of c <=? 13)%nat) || (code_of c =? 32)%nat.

Fixpoint drop_spaces (l : list ascii) : list ascii :=
  match l with
  | c :: rest => if is_space c then drop_spaces rest else l
  | [] => []
  end.

(** [s.trim()] *)
Definition trim (s : string) : string :=
  String.string_of_list_ascii
    (rev (drop_spaces (rev (drop_spaces (chars s))))).

Definition upper_char (c : ascii) : ascii :=
  if is_lower c then Ascii.ascii_of_nat (code_of c - 32) else c.

(** [s.toUpperCase()] *)
Definition toUpperCase (s : string) : string :=
  String.string_of_list_ascii (map upper_char (chars s)).

(** [/^\d{11}$/] *)
Definition re_NG (s : string) : bool :=
  (length (chars s) =? 11)%nat && forallb is_digit (chars s).

(** An optional hyphen: [-?] *)
Definition skip_hyphen (l : list ascii) : list ascii :=
  match l with
  | c :: rest => if (code_of c =? 45)%nat then rest else l
  | [] => []
  end.

(** [\d{n}] at the head of [l]: the rest of the input on a match. *)
Definition digits_then (n : nat) (l : list ascii) : option (list ascii) :=
  if (n <=? length l)%nat && forallb is_digit (take n l)
  then Some (drop n l)
  else None.

(** [/^\d{3}-?\d{2}-?\d{4}$/] *)
Definition re_US (s : string) : bool :=
  match digits_then 3 (chars s) with
  | None => false
  | Some r1 =>
      match digits_then 2 (skip_hyphen r1) with
      | None => false
      | Some r2 =>
          match digits_then 4 (skip_hyphen r2) with
          | Some [] => true
          | _ => false
          end
      end
  end.

(** [/^[A-Za-z]{2}\d{6}[A-Za-z]$/] *)
Definition re_UK (s : string) : bool :=
  let l := chars s in
  (length l =? 9)%nat
  && forallb is_alpha (take 2 l)
  && forallb is_digit (take 6 (drop 2 l))
  && forallb is_alpha (drop 8 l).

(** [/^[a-zA-Z0-9]{8,20}$/] *)
Definition re_DEFAULT (s : string) : bool :=
  let l := chars s in
  (8 <=? length l)%nat && (length l <=? 20)%nat && forallb is_alnum l.

Definition digit_value (c : ascii) : Z := Z.of_nat (code_of c - 48).

(** [parseInt(s)] on a string of decimal digits *)
Definition parseInt (l : list ascii) : Z :=
  foldl (fun acc c => acc * 10 + digit_value c) 0 l.

End Text.

(** [limiter]'s [RateLimiter], as far as the service calls it. *)
Class RateLimiter (L : Type) := {
  (** [await rateLimiter.removeTokens(count)]: the remaining tokens, or a
      rejection *)
  removeTokens : Z -> L -> Completion Z * L
}.

Module NINService.

(** The [keypair] property of an answer: the [Keypair] that
    [Keypair.fromSeed] made, or what the cache keeps and hands out in its
    place.  [node-cache] copies every value it stores and every value it
    returns (its option [useClones] is on unless it is switched off, and
    the service does not switch it off) with the package [clone], which
    rebuilds an object property by property; the byte arrays of a
    [Keypair] come out as plain objects, so the copy is no key pair: it has
    the bytes of [keypair] and cannot sign. *)
Inductive KeypairValue `{Web3} :=
| TheKeypair (keypair : Keypair)
| CloneOf (keypair : Keypair).

(** The object literals the service builds and caches
    ([NINValidationResult], [NINAddressResult], [NINVerificationResult],
    [NINHashResult], each possibly with [cached]); an absent or
    [undefined] property is [None]. *)
Record NinObject `{Web3} := mkNinObject {
  isValid : option bool;
  success : option bool;
  address : option string;
  keypair : option KeypairValue;
  hash : option string;
  error : option string;
  countryCode : option string;
  cached : option bool
}.
Arguments mkNinObject {_} isValid success address keypair hash error countryCode cached.

(** The module-level state: [rateLimiter] and [ninCache].  The cache maps a
    key to the copy it keeps of the value and to the TTL in seconds the
    value was set with ([None] is the cache's [stdTTL] of 300).  The cache
    drops an entry once its TTL has run out; the model has no clock for
    the cache, and [ninCache] holds the entries that are alive: it covers
    the calls made while the entries they find are alive. *)
Record State (L : Type) `{Web3} := mkState {
  rateLimiter : L;
  ninCache : gmap string (NinObject * option Z)
}.
Arguments mkState {L _} rateLimiter ninCache.
Arguments rateLimiter {L _} s.
Arguments ninCache {L _} s.

Inductive Pattern :=
| P_NG
| P_US
| P_UK
| P_DEFAULT.

Definition pattern_test (p : Pattern) (s : string) : bool :=
  match p with
  | P_NG => Text.re_NG s
  | P_US => Text.re_US s
  | P_UK => Text.re_UK s
  | P_DEFAULT => Text.re_DEFAULT s
  end.

(** The property names every object inherits from [Object.prototype]. *)
Definition Object_prototype_keys : list string :=
  [ "constructor"; "__defineGetter__"; "__defineSetter__"; "hasOwnProperty";
    "__lookupGetter__"; "__lookupSetter__"; "isPrototypeOf";
    "propertyIsEnumerable"; "toString"; "valueOf"; "__proto__";
    "toLocaleString" ].

(** [NIN_PATTERNS[countryCode] || NIN_PATTERNS.DEFAULT]: a pattern, or an
    inherited property that is truthy and has no [test] method. *)
Definition lookup_pattern (countryCode : string) : option Pattern :=
  if String.eqb countryCode "NG" then Some P_NG
  else if String.eqb countryCode "US" then Some P_US
  else if String.eqb countryCode "UK" then Some P_UK
  else if String.eqb countryCode "DEFAULT" then Some P_DEFAULT
  else if existsb (String.eqb countryCode) Object_prototype_keys then None
  else Some P_DEFAULT.

(** [digits.slice(0, 10).reduce((sum, digit, i) => sum + digit * (10 - i), 0)],
    from index [i] on *)
Fixpoint weighted_sum (i : Z) (digits : list Z) (sum : Z) : Z :=
  match digits with
  | [] => sum
  | digit :: rest => weighted_sum (i + 1) rest (sum + digit * (10 - i))
  end.

Definition validateNGNIN (nin : string) : bool :=
  if negb (Text.re_NG nin) then false
  else
    let l := Text.chars nin in
    let stateCode := Text.parseInt (take 3 l) in
    let checkDigit := Text.parseInt (take 1 (drop 10 l)) in
    if (stateCode <? 1) || (stateCode >? 38) then false
    else
      let digits := map Text.digit_value l in
      let sum := weighted_sum 0 (take 10 digits) 0 in
      let computedCheck := (sum mod 11) mod 10 in
      computedCheck =? checkDigit.

Section NINService.
Context {L : Type} `{RateLimiter L} `{Web3} `{Hashes}.
Variable env_NIN_SALT : option string.

Definition MS := M (State L).

Definition clone_keypair (v : KeypairValue) : KeypairValue :=
  match v with
  | TheKeypair kp | CloneOf kp => CloneOf kp
  end.

(** [clone(value)], on the objects the service caches: strings and
    booleans are copied as they are. *)
Definition clone (o : NinObject) : NinObject :=
  mkNinObject (isValid o) (success o) (address o) (clone_keypair <$> keypair o)
    (hash o) (error o) (countryCode o) (cached o).

(** [ninCache.get(key)]: a copy of what the cache keeps *)
Definition cache_get (key : string) : MS (option NinObject) :=
  read_world (fun s => (fun entry => clone (fst entry)) <$> ninCache s !! key).

(** [ninCache.set(key, value, ttl?)]: the cache keeps a copy of the value *)
Definition cache_set (key : string) (value : NinObject) (ttl : option Z) : MS unit :=
  update_world
    (fun s => mkState (rateLimiter s) (<[key := (clone value, ttl)]> (ninCache s))).

(** [{ ...o, cached: true }] *)
Definition with_cached (o : NinObject) : NinObject :=
  mkNinObject (isValid o) (success o) (address o) (keypair o) (hash o)
    (error o) (countryCode o) (Some true).

Definition validation_result (valid : bool) (err : option string) (cc : string)
    : NinObject :=
  mkNinObject (Some valid) None None None None err (Some cc) None.

Definition validateNIN (nin : string) (countryCode_arg : option string)
    : MS NinObject :=
  let countryCode := default "NG" countryCode_arg in
  if String.eqb nin EmptyString then
    ret (validation_result false (Some "NIN is required") countryCode)
  else
    let cacheKey := "nin_validation_" +:+ countryCode +:+ "_" +:+ nin in
    cached <- cache_get cacheKey ;;
    match cached with
    | Some c => ret (with_cached c)
    | None =>
        let normalizedNIN := Text.toUpperCase (Text.trim nin) in
        match lookup_pattern countryCode with
        | None => throw (Error "pattern.test is not a function")
        | Some pattern =>
            if negb (pattern_test pattern normalizedNIN) then
              let result :=
                validation_result false
                  (Some ("Invalid NIN format for country " +:+ countryCode))
                  countryCode in
              cache_set cacheKey result (Some 60) ;;;
              ret result
            else if String.eqb countryCode "NG" && negb (validateNGNIN normalizedNIN) then
              let result :=
                validation_result false (Some "Invalid Nigerian NIN format")
                  countryCode in
              cache_set cacheKey result (Some 60) ;;;
              ret result
            else
              let result := validation_result true None countryCode in
              cache_set cacheKey result None ;;;
              ret result
        end
    end.

(** [private static async checkRateLimit(ip)] *)
Definition checkRateLimit (ip : string) : MS bool :=
  try_catch
    (remaining <-
       call_world (fun s =>
         let '(r, l') := removeTokens 1 (rateLimiter s) in
         (r, mkState l' (ninCache s))) ;;
     ret (remaining >=? 0))
    (fun _ => ret false).

(** [x || fallback] on an optional string *)
Definition or_string (x : option string) (fallback : string) : string :=
  match x with
  | Some s => if String.eqb s EmptyString then fallback else s
  | None => fallback
  end.

Definition is_true (b : option bool) : bool := default false b.

Definition failure (err : option string) (cc : option string) : NinObject :=
  mkNinObject None (Some false) None None None err cc None.

Definition generateAddress (nin : string) (ip_arg countryCode_arg : option string)
    : MS NinObject :=
  let ip := default "default" ip_arg in
  let countryCode := default "NG" countryCode_arg in
  try_catch
    (allowed <- checkRateLimit ip ;;
     if negb allowed then
       ret (failure (Some "Rate limit exceeded. Please try again later.") None)
     else
       let cacheKey := "nin_address_" +:+ countryCode +:+ "_" +:+ nin in
       cached <- cache_get cacheKey ;;
       match cached with
       | Some c => ret (with_cached c)
       | None =>
           validation <- validateNIN nin (Some countryCode) ;;
           if negb (is_true (isValid validation)) then
             ret (failure (Some (or_string (error validation) "Invalid NIN format"))
                    (NINService.countryCode validation))
           else
             match Crypto.generateSeedFromNIN env_NIN_SALT nin with
             | Throw e => throw e
             | Return seed =>
                 match Keypair_fromSeed (take 32 seed) with
                 | Throw e => throw e
                 | Return kp =>
                     let addr := PublicKey_toBase58 (Keypair_publicKey kp) in
                     let result :=
                       mkNinObject None (Some true) (Some addr) (Some (TheKeypair kp))
                         None None (NINService.countryCode validation) None in
                     cache_set cacheKey result None ;;;
                     ret result
                 end
             end
       end)
    (fun err => ret (failure (Some (message err)) (Some countryCode))).

Definition verification (valid : bool) (err : option string) (cc : option string)
    : NinObject :=
  mkNinObject (Some valid) None None None None err cc None.

Definition verifyAddress (nin addr : string) (ip_arg countryCode_arg : option string)
    : MS NinObject :=
  let ip := default "default" ip_arg in
  let countryCode := default "NG" countryCode_arg in
  try_catch
    (allowed <- checkRateLimit ip ;;
     if negb allowed then
       ret (verification false
              (Some "Rate limit exceeded. Please try again later.")
              (Some countryCode))
     else
       let cacheKey :=
         "nin_verify_" +:+ countryCode +:+ "_" +:+ nin +:+ "_" +:+ addr in
       cached <- cache_get cacheKey ;;
       match cached with
       | Some c => ret (with_cached c)
       | None =>
           validation <- validateNIN nin (Some countryCode) ;;
           if negb (is_true (isValid validation)) then
             ret (verification false (error validation)
                    (NINService.countryCode validation))
           else
             match AddressGeneration.verifyAddressForNIN env_NIN_SALT nin addr with
             | Throw e => throw e
             | Return ok =>
                 let result :=
                   verification ok None (NINService.countryCode validation) in
                 cache_set cacheKey result (Some (if ok then 3600 else 300)) ;;;
                 ret result
             end
       end)
    (fun err => ret (verification false (Some (message err)) (Some countryCode))).

(** A call [f(a, ...surplus)] of a function declared with one parameter:
    JavaScript evaluates the surplus arguments and drops them. *)
Definition call_arity1 {A B} (f : A -> B) (a : A) (surplus : list JsVal) : B := f a.

Definition hashNIN (nin : string) (saltRounds_arg : option Z)
    (countryCode_arg : option string) : MS NinObject :=
  let saltRounds := default 10 saltRounds_arg in
  let countryCode := default "NG" countryCode_arg in
  try_catch
    (validation <- validateNIN nin (Some countryCode) ;;
     if negb (is_true (isValid validation)) then
       ret (failure (error validation) (NINService.countryCode validation))
     else
       let cacheKey := "nin_hash_" +:+ countryCode +:+ "_" +:+ nin in
       cached <- cache_get cacheKey ;;
       match cached with
       | Some c => ret (with_cached c)
       | None =>
           match call_arity1 (Crypto.hashNIN env_NIN_SALT) nin [JNum saltRounds] with
           | Throw e => throw e
           | Return hashedNIN =>
               let result :=
                 mkNinObject None (Some true) None None (Some hashedNIN) None
                   (NINService.countryCode validation) None in
               cache_set cacheKey result None ;;;
               ret result
           end
       end)
    (fun err => ret (failure (Some (message err)) (Some countryCode))).

(** An element of the array [batchVerify] returns:
    [{ ...result, nin, address }]. *)
Record VerifiedPair := mkVerifiedPair {
  pair_result : NinObject;
  pair_nin : string
}.

(** [{ ...result, nin, address }] *)
Definition echo_pair (result : NinObject) (nin addr : string) : VerifiedPair :=
  mkVerifiedPair
    (mkNinObject (isValid result) (success result) (Some addr) (keypair result)
       (hash result) (error result) (countryCode result) (cached result))
    nin.

(** [batchVerify]; [checkRateLimit] is called with the batch size as a
    second argument, which it does not declare.  The verifications are run
    one after the other in input order; each asks the limiter first and
    reads the cache after that. *)
Definition batchVerify (verifications : list (string * string))
    (ip_arg countryCode_arg : option string) : MS (list VerifiedPair) :=
  let ip := default "default" ip_arg in
  let countryCode := default "NG" countryCode_arg in
  allowed <- call_arity1 checkRateLimit ip
               [JNum (Z.of_nat (length verifications))] ;;
  if negb allowed then
    throw (Error "Rate limit exceeded. Please reduce batch size or try again later.")
  else
    BlockchainService.promise_all_map
      (fun na : string * string =>
         result <- verifyAddress (fst na) (snd na) (Some ip) (Some countryCode) ;;
         ret (echo_pair result (fst na) (snd na)))
      verifications.

(** [pattern.endsWith('*')] *)
Definition ends_with_star (pattern : string) : bool :=
  match last (Text.chars pattern) with
  | Some c => (Text.code_of c =? 42)%nat
  | None => false
  end.

(** [pattern.slice(0, -1)] *)
Definition drop_last_char (pattern : string) : string :=
  String.string_of_list_ascii (removelast (Text.chars pattern)).

(** The filter of [invalidateCache]: a pattern that ends with a star
    matches the keys that start with the rest of it, any other pattern
    matches itself. *)
Definition pattern_matches (pattern key : string) : bool :=
  if ends_with_star pattern
  then String.prefix (drop_last_char pattern) key
  else String.eqb key pattern.

(** [ninCache.keys()] *)
Definition cache_keys (cache : gmap string (NinObject * option Z)) : list string :=
  (map_to_list cache).*1.

(** [ninCache.del(key)]: the number of entries deleted, and the cache *)
Definition cache_del (key : string) (cache : gmap string (NinObject * option Z))
    : Z * gmap string (NinObject * option Z) :=
  match cache !! key with
  | Some _ => (1, delete key cache)
  | None => (0, cache)
  end.

(** The body of [keys.forEach]:
    [if (ninCache.del(key) > 0) deletedCount++] *)
Definition delete_step (a : gmap string (NinObject * option Z) * Z) (key : string)
    : gmap string (NinObject * option Z) * Z :=
  let '(deleted, cache') := cache_del key (fst a) in
  (cache', if deleted >? 0 then snd a + 1 else snd a).

(** One round of [patterns.forEach]: the keys that match are listed, then
    deleted one by one and counted. *)
Definition invalidate_pattern
    (acc : gmap string (NinObject * option Z) * Z) (pattern : string)
    : gmap string (NinObject * option Z) * Z :=
  let keys := filter (fun key => pattern_matches pattern key = true)
                (cache_keys (fst acc)) in
  foldl delete_step acc keys.

Definition invalidation_patterns (nin countryCode : string) : list string :=
  [ "nin_validation_" +:+ countryCode +:+ "_" +:+ nin;
    "nin_address_" +:+ countryCode +:+ "_" +:+ nin;
    "nin_verify_" +:+ countryCode +:+ "_" +:+ nin +:+ "_*";
    "nin_hash_" +:+ countryCode +:+ "_" +:+ nin ].

Definition invalidateCache (nin : string) (countryCode_arg : option string) : MS bool :=
  let countryCode := default "NG" countryCode_arg in
  try_catch
    (cache <- read_world ninCache ;;
     let '(cache', deletedCount) :=
       foldl invalidate_pattern (cache, 0) (invalidation_patterns nin countryCode) in
     update_world (fun s => mkState (rateLimiter s) cache') ;;;
     ret (deletedCount >? 0))
    (fun _ => ret false).

End NINService.
End NINService.

(** ** src/lib/services/VerificationService.ts: the retry helper *)

Module VerificationService.
Section VerificationService.
Context {W : Type} `{Runtime W} {T : Type}.
(** [this.maxRetries] and [this.retryDelay] *)
Variable maxRetries : Z.
Variable retryDelay : Z.

(** [private async withRetry(operation, errorMessage, retryCount = 0)];
    the fuel bounds the depth of the recursion. *)
Fixpoint withRetry (fuel : nat) (operation : M W T) (errorMessage : string)
    (retryCount : Z) : M W T :=
  try_catch
    (record Invoked ;;; operation)
    (fun error =>
       if retryCount >=? maxRetries then
         throw (Error (errorMessage +:+ " after " +:+ pretty maxRetries
                       +:+ " attempts: " +:+ message error))
       else
         Async.sleep (retryDelay * 2 ^ retryCount) ;;;
         match fuel with
         | O => diverge
         | S fuel' => withRetry fuel' operation errorMessage (retryCount + 1)
         end).

(** The call [this.withRetry(operation, errorMessage)] of
    [verifyCredential]. *)
Definition withRetry_call (operation : M W T) (errorMessage : string) : M W T :=
  withRetry (Z.to_nat maxRetries) operation errorMessage 0.

End VerificationService.
End VerificationService.

(** ** src/lib/services/BlockchainService.ts: creating an attestation *)

Module CreateAttestation.

(** [AttestationData]; [metadata] and further keys only reach the ledger
    through [JSON.stringify]. *)
Record AttestationData := mkAttestationData {
  credentialId : string;
  studentId : string;
  universityId : string;
  attestationType : string
}.

(** An element of [keys] of a [TransactionInstruction] *)
Record AccountMeta `{Web3} := mkAccountMeta {
  pubkey : PublicKey;
  isSigner : bool;
  isWritable : bool
}.
Arguments mkAccountMeta {_} pubkey isSigner isWritable.

(** What [createAttestation] resolves with. *)
Record Created := mkCreated {
  success : bool;
  transactionId : option string;
  error : option string;
  attestationAddress : option string
}.

Class Instructions `{Web3} := {
  (** [PublicKey.findProgramAddress(seeds, programId)] *)
  PublicKey_findProgramAddress : list Buffer -> PublicKey -> Completion (PublicKey * Z);
  (** [JSON.stringify({ type: 'create_attestation', ...data })] *)
  JSON_stringify : AttestationData -> Completion string;
  (** [new Transaction().add(new TransactionInstruction({ programId, keys,
      data }))] *)
  Transaction_of_instruction : PublicKey -> list AccountMeta -> Buffer -> Transaction
}.

Section CreateAttestation.
Context {W : Type} `{Runtime W} `{Connection W} `{Listeners W} `{!Instructions}.
(** [this.programId] and [this.wallet] *)
Variable programId : PublicKey.
Variable wallet : Keypair.

(** [Buffer.from(s)] *)
Definition Buffer_from (s : string) : Buffer := String.list_byte_of_string s.

(** A synchronous call that may throw *)
Definition evaluate {A} (c : Completion A) : M W A :=
  match c with
  | Return a => ret a
  | Throw e => throw e
  end.

(** [findAttestationAddress(credentialId, attestationType)] *)
Definition findAttestationAddress (credentialId attestationType : string)
    : M W (PublicKey * Z) :=
  let seeds := [Buffer_from "attestation"; Buffer_from credentialId;
                Buffer_from attestationType] in
  evaluate (PublicKey_findProgramAddress seeds programId).

(** [createAttestation(data)]; the submission is given fuel for [pollFuel]
    polls per attempt. *)
Definition createAttestation (pollFuel : nat) (data : AttestationData) : M W Created :=
  try_catch
    (found <- findAttestationAddress (credentialId data) (attestationType data) ;;
     let address := fst found in
     student <- evaluate (PublicKey_new (studentId data)) ;;
     university <- evaluate (PublicKey_new (universityId data)) ;;
     payload <- evaluate (JSON_stringify data) ;;
     let tx :=
       Transaction_of_instruction programId
         [ mkAccountMeta address false true;
           mkAccountMeta student false false;
           mkAccountMeta university false false;
           mkAccountMeta (Keypair_publicKey wallet) true true ]
         (Buffer_from payload) in
     sent <- BlockchainService.sendTransactionWithRetry wallet pollFuel tx []
               (BlockchainService.mkSendTransactionOptions None None None) ;;
     ret (mkCreated true (Some (BlockchainService.signature sent)) None
            (Some (PublicKey_toBase58 address))))
    (fun err => ret (mkCreated false None (Some (message err)) None)).

End CreateAttestation.
End CreateAttestation.

(** ** src/lib/solana/address-generation.ts: [SolanaAttestationService] *)

Module SolanaAttestationService.
Section SolanaAttestationService.
Context {W : Type} `{Connection W}.

(** [verifyAttestation(attestationAddress)]: the account exists. *)
Definition verifyAttestation (attestationAddress : string) : M W bool :=
  try_catch
    (match PublicKey_new attestationAddress with
     | Throw e => throw e
     | Return pubkey =>
         accountInfo <- (record (Requested GetAccountInfo) ;;;
                         call_world (getAccountInfo pubkey)) ;;
         ret (match accountInfo with
              | Some _ => true
              | None => false
              end)
     end)
    (fun _ => ret false).

End SolanaAttestationService.
End SolanaAttestationService.

(** ** src/lib/services/BlockchainService.ts: session, socket and
       subscriptions

    The fields of the service that outlive a call, and the methods and
    callbacks that run without an [await] on them.  Of the methods that
    await a response, [logoutFromSAS] is here (it awaits once, and cleans
    up after it whatever happened meanwhile); [authenticateWithSAS],
    [refreshSASSession] and the [onmessage] handler with [handleSASEvent]
    are not: what they do to the fields is to assign a session and to call
    methods that are here. *)

Module BlockchainSession.

(** [this.sasConfig], as the constructor stores it: [sessionTimeout],
    [autoRefresh] and [wsEndpoint] are set. *)
Record SASConfig := mkSASConfig {
  apiKey : string;
  authEndpoint : string;
  sessionTimeout : Z;
  autoRefresh : bool;
  wsEndpoint : string
}.

(** [SASSession], without [user], which the service stores and never
    reads; an absent [refreshToken] is [None]. *)
Record SASSession := mkSASSession {
  token : string;
  expiresAt : Z;
  refreshToken : option string
}.

(** The two callbacks the service hands to [setTimeout]. *)
Inductive Task :=
| RefreshSession
| Reconnect.

(** The calls the service makes on its host: timers, sockets, [fetch], the
    connection's subscriptions, its own [EventEmitter]. *)
Inductive Call :=
| SetTimeout (task : Task) (ms : Z)
| ClearTimeout (handle : Z)
| NewWebSocket (url : string)
| SocketClose (socket : Z)
| Fetch (url authorization : string)
| OnAccountChange (account : string) (commitment : Commitment)
| RemoveAccountChangeListener (id : Z)
| OnLogs (commitment : Commitment)
| RemoveOnLogsListener (id : Z)
| RemoveAllListeners.

Class Host (H : Type) `{Web3} := {
  (** [setTimeout(callback, ms)]: the handle *)
  setTimeout : Task -> Z -> H -> Z * H;
  clearTimeout : Z -> H -> H;
  (** [new WebSocket(url)]: the socket *)
  WebSocket_new : string -> H -> Completion Z * H;
  (** [socket.close()] *)
  WebSocket_close : Z -> H -> Completion unit * H;
  encodeURIComponent : string -> string;
  (** [await fetch(url, { method: 'POST', headers: { Authorization } })],
      the response dropped *)
  fetch : string -> string -> H -> Completion unit * H;
  (** [connection.onAccountChange(account, callback, commitment)] *)
  onAccountChange : PublicKey -> Commitment -> H -> Completion Z * H;
  removeAccountChangeListener : Z -> H -> Completion unit * H;
  (** [connection.onLogs(programId, callback, commitment)] *)
  onLogs : PublicKey -> Commitment -> H -> Completion Z * H;
  removeOnLogsListener : Z -> H -> Completion unit * H;
  (** [this.removeAllListeners()] *)
  removeAllListeners : H -> H
}.

(** The service object: its fields; the sockets on which its handlers are
    set ([wired]); the host; the calls made on the host, oldest first.
    [accountChangeListeners] is a [Map], kept in insertion order. *)
Record Service (H : Type) := mkService {
  sasConfig : option SASConfig;
  sasSession : option SASSession;
  sasRefreshTimeout : option Z;
  ws : option Z;
  reconnectAttempts : Z;
  accountChangeListeners : list (string * Z);
  logsSubscriptionId : option Z;
  wired : list Z;
  host : H;
  calls : list Call
}.
Arguments mkService {H} sasConfig sasSession sasRefreshTimeout ws reconnectAttempts
  accountChangeListeners logsSubscriptionId wired host calls.
Arguments sasConfig {H} s.
Arguments sasSession {H} s.
Arguments sasRefreshTimeout {H} s.
Arguments ws {H} s.
Arguments reconnectAttempts {H} s.
Arguments accountChangeListeners {H} s.
Arguments logsSubscriptionId {H} s.
Arguments wired {H} s.
Arguments host {H} s.
Arguments calls {H} s.

(** [private maxReconnectAttempts = 5] *)
Definition maxReconnectAttempts : Z := 5.
(** [private reconnectDelay = 1000] *)
Definition reconnectDelay : Z := 1000.

(** [s.replace(/\/$/, '')] *)
Definition strip_trailing_slash (s : string) : string :=
  match last (Text.chars s) with
  | Some c =>
      if (Text.code_of c =? 47)%nat
      then String.string_of_list_ascii (removelast (Text.chars s))
      else s
  | None => s
  end.

(** What [listenToAccountChanges] returns: the closure of the path that
    finds the account registered, and the closure of the path that
    registers it. *)
Inductive AccountCleanup :=
| Unsubscribe (subId : Z)
| UnsubscribeAndForget (subId : Z) (key : string).

(** What a socket tells its handlers ([onmessage] is not modelled). *)
Inductive SocketEvent :=
| Opened
| Closed
| Errored.

Section BlockchainSession.
Context {H : Type} `{Runtime H} `{Web3} `{!Host H}.
(** [this.programId] *)
Variable programId : PublicKey.

Definition MS := M (Service H).

Definition set_sasSession (v : option SASSession) (s : Service H) : Service H :=
  mkService (sasConfig s) v (sasRefreshTimeout s) (ws s) (reconnectAttempts s)
    (accountChangeListeners s) (logsSubscriptionId s) (wired s) (host s) (calls s).

Definition set_sasRefreshTimeout (v : option Z) (s : Service H) : Service H :=
  mkService (sasConfig s) (sasSession s) v (ws s) (reconnectAttempts s)
    (accountChangeListeners s) (logsSubscriptionId s) (wired s) (host s) (calls s).

Definition set_ws (v : option Z) (s : Service H) : Service H :=
  mkService (sasConfig s) (sasSession s) (sasRefreshTimeout s) v (reconnectAttempts s)
    (accountChangeListeners s) (logsSubscriptionId s) (wired s) (host s) (calls s).

Definition set_reconnectAttempts (v : Z) (s : Service H) : Service H :=
  mkService (sasConfig s) (sasSession s) (sasRefreshTimeout s) (ws s) v
    (accountChangeListeners s) (logsSubscriptionId s) (wired s) (host s) (calls s).

Definition set_accountChangeListeners (v : list (string * Z)) (s : Service H)
    : Service H :=
  mkService (sasConfig s) (sasSession s) (sasRefreshTimeout s) (ws s)
    (reconnectAttempts s) v (logsSubscriptionId s) (wired s) (host s) (calls s).

Definition set_logsSubscriptionId (v : option Z) (s : Service H) : Service H :=
  mkService (sasConfig s) (sasSession s) (sasRefreshTimeout s) (ws s)
    (reconnectAttempts s) (accountChangeListeners s) v (wired s) (host s) (calls s).

Definition set_wired (v : list Z) (s : Service H) : Service H :=
  mkService (sasConfig s) (sasSession s) (sasRefreshTimeout s) (ws s)
    (reconnectAttempts s) (accountChangeListeners s) (logsSubscriptionId s) v
    (host s) (calls s).

(** A call on the host: it is logged, then made. *)
Definition call_host {A} (c : Call) (f : H -> Completion A * H) : MS A :=
  call_world (fun s =>
    let '(r, h') := f (host s) in
    (r, mkService (sasConfig s) (sasSession s) (sasRefreshTimeout s) (ws s)
          (reconnectAttempts s) (accountChangeListeners s) (logsSubscriptionId s)
          (wired s) h' (calls s ++ [c]))).

(** A call on the host that does not throw. *)
Definition always {A} (f : H -> A * H) (h : H) : Completion A * H :=
  let '(a, h') := f h in (Return a, h').

(** [scheduleReconnect()] *)
Definition scheduleReconnect : MS unit :=
  s <- read_world id ;;
  match sasSession s with
  | None => ret tt
  | Some _ =>
      if reconnectAttempts s >=? maxReconnectAttempts then ret tt
      else
        let attempts := reconnectAttempts s + 1 in
        update_world (set_reconnectAttempts attempts) ;;;
        let delay := Z.min (reconnectDelay * 2 ^ (attempts - 1)) 30000 in
        call_host (SetTimeout Reconnect delay) (always (setTimeout Reconnect delay)) ;;;
        ret tt
  end.

(** [initializeWebSocketConnection()]; setting the four handlers on the
    socket is [wired]. *)
Definition initializeWebSocketConnection : MS unit :=
  s <- read_world id ;;
  match ws s with
  | Some _ => ret tt
  | None =>
      match sasConfig s with
      | None => ret tt
      | Some config =>
          if String.eqb (wsEndpoint config) EmptyString then ret tt
          else
            match sasSession s with
            | None => ret tt
            | Some session =>
                if String.eqb (token session) EmptyString then ret tt
                else
                  let url := wsEndpoint config +:+ "?token="
                             +:+ encodeURIComponent (token session) in
                  created <-
                    try_catch
                      (socket <- call_host (NewWebSocket url) (WebSocket_new url) ;;
                       update_world (set_ws (Some socket)) ;;;
                       ret true)
                      (fun _ => scheduleReconnect ;;; ret false) ;;
                  if created : bool then
                    s' <- read_world id ;;
                    match ws s' with
                    | Some socket => update_world (set_wired (socket :: wired s'))
                    | None => ret tt
                    end
                  else ret tt
            end
      end
  end.

(** The handler [this.ws.onopen] *)
Definition onopen : MS unit := update_world (set_reconnectAttempts 0).

(** The handler [this.ws.onclose] *)
Definition onclose : MS unit :=
  update_world (set_ws None) ;;;
  scheduleReconnect.

(** The handler [this.ws.onerror]: [this.ws?.close()] *)
Definition onerror : MS unit :=
  s <- read_world id ;;
  match ws s with
  | Some socket => call_host (SocketClose socket) (WebSocket_close socket)
  | None => ret tt
  end.

(** A socket reports to the handlers set on it, if any. *)
Definition socket_event (socket : Z) (ev : SocketEvent) : MS unit :=
  s <- read_world id ;;
  if bool_decide (socket ∈ wired s) then
    match ev with
    | Opened => onopen
    | Closed => onclose
    | Errored => onerror
    end
  else ret tt.

(** [cleanupWebsocket()] *)
Definition cleanupWebsocket : MS unit :=
  s <- read_world id ;;
  match ws s with
  | None => ret tt
  | Some socket =>
      try_catch
        (update_world (set_wired (filter (fun x => x <> socket) (wired s))) ;;;
         call_host (SocketClose socket) (WebSocket_close socket))
        (fun _ => ret tt) ;;;
      update_world (set_ws None)
  end.

(** [cleanupSession()]; a timer handle is an object, which is truthy. *)
Definition cleanupSession : MS unit :=
  s <- read_world id ;;
  (match sasRefreshTimeout s with
   | Some handle =>
       call_host (ClearTimeout handle)
         (always (fun h => (tt, clearTimeout handle h))) ;;;
       update_world (set_sasRefreshTimeout None)
   | None => ret tt
   end) ;;;
  cleanupWebsocket ;;;
  update_world (set_sasSession None).

(** [x] is [undefined] or the empty string: [!x] *)
Definition falsy (x : option string) : bool :=
  match x with
  | Some s => String.eqb s EmptyString
  | None => true
  end.

(** [setupSessionRefresh()]; the callback of the timer is
    [RefreshSession]. *)
Definition setupSessionRefresh : MS unit :=
  s <- read_world id ;;
  match sasSession s, sasConfig s with
  | Some session, Some config =>
      if negb (autoRefresh config) || falsy (refreshToken session) then ret tt
      else
        (match sasRefreshTimeout s with
         | Some handle =>
             call_host (ClearTimeout handle)
               (always (fun h => (tt, clearTimeout handle h)))
         | None => ret tt
         end) ;;;
        now <- read_world (fun s => Date_now (host s)) ;;
        let msBefore := Z.max 0 (expiresAt session - now - 300000) in
        handle <- call_host (SetTimeout RefreshSession msBefore)
                    (always (setTimeout RefreshSession msBefore)) ;;
        update_world (set_sasRefreshTimeout (Some handle))
  | _, _ => ret tt
  end.

(** [isAuthenticatedWithSAS()] *)
Definition isAuthenticatedWithSAS : MS bool :=
  s <- read_world id ;;
  match sasSession s with
  | None => ret false
  | Some session => ret (expiresAt session >? Date_now (host s))
  end.

(** [getSASSession()] *)
Definition getSASSession : MS (option SASSession) := read_world sasSession.

(** [logoutFromSAS()] *)
Definition logoutFromSAS : MS unit :=
  s <- read_world id ;;
  match sasSession s, sasConfig s with
  | Some session, Some config =>
      try_catch
        (let url := strip_trailing_slash (authEndpoint config) +:+ "/logout" in
         let authorization := "Bearer " +:+ token session in
         call_host (Fetch url authorization) (fetch url authorization))
        (fun _ => ret tt) ;;;
      cleanupSession
  | _, _ => cleanupSession
  end.

(** [this.accountChangeListeners.get(key)] *)
Fixpoint registry_get (key : string) (l : list (string * Z)) : option Z :=
  match l with
  | [] => None
  | (k, v) :: rest => if String.eqb k key then Some v else registry_get key rest
  end.

(** [this.accountChangeListeners.delete(key)] *)
Definition registry_delete (key : string) (l : list (string * Z)) : list (string * Z) :=
  filter (fun kv => kv.1 <> key) l.

(** [listenToAccountChanges(account, commitment = 'confirmed')] *)
Definition listenToAccountChanges (account : PublicKey) (commitment_arg : option Commitment)
    : MS AccountCleanup :=
  let commitment := default confirmed commitment_arg in
  let key := PublicKey_toBase58 account in
  s <- read_world id ;;
  match registry_get key (accountChangeListeners s) with
  | Some subId => ret (Unsubscribe subId)
  | None =>
      subId <- call_host (OnAccountChange key commitment)
                 (onAccountChange account commitment) ;;
      s' <- read_world id ;;
      update_world
        (set_accountChangeListeners (accountChangeListeners s' ++ [(key, subId)])) ;;;
      ret (UnsubscribeAndForget subId key)
  end.

(** Calling the function [listenToAccountChanges] returned *)
Definition run_cleanup (cleanup : AccountCleanup) : MS unit :=
  match cleanup with
  | Unsubscribe subId =>
      try_catch
        (call_host (RemoveAccountChangeListener subId)
           (removeAccountChangeListener subId))
        (fun _ => ret tt)
  | UnsubscribeAndForget subId key =>
      try_catch
        (call_host (RemoveAccountChangeListener subId)
           (removeAccountChangeListener subId))
        (fun _ => ret tt) ;;;
      s <- read_world id ;;
      update_world
        (set_accountChangeListeners (registry_delete key (accountChangeListeners s)))
  end.

(** The removal of the logs subscription, in [listenToProgramLogs], in the
    function it returns and in [shutdown]:
    [if (this.logsSubscriptionId !== null) { try { remove } catch {}
     finally { this.logsSubscriptionId = null } }] *)
Definition remove_logs_subscription : MS unit :=
  s <- read_world id ;;
  match logsSubscriptionId s with
  | Some id_ =>
      try_catch
        (call_host (RemoveOnLogsListener id_) (removeOnLogsListener id_))
        (fun _ => ret tt) ;;;
      update_world (set_logsSubscriptionId None)
  | None => ret tt
  end.

(** [listenToProgramLogs(callback, commitment = 'confirmed')]; the function
    it returns is [remove_logs_subscription]. *)
Definition listenToProgramLogs (commitment_arg : option Commitment) : MS unit :=
  let commitment := default confirmed commitment_arg in
  remove_logs_subscription ;;;
  id_ <- call_host (OnLogs commitment) (onLogs programId commitment) ;;
  update_world (set_logsSubscriptionId (Some id_)).

(** The [for (const [key, id] of this.accountChangeListeners.entries())]
    loop of [shutdown] *)
Fixpoint remove_account_listeners (entries : list (string * Z)) : MS unit :=
  match entries with
  | [] => ret tt
  | (_, id_) :: rest =>
      try_catch
        (call_host (RemoveAccountChangeListener id_) (removeAccountChangeListener id_))
        (fun _ => ret tt) ;;;
      remove_account_listeners rest
  end.

(** [shutdown()] *)
Definition shutdown : MS unit :=
  s <- read_world id ;;
  remove_account_listeners (accountChangeListeners s) ;;;
  update_world (set_accountChangeListeners []) ;;;
  remove_logs_subscription ;;;
  cleanupSession ;;;
  call_host RemoveAllListeners (always (fun h => (tt, removeAllListeners h))).

(** What can happen to the fields of a service, one after the other: a
    session is assigned (by [authenticateWithSAS] and [refreshSASSession],
    after a response), a method is called (by those two, by a timer, by a
    caller), a socket reports. *)
Inductive Op :=
| AssignSession (session : SASSession)
| SetupSessionRefresh
| InitializeWebSocketConnection
| SocketReports (socket : Z) (ev : SocketEvent)
| CleanupSession
| LogoutFromSAS.

Definition perform (op : Op) : MS unit :=
  match op with
  | AssignSession session => update_world (set_sasSession (Some session))
  | SetupSessionRefresh => setupSessionRefresh
  | InitializeWebSocketConnection => initializeWebSocketConnection
  | SocketReports socket ev => socket_event socket ev
  | CleanupSession => cleanupSession
  | LogoutFromSAS => logoutFromSAS
  end.

(** The service after a sequence of these; what a callback throws goes to
    the host, the fields stay as they are at the throw. *)
Fixpoint run (ops : list Op) (m : Machine (Service H)) : Machine (Service H) :=
  match ops with
  | [] => m
  | op :: rest =>
      match perform op m with
      | Some (_, m') => run rest m'
      | None => m
      end
  end.

(** The service as its constructor leaves it. *)
Definition constructed (config : option SASConfig) (h : H) : Service H :=
  mkService config None None None 0 [] None [] h [].

End BlockchainSession.
End BlockchainSession.

(** ** Laws of the clock

    What termination of the confirmation wait rests on: a timer of [ms]
    milliseconds fires no earlier than [ms] milliseconds later, and the
    clock does not run backwards during a request. *)
Class ClockLaws (W : Type) `{Runtime W} `{Connection W} := {
  timer_advances : forall ms w, Date_now w + ms <= Date_now (timer_fires ms w);
  status_monotone :
    forall sig w, Date_now w <= Date_now (snd (getSignatureStatuses sig w));
  slot_monotone : forall c w, Date_now w <= Date_now (snd (getSlot c w))
}.

(** ** Executable stand-ins for the outside world

    Small instances of the interfaces above, to run the model on concrete
    inputs. *)

Module Sim.

(** A stand-in for the digests: the bytes of the input, cut or filled up
    with the character [1] to 32 bytes. *)
Definition toy_digest (s : string) : Buffer :=
  take 32 (String.list_byte_of_string s ++ replicate 32 Byte.x31).

#[export] Instance hashes : Hashes := {|
  CryptoJS_SHA256_hex := fun s => String.string_of_list_byte (toy_digest s);
  crypto_sha256_digest := toy_digest
|}.

(** A key pair is its seed, a public key its bytes, an address the bytes as
    text; an address is well formed when it is a non-empty run of letters
    and digits. *)
#[export] Instance web3 : Web3 := {|
  Keypair := Buffer;
  PublicKey := Buffer;
  Transaction := unit;
  RawTransaction := string;
  Keypair_fromSeed := fun seed =>
    if (length seed =? 32)%nat then Return seed else Throw (Error "bad seed size");
  Keypair_publicKey := fun kp => kp;
  PublicKey_toBase58 := String.string_of_list_byte;
  PublicKey_new := fun s =>
    if negb (String.eqb s EmptyString) && forallb Text.is_alnum (Text.chars s)
    then Return (String.list_byte_of_string s)
    else Throw (Error "Invalid public key input");
  PublicKey_equals := fun a b =>
    String.eqb (String.string_of_list_byte a) (String.string_of_list_byte b);
  sign_and_serialize := fun _ blockhash _ _ => Return ("raw@" +:+ blockhash)
|}.

Definition program : @PublicKey web3 := String.list_byte_of_string "Program1".
Definition wallet : @Keypair web3 := toy_digest "wallet".

(** A ledger that answers from scripts: each request takes the next reply
    of its script, and a fixed reply once the script is used up; every
    request takes [latency] milliseconds. *)
Record World := mkWorld {
  clock : Z;
  latency : Z;
  blockhashes : list (Completion (string * Z));
  sends : list (Completion string);
  statuses : list (Completion (option SignatureStatus));
  slots : list (Completion Z);
  accounts : list (string * AccountInfo);
  randoms : list Z
}.

Definition ECONNRESET : JsError := Error "ECONNRESET".

Definition next {A} (fallback : A) (script : list A) : A * list A :=
  match script with
  | [] => (fallback, [])
  | a :: rest => (a, rest)
  end.

#[export] Instance runtime : Runtime World := {|
  Date_now := clock;
  timer_fires := fun ms w =>
    mkWorld (clock w + ms) (latency w) (blockhashes w) (sends w) (statuses w)
      (slots w) (accounts w) (randoms w);
  Math_random := fun w =>
    let '(k, rest) := next 0 (randoms w) in
    (k, mkWorld (clock w) (latency w) (blockhashes w) (sends w) (statuses w)
          (slots w) (accounts w) rest)
|}.

Fixpoint find_account (pk : Buffer) (l : list (string * AccountInfo))
    : option AccountInfo :=
  match l with
  | [] => None
  | (a, info) :: rest =>
      if String.eqb a (String.string_of_list_byte pk) then Some info
      else find_account pk rest
  end.

#[export] Instance connection : Connection World := {|
  getLatestBlockhash := fun _ w =>
    let '(r, rest) := next (Throw ECONNRESET) (blockhashes w) in
    (r, mkWorld (clock w + latency w) (latency w) rest (sends w) (statuses w)
          (slots w) (accounts w) (randoms w));
  sendRawTransaction := fun _ _ w =>
    let '(r, rest) := next (Throw ECONNRESET) (sends w) in
    (r, mkWorld (clock w + latency w) (latency w) (blockhashes w) rest (statuses w)
          (slots w) (accounts w) (randoms w));
  getSignatureStatuses := fun _ w =>
    let '(r, rest) := next (Return None) (statuses w) in
    (r, mkWorld (clock w + latency w) (latency w) (blockhashes w) (sends w) rest
          (slots w) (accounts w) (randoms w));
  getSlot := fun _ w =>
    let '(r, rest) := next (Return 0) (slots w) in
    (r, mkWorld (clock w + latency w) (latency w) (blockhashes w) (sends w)
          (statuses w) rest (accounts w) (randoms w));
  getAccountInfo := fun pk w =>
    (Return (find_account pk (accounts w)),
     mkWorld (clock w + latency w) (latency w) (blockhashes w) (sends w)
       (statuses w) (slots w) (accounts w) (randoms w))
|}.

(** Account data is kept as text; the one document the stand-in parser
    reads is [credential]. *)
#[export] Instance json : Json := {|
  Buffer_toString_trim := fun raw => Text.trim (String.string_of_list_byte raw);
  JSON_parse := fun s =>
    if String.eqb s "credential"
    then Some (mkAttestation (JStr "cred-1") (JStr "stu-1") (JStr "uni-1")
                 (JStr "UNIVERSITY_ISSUED") (JNum 5) JNull)
    else None
|}.

(** No listener is registered. *)
#[export] Instance listeners : Listeners World := {|
  run_listeners := fun _ _ w => (Return tt, w)
|}.

(** A stand-in for the limiter of the package as the service builds it:
    100 tokens per hour, [fireImmediately] not set.  A request that finds
    the tokens of the running hour used up waits for the next hour and is
    served then; the limiter never resolves with a negative number.  The
    clock counts milliseconds. *)
Record Patient := mkPatient {
  patient_clock : Z;
  hour_start : Z;
  used : Z
}.

Definition hour : Z := 3600000.

Definition patient_removeTokens (count : Z) (b : Patient) : Completion Z * Patient :=
  if count >? 100 then
    (Throw (Error "Requested tokens exceed maximum tokens per interval"), b)
  else
    let b :=
      if hour <=? patient_clock b - hour_start b
      then mkPatient (patient_clock b) (patient_clock b) 0
      else b in
    if count >? 100 - used b then
      (Return (100 - count),
       mkPatient (hour_start b + hour) (hour_start b) (used b + count))
    else
      (Return (100 - used b - count),
       mkPatient (patient_clock b) (hour_start b) (used b + count)).

#[export] Instance patient : RateLimiter Patient := {|
  removeTokens := patient_removeTokens
|}.

(** A hundred calls were served in the first second of the hour. *)
Definition used_up : Patient := mkPatient 1000 0 100.

(** A limiter that answers from a script of replies. *)
#[export] Instance limiter : RateLimiter (list (Completion Z)) := {|
  removeTokens := fun _ script => next (Return 99) script
|}.

(** A ledger with listeners: those of the events that [throwing] selects
    throw. *)
Record Heckled := mkHeckled {
  ledger : World;
  throwing : BlockchainEvent -> bool
}.

Definition on_ledger {A} (f : World -> A * World) (h : Heckled) : A * Heckled :=
  let '(a, w') := f (ledger h) in (a, mkHeckled w' (throwing h)).

#[export] Instance heckled_runtime : Runtime Heckled := {|
  Date_now := fun h => clock (ledger h);
  timer_fires := fun ms h => mkHeckled (timer_fires ms (ledger h)) (throwing h);
  Math_random := on_ledger Math_random
|}.

#[export] Instance heckled_connection : Connection Heckled := {|
  getLatestBlockhash := fun c => on_ledger (getLatestBlockhash c);
  sendRawTransaction := fun raw o => on_ledger (sendRawTransaction raw o);
  getSignatureStatuses := fun sig => on_ledger (getSignatureStatuses sig);
  getSlot := fun c => on_ledger (getSlot c);
  getAccountInfo := fun pk => on_ledger (getAccountInfo pk)
|}.

Definition listener_failure : JsError := Error "listener failed".

#[export] Instance heckled_listeners : Listeners Heckled := {|
  run_listeners := fun ev _ h =>
    if throwing h ev then (Throw listener_failure, h) else (Return tt, h)
|}.

(** The listener of [transaction_failed] throws. *)
Definition failed_listener_throws (ev : BlockchainEvent) : bool :=
  match ev with TRANSACTION_FAILED => true | _ => false end.

(** The listener of [transaction_confirmed] throws. *)
Definition confirmed_listener_throws (ev : BlockchainEvent) : bool :=
  match ev with TRANSACTION_CONFIRMED => true | _ => false end.

(** The listener of [transaction_sent] throws. *)
Definition sent_listener_throws (ev : BlockchainEvent) : bool :=
  match ev with TRANSACTION_SENT => true | _ => false end.

(** A network that refuses every request. *)
Record Outage := mkOutage { outage_clock : Z }.

#[export] Instance outage_runtime : Runtime Outage := {|
  Date_now := outage_clock;
  timer_fires := fun ms w => mkOutage (outage_clock w + ms);
  Math_random := fun w => (0, w)
|}.

#[export] Instance outage_connection : Connection Outage := {|
  getLatestBlockhash := fun _ w => (Throw ECONNRESET, w);
  sendRawTransaction := fun _ _ w => (Throw ECONNRESET, w);
  getSignatureStatuses := fun _ w => (Throw ECONNRESET, w);
  getSlot := fun _ w => (Throw ECONNRESET, w);
  getAccountInfo := fun _ w => (Throw ECONNRESET, w)
|}.

#[export] Instance outage_listeners : Listeners Outage := {|
  run_listeners := fun _ _ w => (Return tt, w)
|}.

Definition start {W} (w : W) : Machine W := mkMachine w [].

Definition empty_cache : gmap string (NINService.NinObject * option Z) := ∅.

Definition world0 : World := mkWorld 0 0 [] [] [] [] [] [].

(** The ledger accepts the transaction and never reports on it; the slot
    is past the last valid height from the first poll on. *)
Definition pending_world : World :=
  mkWorld 0 7000 [Return ("bh1", 100); Return ("bh2", 200)]
    [Return "sig1"; Return "sig2"] [] [Return 500; Return 501] [] [].

(** The ledger accepts the transaction and reports an error for it. *)
Definition rejecting_world : World :=
  mkWorld 0 0 [Return ("bh1", 100); Return ("bh2", 200)]
    [Return "sig1"; Return "sig2"]
    [Return (Some (mkStatus (Some "6001") None))] [] [] [].

(** The ledger confirms the transaction at the second poll. *)
Definition confirming_world : World :=
  mkWorld 0 0 [Return ("bh1", 100)] [Return "sig1"]
    [Return (Some (mkStatus None (Some processed)));
     Return (Some (mkStatus None (Some confirmed)))] [] [] [].

(** A ledger with three accounts: a well-formed attestation of the
    program, an account of another program, and an attestation of the
    program whose data does not parse. *)
Definition other_program : @PublicKey web3 := String.list_byte_of_string "Program2".

Definition ledger_world : World :=
  mkWorld 10 0 [] [] [] []
    [("Alice111", mkAccountInfo program (String.list_byte_of_string " credential "));
     ("Mallory1", mkAccountInfo other_program (String.list_byte_of_string "credential"));
     ("Garbled1", mkAccountInfo program (String.list_byte_of_string "{"))]
    [].

(** A verification that always throws. *)
Definition verify_offline : string -> M World BlockchainService.VerificationResult :=
  fun _ => throw ECONNRESET.

(** Twelve addresses: two chunks, one pause. *)
Definition twelve : list string :=
  ["Alice111"; "not an address"; "Nobody11"; "Mallory1"; "Garbled1"; "Alice111";
   "A1"; "A2"; "A3"; "A4"; "A5"; "A6"].

(** Blockhashes are served, sending is always refused. *)
Definition send_down_world : World :=
  mkWorld 0 0 [Return ("bh1", 100); Return ("bh2", 200); Return ("bh3", 300)]
    [] [] [] [] [7; 2 ^ 52; 2 ^ 53 - 1].

(** An operation that is always refused by the network. *)
Definition always_reset {W T} : M W T := throw ECONNRESET.

(** A callback that always rejects with [null]:
    [() => Promise.reject(null)]. *)
Definition always_null {W T} : Callback W T := fun m => Some (Rejected Falsy, m).

(** The first attempt on a ledger that never reports: sent, polled twice
    (each request takes seven seconds), timed out. *)
Definition timeout_sig1 : JsError :=
  TransactionTimeoutError "Transaction not confirmed within 30000ms" (Some "sig1").

Definition pending_end : Machine World :=
  mkMachine
    (mkWorld 44000 7000 [Return ("bh2", 200)] [Return "sig2"] [] [] [] [])
    [Requested GetLatestBlockhash; Requested SendRawTransaction;
     Emitted TRANSACTION_SENT [ArgStr "sig1"];
     Requested GetSignatureStatuses; Requested GetSlot; Slept 1000;
     Requested GetSignatureStatuses; Requested GetSlot; Slept 1000;
     Emitted TRANSACTION_FAILED [ArgErr timeout_sig1; ArgStr "sig1"]].

(** The submission on a ledger that confirms at the second poll. *)
Definition confirmed_result : BlockchainService.SendResult :=
  BlockchainService.mkSendResult "sig1" "bh1" 100.

Definition confirmed_end : Machine World :=
  mkMachine (mkWorld 1000 0 [] [] [] [] [] [])
    [Requested GetLatestBlockhash; Requested SendRawTransaction;
     Emitted TRANSACTION_SENT [ArgStr "sig1"];
     Requested GetSignatureStatuses; Requested GetSlot; Slept 1000;
     Requested GetSignatureStatuses;
     Emitted TRANSACTION_CONFIRMED [ArgStr "sig1"]].


(** The submission with [retries: 2] when sending is always refused; the
    back-offs draw 7, 2^52 and (never) 2^53 - 1 from [Math.random]. *)
Definition send_down_end : Machine World :=
  mkMachine (mkWorld 3250 0 [] [] [] [] [] [2 ^ 53 - 1])
    [Requested GetLatestBlockhash; Requested SendRawTransaction; Slept 1000;
     Requested GetLatestBlockhash; Requested SendRawTransaction; Slept 2250;
     Requested GetLatestBlockhash; Requested SendRawTransaction].

(** The ledger reports the error at the third poll. *)
Definition rejecting_later_world : World :=
  mkWorld 0 0 [Return ("bh1", 100); Return ("bh2", 200)]
    [Return "sig1"; Return "sig2"]
    [Return None; Return (Some (mkStatus None (Some processed)));
     Return (Some (mkStatus (Some "6001") None))] [] [] [].

(** A ledger that accepts three transactions. *)
Definition accepting_world : World :=
  mkWorld 0 0 [Return ("bh1", 100); Return ("bh2", 200); Return ("bh3", 300)]
    [Return "sig1"; Return "sig2"; Return "sig3"] [] [] [] [].

Definition no_options : BlockchainService.SendTransactionOptions :=
  BlockchainService.mkSendTransactionOptions None None None.

Definition with_retries (n : Z) : BlockchainService.SendTransactionOptions :=
  BlockchainService.mkSendTransactionOptions (Some n) None None.


(** The slot is refused twice, then served. *)
Definition flaky_world : World :=
  mkWorld 0 0 [] [] [] [Throw ECONNRESET; Throw ECONNRESET; Return 42] [] [].

Definition read_slot : M World Z := call_world (getSlot confirmed).

Definition flaky_end : Machine World :=
  mkMachine (mkWorld 3000 0 [] [] [] [] [] [])
    [Invoked; Slept 1000; Invoked; Slept 2000; Invoked].

(** The address service on a fresh cache: the answer for the NIN
    00100000008 under the salt [pepper], and the state it leaves. *)
Definition generated : NINService.NinObject :=
  NINService.mkNinObject None (Some true) (Some "00100000008pepper111111111111111")
    (Some (NINService.TheKeypair (toy_digest "00100000008pepper")))
    None None (Some "NG") None.

Definition generated_end : Machine (NINService.State (list (Completion Z))) :=
  mkMachine
    (NINService.mkState []
       (<["nin_address_NG_00100000008" := (NINService.clone generated, None)]>
          (<["nin_validation_NG_00100000008"
             := (NINService.validation_result true None "NG", None)]> empty_cache)))
    [].

(** What the verifier answers for the well-formed attestation. *)
Definition alice_result : BlockchainService.VerificationResult :=
  BlockchainService.mkVerification true
    (Some (mkAttestation (JStr "cred-1") (JStr "stu-1") (JStr "uni-1")
             (JStr "UNIVERSITY_ISSUED") (JNum 5) JNull))
    None.

(** A host that hands out the handles 1, 2, ... for timers, sockets and
    subscriptions, refuses sockets when it is told to, and has no
    network. *)
Record Browser := mkBrowser {
  browser_clock : Z;
  next_handle : Z;
  sockets_refused : bool
}.

Definition fresh_handle (b : Browser) : Z * Browser :=
  (next_handle b, mkBrowser (browser_clock b) (next_handle b + 1) (sockets_refused b)).

#[export] Instance browser_runtime : Runtime Browser := {|
  Date_now := browser_clock;
  timer_fires := fun ms b =>
    mkBrowser (browser_clock b + ms) (next_handle b) (sockets_refused b);
  Math_random := fun b => (0, b)
|}.

#[export] Instance browser : BlockchainSession.Host Browser := {|
  BlockchainSession.setTimeout := fun _ _ => fresh_handle;
  BlockchainSession.clearTimeout := fun _ b => b;
  BlockchainSession.WebSocket_new := fun _ b =>
    if sockets_refused b then (Throw (Error "ECONNREFUSED"), b)
    else BlockchainSession.always fresh_handle b;
  BlockchainSession.WebSocket_close := fun _ b => (Return tt, b);
  BlockchainSession.encodeURIComponent := fun s => s;
  BlockchainSession.fetch := fun _ _ b => (Throw ECONNRESET, b);
  BlockchainSession.onAccountChange := fun _ _ => BlockchainSession.always fresh_handle;
  BlockchainSession.removeAccountChangeListener := fun _ b => (Return tt, b);
  BlockchainSession.onLogs := fun _ _ => BlockchainSession.always fresh_handle;
  BlockchainSession.removeOnLogsListener := fun _ b => (Return tt, b);
  BlockchainSession.removeAllListeners := fun b => b
|}.

Definition sas_config : BlockchainSession.SASConfig :=
  BlockchainSession.mkSASConfig "key" "https://sas.example/" 3600000 true
    "wss://sas.example".

Definition session1 : BlockchainSession.SASSession :=
  BlockchainSession.mkSASSession "tok" 3600000 (Some "refresh").

(** A service with a session on a host that refuses sockets. *)
Definition offline : Machine (BlockchainSession.Service Browser) :=
  start (BlockchainSession.constructed (Some sas_config) (mkBrowser 0 1 true)).

(** A service on a host that works. *)
Definition online : Machine (BlockchainSession.Service Browser) :=
  start (BlockchainSession.constructed (Some sas_config) (mkBrowser 0 1 false)).

(** The hash service on a fresh cache: the answer for the NIN 00100000008
    under the salt [pepper], and the state it leaves. *)
Definition hashed : NINService.NinObject :=
  NINService.mkNinObject None (Some true) None None
    (Some "00100000008pepper111111111111111") None (Some "NG") None.

Definition hashed_end : Machine (NINService.State (list (Completion Z))) :=
  mkMachine
    (NINService.mkState []
       (<["nin_hash_NG_00100000008" := (hashed, None)]>
          (<["nin_validation_NG_00100000008"
             := (NINService.validation_result true None "NG", None)]> empty_cache)))
    [].

(** Program addresses are the seeds put together; a seed of more than 32
    bytes is refused. *)
#[export] Instance instructions : CreateAttestation.Instructions := {|
  CreateAttestation.PublicKey_findProgramAddress := fun seeds _ =>
    if forallb (fun seed => (length seed <=? 32)%nat) seeds
    then Return (concat seeds, 255)
    else Throw (Error "Max seed length exceeded");
  CreateAttestation.JSON_stringify := fun data =>
    Return ("create_attestation:" +:+ CreateAttestation.credentialId data);
  CreateAttestation.Transaction_of_instruction := fun _ _ _ => tt
|}.

Definition degree : CreateAttestation.AttestationData :=
  CreateAttestation.mkAttestationData "cred-1" "Student1" "University1"
    "UNIVERSITY_ISSUED".

End Sim.

(** ** Reading a trace *)

Definition is_invocation (e : Effect) : bool :=
  match e with Invoked => true | _ => false end.

Definition is_attempt (e : Effect) : bool :=
  match e with Requested GetLatestBlockhash => true | _ => false end.

Definition is_sent (e : Effect) : bool :=
  match e with Emitted TRANSACTION_SENT _ => true | _ => false end.

(** How many times [withRetry] called its operation. *)
Definition invocations (t : list Effect) : nat := length (filter is_invocation t).

(** How many submission attempts were started (each starts by fetching a
    blockhash). *)
Definition attempts (t : list Effect) : nat := length (filter is_attempt t).

(** The lifecycle events, in the order of emission. *)
Fixpoint emitted (t : list Effect) : list (BlockchainEvent * list EmitArg) :=
  match t with
  | [] => []
  | Emitted ev args :: rest => (ev, args) :: emitted rest
  | _ :: rest => emitted rest
  end.

(** The timer delays, in order. *)
Fixpoint sleeps (t : list Effect) : list Z :=
  match t with
  | [] => []
  | Slept ms :: rest => ms :: sleeps rest
  | _ :: rest => sleeps rest
  end.

(** The machine once [withRetry] has marked a call of its operation. *)
Definition invoke {W} (m : Machine W) : Machine W :=
  mkMachine (world m) (trace m ++ [Invoked]).

(** What [withRetry] throws once the last call of its operation was
    rejected with [reason]: the [Error] object itself, or its own error
    when the value is falsy. *)
Definition thrown_after (reason : Reason) : JsError :=
  match reason with
  | AnError e => e
  | Falsy => Error "Operation failed after maximum retries"
  end.

(** What [withRetry] makes of the settlement of a call of its operation. *)
Definition outcome_of {T} (s : Settlement T) : Completion T :=
  match s with
  | Fulfilled v => Return v
  | Rejected reason => Throw (thrown_after reason)
  end.

(** The errors [sendTransactionWithRetry] rethrows without retrying. *)
Definition fatal (e : JsError) : bool :=
  instanceof_TransactionFailedError e || instanceof_TransactionTimeoutError e.

(** A reply to a status poll that tells nothing final: no status, a status
    without an error that is not yet confirmed, or a failed request. *)
Definition nothing_final (reply : Completion (option SignatureStatus)) : Prop :=
  match reply with
  | Return None => True
  | Return (Some info) =>
      status_err info = None
      /\ BlockchainService.reached (confirmationStatus info) = false
  | Throw e => instanceof_TransactionFailedError e = false
  end.

(** The ledger reports the transaction error [err] to a wait that started
    at [start], after [pending] status polls that tell nothing final, each
    followed by the slot check and a sleep of one second; the time limit
    has not passed when a poll is made.  The first poll is made in the
    world [w], the last leaves the world [w']. *)
Inductive reports_error {W} `{Runtime W} `{Connection W}
    (signature : string) (commitment : Commitment) (start : Z) (err : string)
    : nat -> W -> W -> Prop :=
| reports_now w info w' :
    Date_now w - start < BlockchainService.confirmationTimeout ->
    getSignatureStatuses signature w = (Return (Some info), w') ->
    status_err info = Some err ->
    reports_error signature commitment start err 0 w w'
| reports_later pending w reply w1 w' :
    Date_now w - start < BlockchainService.confirmationTimeout ->
    getSignatureStatuses signature w = (reply, w1) ->
    nothing_final reply ->
    reports_error signature commitment start err pending
      (timer_fires 1000 (snd (getSlot commitment w1))) w' ->
    reports_error signature commitment start err (S pending) w w'.

(** No listener throws. *)
Definition listeners_quiet (W : Type) `{Listeners W} : Prop :=
  forall ev args w, fst (run_listeners ev args w) = Return tt.

(** [m'] is reached from [m] without starting a submission attempt. *)
Definition same_attempt {W} (m m' : Machine W) : Prop :=
  exists ext, trace m' = (trace m ++ ext)%list /\ attempts ext = 0%nat.

(** The effects of polling for a confirmation. *)
Definition poll_effect (e : Effect) : Prop :=
  e = Requested GetSignatureStatuses \/ e = Requested GetSlot \/ e = Slept 1000.

(** The effects of an attempt that failed before the transaction was sent. *)
Definition not_sent (ext : list Effect) : Prop :=
  ext = [Requested GetLatestBlockhash]
  \/ ext = [Requested GetLatestBlockhash; Requested SendRawTransaction].

(** The effects of an attempt that sent the transaction, waited with the
    effects [polls] and emitted [terminal]. *)
Definition sent_then (sig : string) (polls : list Effect) (terminal : Effect)
    : list Effect :=
  [Requested GetLatestBlockhash; Requested SendRawTransaction;
   Emitted TRANSACTION_SENT [ArgStr sig]] ++ polls ++ [terminal].

(** What one call of [sendTransactionWithRetry] may emit, with its result:
    nothing, and an error; SENT then CONFIRMED, and the signature; SENT
    then FAILED, and the error that FAILED carries. *)
Definition lifecycle (ext : list Effect)
    (r : Completion BlockchainService.SendResult) : Prop :=
  (emitted ext = [] /\ exists e, r = Throw e)
  \/ (exists res,
        r = Return res
        /\ emitted ext
           = [(TRANSACTION_SENT, [ArgStr (BlockchainService.signature res)]);
              (TRANSACTION_CONFIRMED, [ArgStr (BlockchainService.signature res)])])
  \/ (exists sig e,
        r = Throw e /\ fatal e = true
        /\ emitted ext
           = [(TRANSACTION_SENT, [ArgStr sig]);
              (TRANSACTION_FAILED, [ArgErr e; ArgStr sig])]).

(** The delay before the next attempt of [sendTransactionWithRetry], for
    the number [k] drawn from [Math.random]. *)
Definition backoff_delay (attempt k : Z) : Z :=
  BlockchainService.retryDelay * 2 ^ attempt + round53 (k * 500) / 2 ^ 53.

(** The machine once the back-off after a failed attempt has elapsed. *)
Definition after_backoff {W} `{Runtime W} (attempt : Z) (m : Machine W) : Machine W :=
  let d := backoff_delay attempt (fst (Math_random (world m))) in
  mkMachine (timer_fires d (snd (Math_random (world m)))) (trace m ++ [Slept d]).

(** The error thrown once the last attempt has failed with [e]. *)
Definition exhausted (e : JsError) : JsError :=
  BlockchainError ("Failed to send transaction after retries: " +:+ message e) None None.

(** The delays of [withRetry] before attempts [attempt + 1], ...,
    [attempt + n]. *)
Fixpoint retry_delays (initialDelayMs attempt : Z) (n : nat) : list Z :=
  match n with
  | O => []
  | S n' => initialDelayMs * 2 ^ (attempt - 1) :: retry_delays initialDelayMs (attempt + 1) n'
  end.

(** The limiter's answer is a denial: no token is left, or the limiter
    itself failed. *)
Definition denial (reply : Completion Z) : Prop :=
  match reply with
  | Return remaining => remaining < 0
  | Throw _ => True
  end.

(** [haystack.includes(needle)] *)
Definition includes (needle haystack : string) : bool :=
  match String.index 0 needle haystack with
  | Some _ => true
  | None => false
  end.

(** [surfaced] wraps the error [last] and tells the number [n] of attempts:
    it is another error, whose message holds the message of [last] and the
    number. *)
Definition wraps_with_count (surfaced last : JsError) (n : Z) : Prop :=
  surfaced <> last
  /\ includes (message last) (message surfaced) = true
  /\ includes (pretty n) (message surfaced) = true.

(** ** Further notions used in statements *)

(** The error thrown when [NIN_SALT] is missing. *)
Definition salt_error : JsError := Error "NIN_SALT environment variable is required".

(** The delays of the reconnections scheduled so far, oldest first. *)
Definition reconnect_delays (cl : list BlockchainSession.Call) : list Z :=
  omap (fun c =>
          match c with
          | BlockchainSession.SetTimeout BlockchainSession.Reconnect ms => Some ms
          | _ => None
          end) cl.

(** The sockets asked for so far. *)
Definition sockets_requested (cl : list BlockchainSession.Call) : list string :=
  omap (fun c =>
          match c with
          | BlockchainSession.NewWebSocket url => Some url
          | _ => None
          end) cl.

(** The subscriptions to account changes asked for so far. *)
Definition account_subscriptions (cl : list BlockchainSession.Call) : list string :=
  omap (fun c =>
          match c with
          | BlockchainSession.OnAccountChange account _ => Some account
          | _ => None
          end) cl.

Definition is_open (op : BlockchainSession.Op) : bool :=
  match op with
  | BlockchainSession.SocketReports _ BlockchainSession.Opened => true
  | _ => false
  end.

(** How often a socket reported that it is open. *)
Definition opens (ops : list BlockchainSession.Op) : Z :=
  Z.of_nat (length (filter (fun op => is_open op = true) ops)).

Definition backoff_schedule : list Z := [1000; 2000; 4000; 8000; 16000].

Definition is_lookup (e : Effect) : bool :=
  match e with Requested GetAccountInfo => true | _ => false end.

(** How many accounts were asked for. *)
Definition lookups (t : list Effect) : nat := length (filter is_lookup t).

(** The address is not empty and [new PublicKey(address)] accepts it. *)
Definition well_formed `{Web3} (address : string) : bool :=
  negb (String.eqb address EmptyString)
  && match PublicKey_new address with
     | Return _ => true
     | Throw _ => false
     end.

(** The effects of verifying a batch of attestations. *)
Definition batch_effect (e : Effect) : Prop :=
  e = Requested GetAccountInfo \/ e = Slept 500.

(** The steps of [createAttestation] before the submission succeed: the
    program address is [found], the addresses of student and university
    are well formed, and the data is written as [payload]. *)
Definition prepared `{Web3} `{!CreateAttestation.Instructions}
    (programId : PublicKey) (data : CreateAttestation.AttestationData)
    (found : PublicKey * Z) (student university : PublicKey) (payload : string) : Prop :=
  CreateAttestation.PublicKey_findProgramAddress
    [ CreateAttestation.Buffer_from "attestation";
      CreateAttestation.Buffer_from (CreateAttestation.credentialId data);
      CreateAttestation.Buffer_from (CreateAttestation.attestationType data) ]
    programId = Return found
  /\ PublicKey_new (CreateAttestation.studentId data) = Return student
  /\ PublicKey_new (CreateAttestation.universityId data) = Return university
  /\ CreateAttestation.JSON_stringify data = Return payload.

(** The transaction that [createAttestation] submits. *)
Definition attestation_transaction `{Web3} `{!CreateAttestation.Instructions}
    (programId : PublicKey) (wallet : Keypair)
    (found : PublicKey * Z) (student university : PublicKey) (payload : string)
    : Transaction :=
  CreateAttestation.Transaction_of_instruction programId
    [ CreateAttestation.mkAccountMeta (fst found) false true;
      CreateAttestation.mkAccountMeta student false false;
      CreateAttestation.mkAccountMeta university false false;
      CreateAttestation.mkAccountMeta (Keypair_publicKey wallet) true true ]
    (CreateAttestation.Buffer_from payload).

(** The reconnections of a service are within budget, after [opened]
    reports of an open socket. *)
Definition within_budget {H} (opened : Z) (s : BlockchainSession.Service H) : Prop :=
  0 <= BlockchainSession.reconnectAttempts s <= BlockchainSession.maxReconnectAttempts
  /\ Z.of_nat (length (reconnect_delays (BlockchainSession.calls s)))
     <= BlockchainSession.maxReconnectAttempts * opened
        + BlockchainSession.reconnectAttempts s
  /\ Forall (fun ms => In ms backoff_schedule)
       (reconnect_delays (BlockchainSession.calls s))
  /\ (is_Some (BlockchainSession.ws s) -> is_Some (BlockchainSession.sasSession s)).

(** * Properties *)

Local Open Scope list_scope.

(** ** Running computations *)

Section MonadFacts.
Context {W : Type}.

Lemma bind_Return {A B} (c : M W A) (k : A -> M W B) m a m1 :
  c m = Some (Return a, m1) -> bind c k m = k a m1.
Proof. intros Hc. unfold bind. now rewrite Hc. Qed.

Lemma bind_Throw {A B} (c : M W A) (k : A -> M W B) m e m1 :
  c m = Some (Throw e, m1) -> bind c k m = Some (Throw e, m1).
Proof. intros Hc. unfold bind. now rewrite Hc. Qed.

Lemma bind_Some {A B} (c : M W A) (k : A -> M W B) m r m' :
  bind c k m = Some (r, m') ->
  (exists a m1, c m = Some (Return a, m1) /\ k a m1 = Some (r, m'))
  \/ (exists e, c m = Some (Throw e, m') /\ r = Throw e).
Proof.
  unfold bind. destruct (c m) as [[[a|e] m1]|]; intros Hk.
  - left. eauto.
  - right. inversion Hk; subst. eauto.
  - discriminate.
Qed.

Lemma try_catch_Return {A} (c : M W A) h m a m1 :
  c m = Some (Return a, m1) -> try_catch c h m = Some (Return a, m1).
Proof. intros Hc. unfold try_catch. now rewrite Hc. Qed.

Lemma try_catch_Throw {A} (c : M W A) h m e m1 :
  c m = Some (Throw e, m1) -> try_catch c h m = h e m1.
Proof. intros Hc. unfold try_catch. now rewrite Hc. Qed.

Lemma try_catch_Some {A} (c : M W A) h m r m' :
  try_catch c h m = Some (r, m') ->
  (exists a, c m = Some (Return a, m') /\ r = Return a)
  \/ (exists e m1, c m = Some (Throw e, m1) /\ h e m1 = Some (r, m')).
Proof.
  unfold try_catch. destruct (c m) as [[[a|e] m1]|]; intros Hk.
  - left. inversion Hk; subst. eauto.
  - right. eauto.
  - discriminate.
Qed.

Lemma record_run (e : Effect) (m : Machine W) :
  record e m = Some (Return tt, mkMachine (world m) (trace m ++ [e])).
Proof. reflexivity. Qed.

End MonadFacts.

Lemma invocations_app t1 t2 :
  invocations (t1 ++ t2) = (invocations t1 + invocations t2)%nat.
Proof. unfold invocations. now rewrite filter_app, length_app. Qed.

Lemma attempts_app t1 t2 :
  attempts (t1 ++ t2) = (attempts t1 + attempts t2)%nat.
Proof. unfold attempts. now rewrite filter_app, length_app. Qed.

Lemma emitted_app t1 t2 : emitted (t1 ++ t2) = emitted t1 ++ emitted t2.
Proof.
  induction t1 as [|e t1 IH]; [reflexivity|].
  destruct e; simpl; now rewrite IH.
Qed.

Lemma sleeps_app t1 t2 : sleeps (t1 ++ t2) = sleeps t1 ++ sleeps t2.
Proof.
  induction t1 as [|e t1 IH]; [reflexivity|].
  destruct e; simpl; now rewrite IH.
Qed.

(** ** Address derivation and verification *)

Section AddressFacts.
Context `{Hashes} `{Web3}.

Lemma verifyAddressForNIN_spec salt nin addr a :
  AddressGeneration.generateAddressFromNIN salt nin = Return a ->
  AddressGeneration.verifyAddressForNIN salt nin addr = Return (String.eqb a addr).
Proof.
  intros Hgen. unfold AddressGeneration.verifyAddressForNIN. now rewrite Hgen.
Qed.

Lemma generateAddressFromNIN_returns salt nin :
  salt <> EmptyString ->
  (forall s, length (crypto_sha256_digest s) = 32%nat) ->
  (forall seed, length seed = 32%nat -> exists kp, Keypair_fromSeed seed = Return kp) ->
  exists a, AddressGeneration.generateAddressFromNIN (Some salt) nin = Return a.
Proof.
  intros Hsalt Hlen Hseed.
  unfold AddressGeneration.generateAddressFromNIN, Crypto.generateSeedFromNIN,
    Crypto.salt_missing.
  apply String.eqb_neq in Hsalt. rewrite Hsalt.
  destruct (Hseed (AddressGeneration.slice_0_32
                     (crypto_sha256_digest (nin +:+ Crypto.salt_value (Some salt)))))
    as [kp Hkp].
  - unfold AddressGeneration.slice_0_32. rewrite length_take, Hlen. reflexivity.
  - rewrite Hkp. eauto.
Qed.

(** C1: with the salt set, an address derived from a NIN verifies against
    that NIN, and does not verify against a NIN that derives another
    address; verification compares the claimed address with a fresh
    derivation and touches nothing else. *)
Theorem C1_verify_derived_address (salt nin : string) :
  salt <> EmptyString ->
  (forall s, length (crypto_sha256_digest s) = 32%nat) ->
  (forall seed, length seed = 32%nat -> exists kp, Keypair_fromSeed seed = Return kp) ->
  exists a,
    AddressGeneration.generateAddressFromNIN (Some salt) nin = Return a
    /\ AddressGeneration.verifyAddressForNIN (Some salt) nin a = Return true
    /\ (forall nin2 a2,
          AddressGeneration.generateAddressFromNIN (Some salt) nin2 = Return a2 ->
          a2 <> a ->
          AddressGeneration.verifyAddressForNIN (Some salt) nin2 a = Return false)
    /\ (forall claimed,
          AddressGeneration.verifyAddressForNIN (Some salt) nin claimed
          = Return (String.eqb a claimed)).
Proof.
  intros Hsalt Hlen Hseed.
  destruct (generateAddressFromNIN_returns salt nin Hsalt Hlen Hseed) as [a Ha].
  exists a. split; [exact Ha|]. split; [|split].
  - rewrite (verifyAddressForNIN_spec _ _ _ _ Ha). now rewrite String.eqb_refl.
  - intros nin2 a2 Ha2 Hne.
    rewrite (verifyAddressForNIN_spec _ _ _ _ Ha2).
    apply String.eqb_neq in Hne. now rewrite Hne.
  - intros claimed. exact (verifyAddressForNIN_spec _ _ _ _ Ha).
Qed.

End AddressFacts.

Section AddressRuns.
Import Sim.

Lemma C1_witness :
  exists a,
    AddressGeneration.generateAddressFromNIN (Some "pepper") "7001234567" = Return a
    /\ AddressGeneration.verifyAddressForNIN (Some "pepper") "7001234567" a = Return true
    /\ (forall nin2 a2,
          AddressGeneration.generateAddressFromNIN (Some "pepper") nin2 = Return a2 ->
          a2 <> a ->
          AddressGeneration.verifyAddressForNIN (Some "pepper") nin2 a = Return false)
    /\ (forall claimed,
          AddressGeneration.verifyAddressForNIN (Some "pepper") "7001234567" claimed
          = Return (String.eqb a claimed)).
Proof.
  apply (@C1_verify_derived_address Sim.hashes Sim.web3 "pepper" "7001234567").
  - discriminate.
  - intros s. unfold crypto_sha256_digest, Sim.hashes, Sim.toy_digest.
    rewrite length_take, length_app, length_replicate. lia.
  - intros seed Hlen. exists seed. simpl. rewrite Hlen. reflexivity.
Defined.

(** The scenario of the specification: seed 7001234567, salt pepper. *)
Example derive_scenario :
  AddressGeneration.generateAddressFromNIN (Some "pepper") "7001234567"
  = Return "7001234567pepper1111111111111111"
  /\ AddressGeneration.verifyAddressForNIN (Some "pepper") "7001234567"
       "7001234567pepper1111111111111111" = Return true
  /\ AddressGeneration.verifyAddressForNIN (Some "pepper") "7001234568"
       "7001234567pepper1111111111111111" = Return false.
Proof. repeat split; vm_compute; reflexivity. Qed.

(** Without the salt the derivation fails at once. *)
Example derive_without_salt :
  AddressGeneration.generateAddressFromNIN None "7001234567"
  = Throw (Error "NIN_SALT environment variable is required").
Proof. reflexivity. Qed.

End AddressRuns.

(** ** The retry loop of [withRetry] *)

Section WithRetryFacts.
Context {W : Type} `{Runtime W} {T : Type}.
Variable operation : Callback W T.
Variable maxRetries initialDelayMs : Z.

Lemma sleep_eq (ms : Z) (m : Machine W) :
  Async.sleep ms m
  = Some (Return tt, mkMachine (timer_fires ms (world m)) (trace m ++ [Slept ms])).
Proof. reflexivity. Qed.

Lemma withRetry_loop_unfold fuel attempt lastError :
  Async.withRetry_loop operation maxRetries initialDelayMs fuel attempt lastError
  = if attempt <=? maxRetries then
      match fuel with
      | O => diverge
      | S fuel' =>
          r <- Async.await_operation operation ;;
          match r with
          | inl v => ret v
          | inr error =>
              (if attempt <? maxRetries
               then Async.sleep (initialDelayMs * 2 ^ (attempt - 1))
               else ret tt) ;;;
              Async.withRetry_loop operation maxRetries initialDelayMs fuel'
                (attempt + 1) (Some error)
          end
      end
    else
      throw (Async.lastError_or_new lastError).
Proof. destruct fuel; reflexivity. Qed.

(** The call of the operation, by how its promise settles. *)
Lemma await_operation_run (m : Machine W) :
  Async.await_operation operation m
  = match operation (invoke m) with
    | None => None
    | Some (Fulfilled v, m1) => Some (Return (inl v), m1)
    | Some (Rejected reason, m1) => Some (Return (inr reason), m1)
    end.
Proof. reflexivity. Qed.

(** One failed iteration that is not the last: the loop sleeps
    [initialDelayMs * 2^(attempt-1)] and goes on with the next attempt. *)
Lemma withRetry_loop_retry fuel attempt lastError m reason m1 :
  attempt < maxRetries ->
  operation (invoke m) = Some (Rejected reason, m1) ->
  Async.withRetry_loop operation maxRetries initialDelayMs (S fuel) attempt lastError m
  = Async.withRetry_loop operation maxRetries initialDelayMs fuel (attempt + 1)
      (Some reason)
      (mkMachine (timer_fires (initialDelayMs * 2 ^ (attempt - 1)) (world m1))
         (trace m1 ++ [Slept (initialDelayMs * 2 ^ (attempt - 1))])).
Proof.
  intros Hlt Hop. rewrite withRetry_loop_unfold.
  assert (Hle : (attempt <=? maxRetries) = true) by (apply Z.leb_le; lia).
  assert (Hltb : (attempt <? maxRetries) = true) by (apply Z.ltb_lt; lia).
  rewrite Hle. unfold bind at 1. rewrite await_operation_run, Hop, Hltb.
  reflexivity.
Qed.

(** The last iteration, failing: the loop ends, and what is thrown is the
    error of this very call, or the loop's own error when this call was
    rejected with a falsy value. *)
Lemma withRetry_loop_last fuel lastError m reason m1 :
  1 <= maxRetries ->
  operation (invoke m) = Some (Rejected reason, m1) ->
  Async.withRetry_loop operation maxRetries initialDelayMs (S fuel) maxRetries lastError m
  = Some (Throw (thrown_after reason), m1).
Proof.
  intros Hpos Hop. rewrite withRetry_loop_unfold.
  rewrite Z.leb_refl. unfold bind at 1. rewrite await_operation_run, Hop.
  rewrite Z.ltb_irrefl. cbv [bind ret].
  rewrite withRetry_loop_unfold.
  assert (Hgt : (maxRetries + 1 <=? maxRetries) = false) by (apply Z.leb_gt; lia).
  rewrite Hgt. destruct reason; reflexivity.
Qed.

(** [withRetry] completes whenever its operation does: the loop is bounded
    by [maxRetries]. *)
Lemma withRetry_loop_completes fuel :
  (forall m, is_Some (operation m)) ->
  forall attempt lastError (m : Machine W),
    maxRetries - attempt + 1 <= Z.of_nat fuel ->
    is_Some (Async.withRetry_loop operation maxRetries initialDelayMs fuel attempt
               lastError m).
Proof.
  intros Hop. induction fuel as [|fuel IH]; intros attempt lastError m Hfuel;
    rewrite withRetry_loop_unfold;
    destruct (attempt <=? maxRetries) eqn:Hle; try (eexists; reflexivity).
  - apply Z.leb_le in Hle. lia.
  - unfold bind at 1. rewrite await_operation_run.
    destruct (Hop (invoke m)) as [[[v|reason] m1] ->]; [eexists; reflexivity|].
    destruct (attempt <? maxRetries).
    + unfold bind at 1. rewrite sleep_eq. apply IH. lia.
    + cbv [bind ret]. apply IH. lia.
Qed.

Lemma withRetry_completes (m : Machine W) :
  (forall m0, is_Some (operation m0)) ->
  is_Some (Async.withRetry operation maxRetries initialDelayMs m).
Proof.
  intros Hop. unfold Async.withRetry. apply withRetry_loop_completes; [exact Hop | lia].
Qed.

(** The operation is rejected whenever it is called, and leaves no
    invocation marks of its own. *)
Hypothesis always_fails :
  forall m, exists reason m',
    operation m = Some (Rejected reason, m')
    /\ invocations (trace m') = invocations (trace m).

Lemma withRetry_loop_exhausts fuel :
  forall attempt lastError m,
    1 <= attempt ->
    Z.of_nat fuel = maxRetries - attempt ->
    exists reason m_last m',
      Async.withRetry_loop operation maxRetries initialDelayMs (S fuel) attempt lastError m
      = Some (Throw (thrown_after reason), m')
      /\ operation m_last = Some (Rejected reason, m')
      /\ invocations (trace m') = (invocations (trace m) + S fuel)%nat.
Proof.
  induction fuel as [|fuel IH]; intros attempt lastError m Hpos Hfuel.
  - assert (attempt = maxRetries) by lia. subst attempt.
    destruct (always_fails (invoke m)) as (reason & m1 & Hop & Hinv).
    exists reason, (invoke m), m1. split; [|split].
    + now apply withRetry_loop_last.
    + exact Hop.
    + rewrite Hinv. unfold invoke. simpl. rewrite invocations_app. reflexivity.
  - destruct (always_fails (invoke m)) as (reason & m1 & Hop & Hinv).
    assert (Hlt : attempt < maxRetries) by lia.
    rewrite (withRetry_loop_retry (S fuel) attempt lastError m reason m1 Hlt Hop).
    destruct (IH (attempt + 1) (Some reason)
                (mkMachine (timer_fires (initialDelayMs * 2 ^ (attempt - 1)) (world m1))
                   (trace m1 ++ [Slept (initialDelayMs * 2 ^ (attempt - 1))])))
      as (reason' & m_last & m' & Hrun & Hlast & Hcount); [lia | lia |].
    exists reason', m_last, m'. split; [exact Hrun|]. split; [exact Hlast|].
    rewrite Hcount. simpl. rewrite invocations_app, Hinv. unfold invoke. simpl.
    rewrite invocations_app. simpl. unfold invocations at 2 3. simpl. lia.
Qed.

Lemma withRetry_exhausts m :
  1 <= maxRetries ->
  exists reason m_last m',
    Async.withRetry operation maxRetries initialDelayMs m
    = Some (Throw (thrown_after reason), m')
    /\ operation m_last = Some (Rejected reason, m')
    /\ Z.of_nat (invocations (trace m')) = Z.of_nat (invocations (trace m)) + maxRetries.
Proof.
  intros Hpos. unfold Async.withRetry.
  destruct (Z.to_nat maxRetries) as [|fuel] eqn:Hfuel; [lia|].
  destruct (withRetry_loop_exhausts fuel 1 None m)
    as (reason & m_last & m' & Hrun & Hlast & Hc); [lia | lia |].
  exists reason, m_last, m'. repeat split; try assumption. rewrite Hc. lia.
Qed.

End WithRetryFacts.

(** ** Waiting for a confirmation *)

Ltac poll_effects :=
  repeat (apply Forall_cons_2; [unfold poll_effect; auto |]);
  try apply Forall_nil_2; try assumption.

Section ConfirmationFacts.
Context {W : Type} `{Runtime W} `{Connection W}.

Lemma request_run {A} (c : RpcCall) (f : W -> Completion A * W) (m : Machine W) :
  (record (Requested c) ;;; call_world f) m
  = Some (fst (f (world m)), mkMachine (snd (f (world m))) (trace m ++ [Requested c])).
Proof.
  unfold bind, record, call_world. simpl. now destruct (f (world m)).
Qed.

(** A status poll makes one request; it ends with a verdict, or throws a
    [TransactionFailedError]. *)
Lemma poll_status_shape signature (m : Machine W) r m' :
  BlockchainService.poll_status signature m = Some (r, m') ->
  trace m' = trace m ++ [Requested GetSignatureStatuses]
  /\ ((exists b, r = Return b)
      \/ (exists e, r = Throw e /\ instanceof_TransactionFailedError e = true)).
Proof.
  unfold BlockchainService.poll_status. intros Hrun.
  apply try_catch_Some in Hrun as [(b & Hbody & ->) | (e & m1 & Hbody & Hhandler)].
  - split; [|left; eauto].
    apply bind_Some in Hbody as [(resp & m1 & Hreq & Hk) | (e & _ & Hcontra)];
      [|discriminate].
    rewrite request_run in Hreq. inversion Hreq; subst; clear Hreq.
    destruct resp as [info|]; [destruct (status_err info)|];
      inversion Hk; subst; reflexivity.
  - assert (Htrace : trace m1 = trace m ++ [Requested GetSignatureStatuses]).
    { apply bind_Some in Hbody as [(resp & m2 & Hreq & Hk) | (e' & Hreq & _)].
      - rewrite request_run in Hreq. inversion Hreq; subst; clear Hreq.
        destruct resp as [info|]; [destruct (status_err info)|];
          inversion Hk; subst; reflexivity.
      - rewrite request_run in Hreq. inversion Hreq; subst. reflexivity. }
    destruct (instanceof_TransactionFailedError e) eqn:Hclass;
      inversion Hhandler; subst; (split; [exact Htrace|]); [right|left]; eauto.
Qed.

(** The slot check makes one request and never throws: an expired
    blockhash is caught by the empty [catch] like any other error. *)
Lemma check_slot_run signature lastValid commitment (m : Machine W) :
  BlockchainService.check_slot signature lastValid commitment m
  = Some (Return tt,
          mkMachine (snd (getSlot commitment (world m)))
            (trace m ++ [Requested GetSlot])).
Proof.
  unfold BlockchainService.check_slot, try_catch.
  unfold bind at 1. rewrite request_run.
  destruct (getSlot commitment (world m)) as [[slot|e] w']; simpl; [|reflexivity].
  destruct (slot >? lastValid); reflexivity.
Qed.

Lemma waitForConfirmation_loop_unfold fuel start signature lastValid commitment
    (m : Machine W) :
  BlockchainService.waitForConfirmation_loop fuel start signature lastValid commitment m
  = if Date_now (world m) - start <? BlockchainService.confirmationTimeout then
      match fuel with
      | O => None
      | S fuel' =>
          (done <- BlockchainService.poll_status signature ;;
           if done : bool then ret tt
           else
             BlockchainService.check_slot signature lastValid commitment ;;;
             Async.sleep 1000 ;;;
             BlockchainService.waitForConfirmation_loop fuel' start signature
               lastValid commitment) m
      end
    else
      Some (Throw (TransactionTimeoutError
                     ("Transaction not confirmed within "
                      +:+ pretty BlockchainService.confirmationTimeout +:+ "ms")
                     (Some signature)), m).
Proof.
  destruct fuel; simpl; unfold bind at 1; unfold read_world;
    destruct (Date_now (world m) - start <? BlockchainService.confirmationTimeout);
    reflexivity.
Qed.

(** Whatever the ledger answers, waiting only polls and sleeps, and ends
    either confirmed or with one of the two errors that stop the
    submission. *)
Lemma waitForConfirmation_loop_shape fuel :
  forall start signature lastValid commitment (m : Machine W) r m',
    BlockchainService.waitForConfirmation_loop fuel start signature lastValid commitment m
    = Some (r, m') ->
    exists ext,
      trace m' = trace m ++ ext
      /\ Forall poll_effect ext
      /\ (r = Return tt \/ exists e, r = Throw e /\ fatal e = true).
Proof.
  induction fuel as [|fuel IH]; intros start signature lastValid commitment m r m' Hrun;
    rewrite waitForConfirmation_loop_unfold in Hrun;
    destruct (Date_now (world m) - start <? BlockchainService.confirmationTimeout).
  - discriminate.
  - inversion Hrun; subst. exists []. rewrite app_nil_r.
    repeat split; [constructor | right; eauto].
  - apply bind_Some in Hrun as [(done & m1 & Hpoll & Hk) | (e & Hpoll & ->)].
    + apply poll_status_shape in Hpoll as [Ht1 _].
      destruct done.
      * inversion Hk; subst. exists [Requested GetSignatureStatuses].
        split; [exact Ht1|]. split; [poll_effects | now left].
      * unfold bind at 1 in Hk. rewrite check_slot_run in Hk.
        unfold bind at 1 in Hk. rewrite sleep_eq in Hk. simpl in Hk.
        apply IH in Hk as (ext & Ht & Hext & Hr). simpl in Ht.
        exists ([Requested GetSignatureStatuses; Requested GetSlot; Slept 1000] ++ ext).
        split; [|split; [|exact Hr]].
        -- rewrite Ht, Ht1. now rewrite <- !app_assoc.
        -- simpl. poll_effects.
    + apply poll_status_shape in Hpoll as [Ht1 [(b & Hb) | (e' & He & Hclass)]];
        [discriminate|].
      inversion He; subst e'. exists [Requested GetSignatureStatuses].
      split; [exact Ht1|]. split.
      * poll_effects.
      * right. exists e. split; [reflexivity|]. unfold fatal. now rewrite Hclass.
  - inversion Hrun; subst. exists []. rewrite app_nil_r.
    repeat split; [constructor | right; eauto].
Qed.

Lemma waitForConfirmation_shape fuel signature lastValid commitment (m : Machine W) r m' :
  BlockchainService.waitForConfirmation fuel signature lastValid commitment m
  = Some (r, m') ->
  exists ext,
    trace m' = trace m ++ ext
    /\ Forall poll_effect ext
    /\ (r = Return tt \/ exists e, r = Throw e /\ fatal e = true).
Proof.
  unfold BlockchainService.waitForConfirmation, bind, read_world.
  apply waitForConfirmation_loop_shape.
Qed.

Lemma poll_effects_silent ext :
  Forall poll_effect ext -> emitted ext = [] /\ attempts ext = 0%nat.
Proof.
  induction 1 as [|e ext He _ [IH1 IH2]]; [split; reflexivity|].
  destruct He as [-> | [-> | ->]]; simpl; split; assumption.
Qed.

End ConfirmationFacts.

(** ** Submission attempts *)

Section SubmitFacts.
Context {W : Type} `{Runtime W} `{Connection W} `{Listeners W}.
Variable wallet : Keypair.
Variable pollFuel : nat.
Variable transaction : Transaction.
Variable signers : list Keypair.
Variable options : BlockchainService.SendTransactionOptions.
Variable commitment : Commitment.

Abbreviation send_attempt :=
  (BlockchainService.send_attempt wallet pollFuel transaction signers options commitment).

Lemma emit_run ev args (m : Machine W) :
  emit ev args m
  = Some (fst (run_listeners ev args (world m)),
          mkMachine (snd (run_listeners ev args (world m)))
            (trace m ++ [Emitted ev args])).
Proof.
  unfold emit, bind, record, call_world. cbn [world trace].
  now destruct (run_listeners ev args (world m)).
Qed.

Lemma same_attempt_refl (m : Machine W) : same_attempt m m.
Proof. exists []. now rewrite app_nil_r. Qed.

Lemma same_attempt_trans (m1 m2 m3 : Machine W) :
  same_attempt m1 m2 -> same_attempt m2 m3 -> same_attempt m1 m3.
Proof.
  intros (e1 & Ht1 & Ha1) (e2 & Ht2 & Ha2). exists (e1 ++ e2). split.
  - now rewrite Ht2, Ht1, app_assoc.
  - rewrite attempts_app. lia.
Qed.

Lemma emit_same_attempt ev args (m : Machine W) r m' :
  emit ev args m = Some (r, m') -> same_attempt m m'.
Proof.
  rewrite emit_run. intros Hrun. inversion Hrun; subst.
  exists [Emitted ev args]. split; reflexivity.
Qed.

Lemma wait_same_attempt sig lastValid (m : Machine W) r m' :
  BlockchainService.waitForConfirmation pollFuel sig lastValid commitment m = Some (r, m') ->
  same_attempt m m'.
Proof.
  intros Hrun. apply waitForConfirmation_shape in Hrun as (polls & Ht & Hpolls & _).
  exists polls. split; [exact Ht|]. now apply poll_effects_silent.
Qed.

(** Whatever the ledger and the listeners do, an attempt starts by
    fetching a blockhash and fetches no other. *)
Lemma send_attempt_effects (m : Machine W) r m' :
  send_attempt m = Some (r, m') ->
  exists ext,
    trace m' = trace m ++ Requested GetLatestBlockhash :: ext
    /\ attempts ext = 0%nat.
Proof.
  unfold BlockchainService.send_attempt. intros Hrun.
  assert (Hfrom : forall m1 : Machine W,
             trace m1 = trace m ++ [Requested GetLatestBlockhash] ->
             same_attempt m1 m' ->
             exists ext,
               trace m' = trace m ++ Requested GetLatestBlockhash :: ext
               /\ attempts ext = 0%nat).
  { intros m1 Ht1 (ext & Ht & Hext). exists ext. split; [|exact Hext].
    rewrite Ht, Ht1, <- app_assoc. reflexivity. }
  apply bind_Some in Hrun as [([bh lastValid] & m1 & Hbh & Hrun) | (e & Hbh & ->)];
    rewrite request_run in Hbh; inversion Hbh as [[Hr Hm]]; clear Hbh.
  2:{ subst m'. eapply Hfrom; [|apply same_attempt_refl]. reflexivity. }
  assert (Ht1 : trace m1 = trace m ++ [Requested GetLatestBlockhash]) by now subst.
  clear Hr Hm. apply (Hfrom m1 Ht1). clear Hfrom Ht1.
  apply bind_Some in Hrun as [(raw & m2 & Hsign & Hrun) | (e & Hsign & ->)].
  2:{ destruct sign_and_serialize; inversion Hsign; subst. apply same_attempt_refl. }
  assert (m2 = m1) as -> by (destruct sign_and_serialize; now inversion Hsign).
  clear Hsign.
  assert (Hsend : forall r0 m3,
             (record (Requested SendRawTransaction) ;;;
              call_world (sendRawTransaction raw
                (mkSendOptions (default false (BlockchainService.opt_skipPreflight options))
                   commitment))) m1 = Some (r0, m3) ->
             same_attempt m1 m3).
  { intros r0 m3 Hreq. rewrite request_run in Hreq. inversion Hreq; subst.
    exists [Requested SendRawTransaction]. split; reflexivity. }
  apply bind_Some in Hrun as [(sig & m3 & Hreq & Hrun) | (e & Hreq & ->)];
    apply Hsend in Hreq; [|exact Hreq].
  apply (same_attempt_trans _ _ _ Hreq). clear Hsend Hreq.
  apply bind_Some in Hrun as [([] & m4 & Hsent & Hrun) | (e & Hsent & ->)];
    apply emit_same_attempt in Hsent; [|exact Hsent].
  apply (same_attempt_trans _ _ _ Hsent). clear Hsent.
  apply try_catch_Some in Hrun as [(res & Hbody & ->) | (e & m5 & Hbody & Hhandler)].
  - apply bind_Some in Hbody as [([] & m5 & Hwait & Hk) | (e & _ & Hcontra)];
      [|discriminate].
    apply wait_same_attempt in Hwait. apply (same_attempt_trans _ _ _ Hwait).
    apply bind_Some in Hk as [([] & m6 & Hconf & Hk) | (e & _ & Hcontra)];
      [|discriminate].
    apply emit_same_attempt in Hconf. inversion Hk; subst. exact Hconf.
  - assert (Hbody' : same_attempt m4 m5).
    { apply bind_Some in Hbody as [([] & m6 & Hwait & Hk) | (e' & Hwait & _)].
      - apply wait_same_attempt in Hwait. apply (same_attempt_trans _ _ _ Hwait).
        apply bind_Some in Hk as [([] & m7 & Hconf & Hk) | (e' & Hconf & _)].
        + inversion Hk.
        + now apply emit_same_attempt in Hconf.
      - now apply wait_same_attempt in Hwait. }
    apply (same_attempt_trans _ _ _ Hbody').
    apply bind_Some in Hhandler as [([] & m6 & Hfail & Hk) | (e' & Hfail & _)].
    + apply emit_same_attempt in Hfail. inversion Hk; subst. exact Hfail.
    + now apply emit_same_attempt in Hfail.
Qed.

(** Every attempt starts by fetching one blockhash. *)
Lemma send_attempt_counts (m : Machine W) r m' :
  send_attempt m = Some (r, m') ->
  attempts (trace m') = (attempts (trace m) + 1)%nat.
Proof.
  intros Hrun. apply send_attempt_effects in Hrun as (ext & -> & Hext).
  rewrite attempts_app. change (Requested GetLatestBlockhash :: ext)
    with ([Requested GetLatestBlockhash] ++ ext).
  rewrite attempts_app, Hext. reflexivity.
Qed.

Lemma emitted_sent_then sig polls terminal_ev args :
  Forall poll_effect polls ->
  emitted (sent_then sig polls (Emitted terminal_ev args))
  = [(TRANSACTION_SENT, [ArgStr sig]); (terminal_ev, args)].
Proof.
  intros Hpolls. unfold sent_then. simpl. rewrite emitted_app.
  now rewrite (proj1 (poll_effects_silent polls Hpolls)).
Qed.

Lemma attempts_sent_then sig polls terminal_ev args :
  Forall poll_effect polls ->
  attempts (sent_then sig polls (Emitted terminal_ev args)) = 1%nat.
Proof.
  intros Hpolls. unfold sent_then. rewrite !attempts_app.
  now rewrite (proj2 (poll_effects_silent polls Hpolls)).
Qed.

(** From here on no listener throws. *)
Hypothesis quiet : listeners_quiet W.

Lemma emit_quiet ev args (m : Machine W) :
  emit ev args m
  = Some (Return tt,
          mkMachine (snd (run_listeners ev args (world m)))
            (trace m ++ [Emitted ev args])).
Proof. rewrite emit_run. now rewrite quiet. Qed.

(** An attempt fails before anything is sent, or sends and then ends with
    exactly one of CONFIRMED and FAILED; after SENT it can only fail with
    an error that stops the submission. *)
Lemma send_attempt_shape (m : Machine W) r m' :
  send_attempt m = Some (r, m') ->
  exists ext,
    trace m' = trace m ++ ext
    /\ ((not_sent ext /\ exists e, r = Throw e)
        \/ (exists res polls,
              r = Return res /\ Forall poll_effect polls
              /\ ext = sent_then (BlockchainService.signature res) polls
                         (Emitted TRANSACTION_CONFIRMED
                            [ArgStr (BlockchainService.signature res)]))
        \/ (exists sig e polls,
              r = Throw e /\ fatal e = true /\ Forall poll_effect polls
              /\ ext = sent_then sig polls
                         (Emitted TRANSACTION_FAILED [ArgErr e; ArgStr sig]))).
Proof.
  unfold BlockchainService.send_attempt. intros Hrun.
  apply bind_Some in Hrun as [([bh lastValid] & m1 & Hbh & Hrun) | (e & Hbh & ->)];
    rewrite request_run in Hbh; inversion Hbh as [[Hr Hm]]; clear Hbh.
  2:{ exists [Requested GetLatestBlockhash]. split; [now subst|].
      left. split; [now left | eauto]. }
  apply bind_Some in Hrun as [(raw & m2 & Hsign & Hrun) | (e & Hsign & ->)].
  2:{ exists [Requested GetLatestBlockhash].
      destruct sign_and_serialize; inversion Hsign; subst.
      split; [reflexivity|]. left. split; [now left | eauto]. }
  assert (m2 = m1) as -> by (destruct sign_and_serialize; now inversion Hsign).
  clear Hsign.
  apply bind_Some in Hrun as [(sig & m3 & Hsend & Hrun) | (e & Hsend & ->)];
    rewrite request_run in Hsend; inversion Hsend as [[Hr' Hm']]; clear Hsend.
  2:{ exists [Requested GetLatestBlockhash; Requested SendRawTransaction].
      split; [subst; simpl; now rewrite <- app_assoc|].
      left. split; [now right | eauto]. }
  unfold bind at 1 in Hrun. rewrite emit_quiet in Hrun.
  assert (Ht3 : trace m3 = trace m ++ [Requested GetLatestBlockhash; Requested SendRawTransaction])
    by (subst; simpl; now rewrite <- app_assoc).
  clear Hr Hm Hr' Hm'.
  apply try_catch_Some in Hrun as [(res & Hbody & ->) | (e & m4 & Hbody & Hhandler)].
  - apply bind_Some in Hbody as [([] & m4 & Hwait & Hk) | (e & _ & Hcontra)];
      [|discriminate].
    apply waitForConfirmation_shape in Hwait as (polls & Ht4 & Hpolls & _).
    unfold bind at 1 in Hk. rewrite emit_quiet in Hk.
    inversion Hk; subst res m'. simpl in *.
    eexists. split.
    2:{ right; left. eexists _, polls. split; [reflexivity|].
        split; [exact Hpolls | reflexivity]. }
    simpl. rewrite Ht4, Ht3. unfold sent_then. simpl.
    now rewrite <- !app_assoc.
  - apply bind_Some in Hbody as [([] & m5 & Hwait & Hk) | (e' & Hwait & He)].
    { unfold bind at 1 in Hk. rewrite emit_quiet in Hk. inversion Hk. }
    inversion He; subst e'.
    apply waitForConfirmation_shape in Hwait as (polls & Ht4 & Hpolls & [Hr | (e' & Hr & Hfatal)]);
      [discriminate|].
    inversion Hr; subst e'.
    unfold bind at 1 in Hhandler. rewrite emit_quiet in Hhandler.
    inversion Hhandler; subst r m'. simpl in *.
    eexists. split.
    2:{ right; right. exists sig, e, polls. split; [reflexivity|].
        split; [exact Hfatal|]. split; [exact Hpolls | reflexivity]. }
    simpl. rewrite Ht4, Ht3. unfold sent_then. simpl.
    now rewrite <- !app_assoc.
Qed.

(** An attempt that fails with an error that may be retried has sent and
    emitted nothing. *)
Lemma retryable_failure_silent (m : Machine W) e m' :
  send_attempt m = Some (Throw e, m') ->
  fatal e = false ->
  exists ext, trace m' = trace m ++ ext /\ not_sent ext.
Proof.
  intros Hrun Hretry. apply send_attempt_shape in Hrun as (ext & Ht & Hshape).
  exists ext. split; [exact Ht|].
  destruct Hshape as [[Hns _] | [(res & polls & Hr & _) | (sig & e' & polls & Hr & Hf & _)]].
  - exact Hns.
  - discriminate.
  - inversion Hr; subst. congruence.
Qed.

End SubmitFacts.

(** ** The retry loop of [sendTransactionWithRetry] *)

Section SubmitLoopFacts.
Context {W : Type} `{Runtime W} `{Connection W} `{Listeners W}.
Variable wallet : Keypair.
Variable pollFuel : nat.
Variable transaction : Transaction.
Variable signers : list Keypair.
Variable options : BlockchainService.SendTransactionOptions.
Variable commitment : Commitment.

Abbreviation send_attempt' :=
  (BlockchainService.send_attempt wallet pollFuel transaction signers options commitment).
Abbreviation send_loop' fuel retries attempt :=
  (BlockchainService.sendTransaction_loop wallet fuel pollFuel retries attempt
     transaction signers options commitment).

(** One iteration of the loop, by the outcome of its attempt. *)
Lemma send_loop_step fuel retries attempt (m : Machine W) :
  attempt <= retries ->
  send_loop' (S fuel) retries attempt m
  = match send_attempt' m with
    | None => None
    | Some (Return res, m1) => Some (Return res, m1)
    | Some (Throw e, m1) =>
        if fatal e then Some (Throw e, m1)
        else if attempt <? retries
             then send_loop' fuel retries (attempt + 1) (after_backoff attempt m1)
             else Some (Throw (exhausted e), m1)
    end.
Proof.
  intros Hle. cbn [BlockchainService.sendTransaction_loop].
  assert (Hleb : (attempt <=? retries) = true) by (apply Z.leb_le; lia).
  rewrite Hleb. unfold bind at 1. unfold try_catch at 1. unfold bind at 1.
  destruct (send_attempt' m) as [[[res|e] m1]|]; [reflexivity| |reflexivity].
  unfold fatal.
  destruct (instanceof_TransactionFailedError e || instanceof_TransactionTimeoutError e);
    [reflexivity|].
  destruct (attempt <? retries); [|reflexivity].
  unfold bind at 1. unfold BlockchainService.jitter500, bind at 1, call_world.
  unfold after_backoff, backoff_delay.
  destruct (Math_random (world m1)) as [k w']. simpl.
  reflexivity.
Qed.

Lemma send_loop_done fuel retries attempt (m : Machine W) :
  retries < attempt ->
  send_loop' fuel retries attempt m
  = Some (Throw (BlockchainError "Failed to send transaction (unknown reason)" None None), m).
Proof.
  intros Hgt.
  assert (Hleb : (attempt <=? retries) = false) by (apply Z.leb_gt; lia).
  destruct fuel; cbn [BlockchainService.sendTransaction_loop]; now rewrite Hleb.
Qed.

(** A successful attempt ends the submission. *)
Lemma attempt_success_stops fuel retries attempt (m : Machine W) res m1 :
  attempt <= retries ->
  send_attempt' m = Some (Return res, m1) ->
  send_loop' (S fuel) retries attempt m = Some (Return res, m1).
Proof. intros Hle Hrun. rewrite send_loop_step by exact Hle. now rewrite Hrun. Qed.

(** An attempt that ends with a [TransactionFailedError] or a
    [TransactionTimeoutError] ends the submission, whatever budget is
    left. *)
Lemma attempt_fatal_stops fuel retries attempt (m : Machine W) e m1 :
  attempt <= retries ->
  send_attempt' m = Some (Throw e, m1) ->
  fatal e = true ->
  send_loop' (S fuel) retries attempt m = Some (Throw e, m1).
Proof.
  intros Hle Hrun Hfatal. rewrite send_loop_step by exact Hle.
  now rewrite Hrun, Hfatal.
Qed.

(** An attempt that fails otherwise is followed by the back-off and a new
    attempt while budget is left. *)
Lemma attempt_retried fuel retries attempt (m : Machine W) e m1 :
  attempt < retries ->
  send_attempt' m = Some (Throw e, m1) ->
  fatal e = false ->
  send_loop' (S fuel) retries attempt m
  = send_loop' fuel retries (attempt + 1) (after_backoff attempt m1).
Proof.
  intros Hlt Hrun Hretry. rewrite send_loop_step by lia.
  rewrite Hrun, Hretry.
  assert (Hltb : (attempt <? retries) = true) by (apply Z.ltb_lt; lia).
  now rewrite Hltb.
Qed.

Lemma attempt_last_fails fuel retries (m : Machine W) e m1 :
  send_attempt' m = Some (Throw e, m1) ->
  fatal e = false ->
  send_loop' (S fuel) retries retries m = Some (Throw (exhausted e), m1).
Proof.
  intros Hrun Hretry. rewrite send_loop_step by lia.
  now rewrite Hrun, Hretry, Z.ltb_irrefl.
Qed.

(** The lifecycle events of a whole submission, when no listener
    throws. *)
Lemma send_loop_lifecycle fuel :
  listeners_quiet W ->
  forall retries attempt (m : Machine W) r m',
    send_loop' fuel retries attempt m = Some (r, m') ->
    exists ext, trace m' = trace m ++ ext /\ lifecycle ext r.
Proof.
  intros quiet.
  induction fuel as [|fuel IH]; intros retries attempt m r m' Hrun.
  - destruct (Z_le_gt_dec attempt retries) as [Hle | Hgt].
    + cbn [BlockchainService.sendTransaction_loop] in Hrun.
      assert (Hleb : (attempt <=? retries) = true) by (apply Z.leb_le; lia).
      rewrite Hleb in Hrun. discriminate.
    + rewrite send_loop_done in Hrun by lia. inversion Hrun; subst.
      exists []. rewrite app_nil_r. split; [reflexivity|]. left. eauto.
  - destruct (Z_le_gt_dec attempt retries) as [Hle | Hgt].
    2:{ rewrite send_loop_done in Hrun by lia. inversion Hrun; subst.
        exists []. rewrite app_nil_r. split; [reflexivity|]. left. eauto. }
    rewrite send_loop_step in Hrun by exact Hle.
    destruct (send_attempt' m) as [[[res|e] m1]|] eqn:Hattempt; [| |discriminate].
    + inversion Hrun; subst r m'.
      apply (send_attempt_shape _ _ _ _ _ _ quiet) in Hattempt as (ext & Ht & Hshape).
      exists ext. split; [exact Ht|].
      destruct Hshape as [[_ (e & He)] | [(res' & polls & Hr & Hp & ->) | (sig & e & polls & Hr & _)]];
        try discriminate.
      inversion Hr; subst res'. right; left. exists res. split; [reflexivity|].
      now apply emitted_sent_then.
    + destruct (fatal e) eqn:Hfatal.
      * inversion Hrun; subst r m'.
        apply (send_attempt_shape _ _ _ _ _ _ quiet) in Hattempt as (ext & Ht & Hshape).
        exists ext. split; [exact Ht|].
        destruct Hshape as [[Hns _] | [(res' & polls & Hr & _) | (sig & e' & polls & Hr & _ & Hp & ->)]];
          try discriminate.
        -- left. split; [|eauto]. destruct Hns as [-> | ->]; reflexivity.
        -- inversion Hr; subst e'. right; right. exists sig, e.
           split; [reflexivity|]. split; [exact Hfatal|].
           now apply emitted_sent_then.
      * apply (retryable_failure_silent _ _ _ _ _ _ quiet) in Hattempt as (ext & Ht & Hns);
          [|exact Hfatal].
        assert (Hsilent : emitted ext = []) by (destruct Hns as [-> | ->]; reflexivity).
        destruct (attempt <? retries).
        -- apply IH in Hrun as (ext' & Ht' & Hlife).
           unfold after_backoff in Ht'. simpl in Ht'.
           eexists. split; [rewrite Ht', Ht, <- !app_assoc; reflexivity|].
           unfold lifecycle in *. rewrite !emitted_app, Hsilent. simpl.
           exact Hlife.
        -- inversion Hrun; subst r m'. exists ext. split; [exact Ht|].
           left. split; [exact Hsilent | eauto].
Qed.

End SubmitLoopFacts.

(** ** Exhausting the retry budget *)

Section RetryExhaustion.
Context {W : Type} `{Runtime W} `{Connection W} `{Listeners W}.

Lemma attempts_after_backoff attempt (m : Machine W) :
  attempts (trace (after_backoff attempt m)) = attempts (trace m).
Proof.
  unfold after_backoff. cbn [trace]. rewrite attempts_app.
  change (attempts [Slept _]) with 0%nat. lia.
Qed.

Section AlwaysRefused.
Variable wallet : Keypair.
Variable pollFuel : nat.
Variable transaction : Transaction.
Variable signers : list Keypair.
Variable options : BlockchainService.SendTransactionOptions.
Variable commitment : Commitment.
Variable retries : Z.

Abbreviation attempt_once :=
  (BlockchainService.send_attempt wallet pollFuel transaction signers options commitment).

(** Every attempt fails with an error that is neither a
    [TransactionFailedError] nor a [TransactionTimeoutError]. *)
Hypothesis always_refused :
  forall m, exists e m', attempt_once m = Some (Throw e, m') /\ fatal e = false.

Lemma send_loop_exhausts fuel :
  forall attempt (m : Machine W),
    Z.of_nat fuel = retries - attempt ->
    exists e m_last m',
      BlockchainService.sendTransaction_loop wallet (S fuel) pollFuel retries attempt
        transaction signers options commitment m
      = Some (Throw (exhausted e), m')
      /\ attempt_once m_last = Some (Throw e, m')
      /\ attempts (trace m') = (attempts (trace m) + S fuel)%nat.
Proof.
  induction fuel as [|fuel IH]; intros attempt m Hfuel;
    destruct (always_refused m) as (e & m1 & Hrun & Hretry).
  - assert (attempt = retries) by lia. subst attempt.
    exists e, m, m1. split; [|split].
    + now apply attempt_last_fails.
    + exact Hrun.
    + now apply send_attempt_counts in Hrun.
  - rewrite (attempt_retried wallet pollFuel transaction signers options commitment
               (S fuel) retries attempt m e m1) by (lia || assumption).
    destruct (IH (attempt + 1) (after_backoff attempt m1)) as (e' & m_last & m' & Hloop & Hlast & Hc);
      [lia|].
    exists e', m_last, m'. split; [exact Hloop|]. split; [exact Hlast|].
    rewrite Hc, attempts_after_backoff.
    apply send_attempt_counts in Hrun. lia.
Qed.

End AlwaysRefused.

(** C2, as the code has it: against an operation that is rejected on
    every call, [withRetry] calls it exactly [maxRetries] times and throws
    what the last call was rejected with, as it is -- or, when that is a
    falsy value, its own [Error] "Operation failed after maximum retries";
    [sendTransactionWithRetry], when every attempt fails with an error that
    is neither a [TransactionFailedError] nor a [TransactionTimeoutError],
    makes exactly [retries + 1] attempts and throws a [BlockchainError]
    whose message is that of the last error behind a fixed prefix. *)
Theorem C2_retry_exhaustion :
  (forall (T : Type) (operation : Callback W T) (maxRetries initialDelayMs : Z)
          (m : Machine W),
     1 <= maxRetries ->
     (forall m0, exists reason m1,
         operation m0 = Some (Rejected reason, m1)
         /\ invocations (trace m1) = invocations (trace m0)) ->
     exists reason m_last m',
       Async.withRetry operation maxRetries initialDelayMs m
       = Some (Throw (match reason with
                      | AnError e => e
                      | Falsy => Error "Operation failed after maximum retries"
                      end), m')
       /\ operation m_last = Some (Rejected reason, m')
       /\ Z.of_nat (invocations (trace m'))
          = Z.of_nat (invocations (trace m)) + maxRetries)
  /\ (forall wallet pollFuel transaction signers options (m : Machine W),
        let retries :=
          default BlockchainService.maxRetries (BlockchainService.opt_retries options) in
        let commitment := default confirmed (BlockchainService.opt_commitment options) in
        0 <= retries ->
        (forall m0, exists e m1,
            BlockchainService.send_attempt wallet pollFuel transaction signers options
              commitment m0 = Some (Throw e, m1)
            /\ fatal e = false) ->
        exists e m_last m',
          BlockchainService.sendTransactionWithRetry wallet pollFuel transaction signers
            options m
          = Some (Throw (exhausted e), m')
          /\ BlockchainService.send_attempt wallet pollFuel transaction signers options
               commitment m_last = Some (Throw e, m')
          /\ Z.of_nat (attempts (trace m'))
             = Z.of_nat (attempts (trace m)) + retries + 1).
Proof.
  split.
  - intros T operation maxRetries initialDelayMs m Hpos Hfails.
    destruct (withRetry_exhausts operation maxRetries initialDelayMs Hfails m Hpos)
      as (reason & m_last & m' & Hrun & Hlast & Hcount).
    exists reason, m_last, m'. split; [exact Hrun|]. split; [exact Hlast | exact Hcount].
  - intros wallet pollFuel transaction signers options m retries commitment Hpos Hrefused.
    unfold BlockchainService.sendTransactionWithRetry.
    fold retries. fold commitment.
    destruct (Z.to_nat (retries + 1)) as [|fuel] eqn:Hfuel; [lia|].
    destruct (send_loop_exhausts wallet pollFuel transaction signers options commitment
                retries Hrefused fuel 0 m) as (e & m_last & m' & Hloop & Hlast & Hc);
      [lia|].
    exists e, m_last, m'. split; [exact Hloop|]. split; [exact Hlast|].
    rewrite Hc. lia.
Qed.

End RetryExhaustion.

Section RetryRuns.
Import Sim.

Lemma outage_refuses wallet pollFuel options commitment (m0 : Machine Outage) :
  exists e m1,
    BlockchainService.send_attempt wallet pollFuel tt [] options commitment m0
    = Some (Throw e, m1)
    /\ fatal e = false.
Proof.
  exists ECONNRESET. eexists. split; [|reflexivity].
  unfold BlockchainService.send_attempt. rewrite bind_Throw with (e := ECONNRESET)
    (m1 := mkMachine (world m0) (trace m0 ++ [Requested GetLatestBlockhash])).
  - reflexivity.
  - reflexivity.
Qed.

Lemma C2_witness :
  (exists reason m_last m',
     Async.withRetry (T := unit) always_null 3 1000 (start (mkOutage 0))
     = Some (Throw (match reason with
                    | AnError e => e
                    | Falsy => Error "Operation failed after maximum retries"
                    end), m')
     /\ always_null (T := unit) m_last = Some (Rejected reason, m')
     /\ Z.of_nat (invocations (trace m')) = 0 + 3)
  /\ (exists e m_last m',
        BlockchainService.sendTransactionWithRetry Sim.wallet 40 tt [] (with_retries 3)
          (start (mkOutage 0))
        = Some (Throw (exhausted e), m')
        /\ BlockchainService.send_attempt Sim.wallet 40 tt [] (with_retries 3) confirmed
             m_last = Some (Throw e, m')
        /\ Z.of_nat (attempts (trace m')) = 0 + 3 + 1).
Proof.
  split.
  - apply (proj1 (@C2_retry_exhaustion Outage outage_runtime web3 outage_connection
                    outage_listeners)
             unit always_null 3 1000 (start (mkOutage 0))).
    + lia.
    + intros m0. exists Falsy, m0. split; reflexivity.
  - apply (proj2 (@C2_retry_exhaustion Outage outage_runtime web3 outage_connection
                    outage_listeners)
             Sim.wallet 40%nat tt [] (with_retries 3) (start (mkOutage 0))).
    + simpl. lia.
    + intros m0. apply outage_refuses.
Defined.

(** Three failing calls of an operation, and a submission with
    [retries: 3] on a dead network. *)
Example withRetry_three_failures :
  Async.withRetry (T := unit) (settled always_reset) 3 1000 (start world0)
  = Some (Throw ECONNRESET,
          mkMachine (mkWorld 3000 0 [] [] [] [] [] [])
            [Invoked; Slept 1000; Invoked; Slept 2000; Invoked]).
Proof. vm_compute. reflexivity. Qed.

(** Three calls of a callback that rejects with [null]: the caller gets
    the error [withRetry] makes itself. *)
Example withRetry_three_nulls :
  Async.withRetry (T := unit) always_null 3 1000 (start world0)
  = Some (Throw (Error "Operation failed after maximum retries"),
          mkMachine (mkWorld 3000 0 [] [] [] [] [] [])
            [Invoked; Slept 1000; Invoked; Slept 2000; Invoked]).
Proof. vm_compute. reflexivity. Qed.

Example send_three_retries :
  BlockchainService.sendTransactionWithRetry Sim.wallet 40 tt [] (with_retries 3)
    (start world0)
  = Some (Throw (BlockchainError "Failed to send transaction after retries: ECONNRESET"
                   None None),
          mkMachine (mkWorld 7000 0 [] [] [] [] [] [])
            [Requested GetLatestBlockhash; Slept 1000;
             Requested GetLatestBlockhash; Slept 2000;
             Requested GetLatestBlockhash; Slept 4000;
             Requested GetLatestBlockhash]).
Proof. vm_compute. reflexivity. Qed.

(** C2 fails as stated: after three failed calls [withRetry] throws the
    last error itself, with no wrapper and no count; and
    [sendTransactionWithRetry] with [retries: 3] makes four attempts and
    throws an error whose message holds no count at all. *)
Lemma C2_counterexample :
  ~ (forall r m',
       Async.withRetry (T := unit) (settled always_reset) 3 1000 (start world0)
       = Some (r, m') ->
       invocations (trace m') = 3%nat
       /\ exists surfaced, r = Throw surfaced /\ wraps_with_count surfaced ECONNRESET 3)
  /\ (forall n,
        ~ (forall r m',
             BlockchainService.sendTransactionWithRetry Sim.wallet 40 tt []
               (with_retries 3) (start world0) = Some (r, m') ->
             exists surfaced, r = Throw surfaced /\ wraps_with_count surfaced ECONNRESET n
                              /\ (n = 3 \/ n = 4))).
Proof.
  split.
  - intros Hclaim.
    destruct (Hclaim _ _ withRetry_three_failures) as (_ & surfaced & Hr & Hne & _).
    inversion Hr; subst surfaced. now apply Hne.
  - intros n Hclaim.
    destruct (Hclaim _ _ send_three_retries) as (surfaced & Hr & (_ & _ & Hcount) & Hn).
    inversion Hr; subst surfaced.
    destruct Hn as [-> | ->]; vm_compute in Hcount; discriminate.
Qed.

End RetryRuns.

(** ** A transaction the ledger rejects *)

Section Rejection.
Context {W : Type} `{Runtime W} `{Connection W} `{Listeners W}.
Variable wallet : Keypair.
Variable transaction : Transaction.
Variable signers : list Keypair.
Variable options : BlockchainService.SendTransactionOptions.

Let commitment := default confirmed (BlockchainService.opt_commitment options).
Let retries :=
  default BlockchainService.maxRetries (BlockchainService.opt_retries options).
Let sendOptions :=
  mkSendOptions (default false (BlockchainService.opt_skipPreflight options)) commitment.

(** A poll whose reply tells nothing final: the wait checks the slot,
    sleeps a second and polls again. *)
Lemma poll_status_pending sig reply w1 (m : Machine W) :
  getSignatureStatuses sig (world m) = (reply, w1) ->
  nothing_final reply ->
  BlockchainService.poll_status sig m
  = Some (Return false, mkMachine w1 (trace m ++ [Requested GetSignatureStatuses])).
Proof.
  intros Hstatus Hpending. unfold BlockchainService.poll_status, try_catch.
  unfold bind at 1. rewrite request_run, Hstatus. cbn [fst snd].
  destruct reply as [[info|]|e]; cbn [nothing_final] in Hpending.
  - destruct Hpending as [-> ->]. reflexivity.
  - reflexivity.
  - now rewrite Hpending.
Qed.

(** A poll that is told of a transaction error throws a
    [TransactionFailedError] that carries it. *)
Lemma poll_status_rejected sig info err w1 (m : Machine W) :
  getSignatureStatuses sig (world m) = (Return (Some info), w1) ->
  status_err info = Some err ->
  BlockchainService.poll_status sig m
  = Some (Throw (TransactionFailedError ("Transaction failed: " +:+ err) (Some sig)),
          mkMachine w1 (trace m ++ [Requested GetSignatureStatuses])).
Proof.
  intros Hstatus Herr. unfold BlockchainService.poll_status, try_catch.
  unfold bind at 1. rewrite request_run, Hstatus. cbn [fst snd]. rewrite Herr.
  reflexivity.
Qed.

(** The ledger reports a transaction error at some poll: the wait throws a
    [TransactionFailedError] that carries it, after polling that often. *)
Lemma waitForConfirmation_loop_rejected sig lastValid start err pending w w' :
  reports_error sig commitment start err pending w w' ->
  forall fuel t,
    (pending < fuel)%nat ->
    exists polls,
      BlockchainService.waitForConfirmation_loop fuel start sig lastValid commitment
        (mkMachine w t)
      = Some (Throw (TransactionFailedError ("Transaction failed: " +:+ err) (Some sig)),
              mkMachine w' (t ++ polls))
      /\ Forall poll_effect polls
      /\ length polls = (3 * pending + 1)%nat.
Proof.
  induction 1 as [w info w' Htime Hstatus Herr
                 | pending w reply w1 w' Htime Hstatus Hpending _ IH];
    intros fuel t Hfuel; (destruct fuel as [|fuel]; [lia|]);
    rewrite waitForConfirmation_loop_unfold; cbn [world];
    (assert (Hltb : (Date_now w - start <? BlockchainService.confirmationTimeout) = true)
       by (apply Z.ltb_lt; exact Htime));
    rewrite Hltb.
  - exists [Requested GetSignatureStatuses]. split; [|split; [poll_effects|reflexivity]].
    apply bind_Throw.
    now rewrite (poll_status_rejected sig info err w' (mkMachine w t) Hstatus Herr).
  - destruct (IH fuel ((t ++ [Requested GetSignatureStatuses; Requested GetSlot])
                       ++ [Slept 1000])) as (polls & Hrun & Hpolls & Hlen); [lia|].
    exists ([Requested GetSignatureStatuses; Requested GetSlot; Slept 1000] ++ polls).
    split; [|split; [simpl; poll_effects | cbn [length app]; lia]].
    unfold bind at 1.
    rewrite (poll_status_pending sig reply w1 (mkMachine w t) Hstatus Hpending).
    unfold bind at 1. rewrite check_slot_run. unfold bind at 1. rewrite sleep_eq.
    cbn [world trace]. rewrite <- (app_assoc t [_] [_]). cbn [app].
    rewrite Hrun. now rewrite <- !app_assoc.
Qed.

(** C4, as the code has it: when no listener throws and the ledger reports
    a transaction error for the first attempt of a submission configured
    for [retries + 1] attempts -- at the first status poll or at a later
    one -- the submission ends there: one blockhash fetched, one
    transaction sent, SENT and FAILED emitted around the polls, and the
    [TransactionFailedError] thrown; no budget is used. *)
Theorem C4_ledger_rejection_short_circuits
    pollFuel (m : Machine W) bh lastValid raw sig err pending w1 w2 w3 :
  listeners_quiet W ->
  0 <= retries ->
  getLatestBlockhash commitment (world m) = (Return (bh, lastValid), w1) ->
  sign_and_serialize transaction bh (Keypair_publicKey wallet) (wallet :: signers)
  = Return raw ->
  sendRawTransaction raw sendOptions w1 = (Return sig, w2) ->
  let sent := snd (run_listeners TRANSACTION_SENT [ArgStr sig] w2) in
  reports_error sig commitment (Date_now sent) err pending sent w3 ->
  (pending < pollFuel)%nat ->
  let rejection :=
    TransactionFailedError ("Transaction failed: " +:+ err) (Some sig) in
  exists polls m',
    BlockchainService.sendTransactionWithRetry wallet pollFuel transaction signers
      options m
    = Some (Throw rejection, m')
    /\ trace m'
       = trace m
         ++ sent_then sig polls (Emitted TRANSACTION_FAILED [ArgErr rejection; ArgStr sig])
    /\ Forall poll_effect polls
    /\ length polls = (3 * pending + 1)%nat
    /\ attempts (trace m') = (attempts (trace m) + 1)%nat.
Proof.
  intros quiet Hpos Hbh Hsign Hsend sent Hreports Hfuel rejection.
  destruct (waitForConfirmation_loop_rejected sig lastValid (Date_now sent) err pending
              sent w3 Hreports pollFuel
              (((trace m ++ [Requested GetLatestBlockhash])
                ++ [Requested SendRawTransaction])
               ++ [Emitted TRANSACTION_SENT [ArgStr sig]]) Hfuel)
    as (polls & Hwait & Hpolls & Hlen).
  fold rejection in Hwait.
  assert (Hattempt :
            BlockchainService.send_attempt wallet pollFuel transaction signers options
              commitment m
            = Some (Throw rejection,
                    mkMachine
                      (snd (run_listeners TRANSACTION_FAILED
                              [ArgErr rejection; ArgStr sig] w3))
                      (trace m
                       ++ sent_then sig polls
                            (Emitted TRANSACTION_FAILED [ArgErr rejection; ArgStr sig])))).
  { unfold BlockchainService.send_attempt.
    rewrite bind_Return
      with (a := (bh, lastValid))
           (m1 := mkMachine w1 (trace m ++ [Requested GetLatestBlockhash]))
      by (rewrite request_run, Hbh; reflexivity).
    rewrite Hsign. unfold bind at 1, ret at 1.
    rewrite bind_Return
      with (a := sig)
           (m1 := mkMachine w2 ((trace m ++ [Requested GetLatestBlockhash])
                                ++ [Requested SendRawTransaction]))
      by (rewrite request_run; cbn [world trace]; fold sendOptions; rewrite Hsend;
          reflexivity).
    unfold bind at 1. rewrite (emit_quiet quiet). cbn [world trace]. fold sent.
    rewrite try_catch_Throw
      with (e := rejection)
           (m1 := mkMachine w3
                    ((((trace m ++ [Requested GetLatestBlockhash])
                       ++ [Requested SendRawTransaction])
                      ++ [Emitted TRANSACTION_SENT [ArgStr sig]])
                     ++ polls)).
    - unfold bind at 1. rewrite (emit_quiet quiet). cbn [world trace throw].
      unfold sent_then. now rewrite <- !app_assoc.
    - apply bind_Throw.
      unfold BlockchainService.waitForConfirmation, bind at 1, read_world.
      cbn [world]. exact Hwait. }
  exists polls. eexists. split; [|split; [|split; [|split]]].
  - unfold BlockchainService.sendTransactionWithRetry.
    fold retries. fold commitment.
    destruct (Z.to_nat (retries + 1)) as [|fuel] eqn:Hfuel'; [lia|].
    eapply attempt_fatal_stops; [exact Hpos | exact Hattempt | reflexivity].
  - reflexivity.
  - exact Hpolls.
  - exact Hlen.
  - cbn [trace]. rewrite attempts_app. f_equal. now apply attempts_sent_then.
Qed.

End Rejection.

(** ** A confirmation that does not arrive *)

Section Expiry.
Context {W : Type} `{Runtime W} `{Connection W} `{Listeners W}.

(** Once the wall-clock timeout has elapsed the wait throws a
    [TransactionTimeoutError]. *)
Lemma waitForConfirmation_loop_timeout fuel start sig lastValid commitment (m : Machine W) :
  BlockchainService.confirmationTimeout <= Date_now (world m) - start ->
  BlockchainService.waitForConfirmation_loop fuel start sig lastValid commitment m
  = Some (Throw (TransactionTimeoutError "Transaction not confirmed within 30000ms"
                   (Some sig)), m).
Proof.
  intros Hlate. rewrite waitForConfirmation_loop_unfold.
  assert (Hltb : (Date_now (world m) - start <? BlockchainService.confirmationTimeout) = false)
    by (apply Z.ltb_ge; lia).
  rewrite Hltb. reflexivity.
Qed.

(** C3, as the code has it: an attempt that ends with a
    [TransactionTimeoutError] ends the whole submission, whatever retry
    budget is left: the error is rethrown and no further attempt is
    made. *)
Theorem C3_timeout_ends_submission
    wallet pollFuel transaction signers options commitment
    fuel retries attempt (m : Machine W) e m1 :
  attempt <= retries ->
  BlockchainService.send_attempt wallet pollFuel transaction signers options commitment m
  = Some (Throw e, m1) ->
  instanceof_TransactionTimeoutError e = true ->
  BlockchainService.sendTransaction_loop wallet (S fuel) pollFuel retries attempt
    transaction signers options commitment m
  = Some (Throw e, m1)
  /\ attempts (trace m1) = (attempts (trace m) + 1)%nat.
Proof.
  intros Hle Hattempt Hclass. split.
  - apply attempt_fatal_stops; [exact Hle | exact Hattempt |].
    unfold fatal. rewrite Hclass. apply orb_true_r.
  - now apply send_attempt_counts in Hattempt.
Qed.

End Expiry.

Section ExpiryRuns.
Import Sim.

Example pending_attempt :
  BlockchainService.send_attempt Sim.wallet 40 tt [] (with_retries 5) confirmed
    (start pending_world)
  = Some (Throw timeout_sig1, pending_end).
Proof. vm_compute. reflexivity. Qed.

Example pending_submission :
  BlockchainService.sendTransactionWithRetry Sim.wallet 40 tt [] (with_retries 5)
    (start pending_world)
  = Some (Throw timeout_sig1, pending_end).
Proof. vm_compute. reflexivity. Qed.

Lemma C3_witness :
  BlockchainService.sendTransaction_loop Sim.wallet 6 40 5 0 tt [] (with_retries 5)
    confirmed (start pending_world)
  = Some (Throw timeout_sig1, pending_end)
  /\ attempts (trace pending_end) = (attempts (trace (start pending_world)) + 1)%nat.
Proof.
  apply (@C3_timeout_ends_submission World runtime web3 connection listeners Sim.wallet 40%nat tt []
           (with_retries 5) confirmed 5%nat 5 0 (start pending_world)
           timeout_sig1 pending_end).
  - lia.
  - vm_compute. reflexivity.
  - reflexivity.
Defined.

(** C3 fails as stated: the first attempt times out with five retries
    left, and the submission ends with that error after a single attempt
    and a single SENT event; the second blockhash is never fetched. *)
Lemma C3_counterexample :
  ~ (forall r m',
       BlockchainService.sendTransactionWithRetry Sim.wallet 40 tt [] (with_retries 5)
         (start pending_world) = Some (r, m') ->
       (2 <= attempts (trace m'))%nat
       /\ (2 <= length (filter is_sent (trace m')))%nat).
Proof.
  intros Hclaim. destruct (Hclaim _ _ pending_submission) as [Hattempts _].
  vm_compute in Hattempts. lia.
Qed.

Lemma rejecting_later_reports :
  reports_error "sig1" confirmed 0 "6001" 2
    (mkWorld 0 0 [Return ("bh2", 200)] [Return "sig2"]
       [Return None; Return (Some (mkStatus None (Some processed)));
        Return (Some (mkStatus (Some "6001") None))] [] [] [])
    (mkWorld 2000 0 [Return ("bh2", 200)] [Return "sig2"] [] [] [] []).
Proof.
  eapply reports_later; [reflexivity | reflexivity | exact I |].
  eapply reports_later; [reflexivity | reflexivity | split; reflexivity |].
  eapply reports_now; reflexivity.
Defined.

Lemma C4_witness :
  let rejection := TransactionFailedError "Transaction failed: 6001" (Some "sig1") in
  exists polls m',
    BlockchainService.sendTransactionWithRetry Sim.wallet 40 tt [] (with_retries 5)
      (start rejecting_later_world)
    = Some (Throw rejection, m')
    /\ trace m'
       = trace (start rejecting_later_world)
         ++ sent_then "sig1" polls
              (Emitted TRANSACTION_FAILED [ArgErr rejection; ArgStr "sig1"])
    /\ Forall poll_effect polls
    /\ length polls = (3 * 2 + 1)%nat
    /\ attempts (trace m') = (attempts (trace (start rejecting_later_world)) + 1)%nat.
Proof.
  eapply (@C4_ledger_rejection_short_circuits World runtime web3 connection listeners
            Sim.wallet tt [] (with_retries 5) 40%nat (start rejecting_later_world)
            "bh1" 100 "raw@bh1" "sig1" "6001" 2%nat).
  - intros ev args w. reflexivity.
  - simpl. lia.
  - reflexivity.
  - reflexivity.
  - reflexivity.
  - exact rejecting_later_reports.
  - lia.
Defined.

(** The ledger rejects at the first poll, and at the third. *)
Example rejected_at_once :
  exists m',
    BlockchainService.sendTransactionWithRetry Sim.wallet 40 tt [] (with_retries 5)
      (start rejecting_world)
    = Some (Throw (TransactionFailedError "Transaction failed: 6001" (Some "sig1")), m')
    /\ attempts (trace m') = 1%nat.
Proof. eexists. split; vm_compute; reflexivity. Qed.

Example rejected_at_third_poll :
  exists m',
    BlockchainService.sendTransactionWithRetry Sim.wallet 40 tt [] (with_retries 5)
      (start rejecting_later_world)
    = Some (Throw (TransactionFailedError "Transaction failed: 6001" (Some "sig1")), m')
    /\ attempts (trace m') = 1%nat
    /\ sleeps (trace m') = [1000; 1000].
Proof. eexists. split; [|split]; vm_compute; reflexivity. Qed.

(** A listener of [transaction_failed] that throws: its exception takes
    the place of the [TransactionFailedError], and is retried like any
    other error. *)
Example heckled_rejection :
  exists m',
    BlockchainService.sendTransactionWithRetry Sim.wallet 40 tt [] (with_retries 1)
      (start (mkHeckled rejecting_world failed_listener_throws))
    = Some (Throw (exhausted listener_failure), m')
    /\ attempts (trace m') = 2%nat
    /\ map fst (emitted (trace m'))
       = [TRANSACTION_SENT; TRANSACTION_FAILED; TRANSACTION_SENT; TRANSACTION_FAILED].
Proof. eexists. split; [|split]; vm_compute; reflexivity. Qed.

(** C4 fails as stated: the ledger rejects the first attempt of a
    submission with [retries: 1]; the listener of [transaction_failed]
    throws, and the submission makes a second attempt. *)
Lemma C4_counterexample :
  ~ (forall r m',
       BlockchainService.sendTransactionWithRetry Sim.wallet 40 tt [] (with_retries 1)
         (start (mkHeckled rejecting_world failed_listener_throws)) = Some (r, m') ->
       attempts (trace m') = 1%nat).
Proof.
  intros Hclaim. destruct heckled_rejection as (m' & Hrun & Hattempts & _).
  specialize (Hclaim _ _ Hrun). rewrite Hattempts in Hclaim. discriminate Hclaim.
Qed.

End ExpiryRuns.

(** ** Back-off delays *)

Section Backoff.
Context {W : Type} `{Runtime W} `{Connection W} `{Listeners W}.





End Backoff.


Section BackoffRuns.
Import Sim.


(** The product [Math.random() * 500] is rounded before it is floored: for
    this draw the exact product is below 312, the double is 312. *)
Example jitter_rounds_up :
  5620492334958379 * 500 / 2 ^ 53 = 311
  /\ round53 (5620492334958379 * 500) / 2 ^ 53 = 312.
Proof. split; reflexivity. Qed.

(** Five back-offs of [withRetry]: powers of two, to the millisecond. *)
Example withRetry_six_failures :
  exists m',
    Async.withRetry (T := unit) (settled always_reset) 6 1000 (start world0)
    = Some (Throw ECONNRESET, m')
    /\ sleeps (trace m') = [1000; 2000; 4000; 8000; 16000].
Proof. eexists. split; vm_compute; reflexivity. Qed.

(** The jitter of [sendTransactionWithRetry] does not grow with the delay:
    [Math.random() = 1/2] gives 250 ms, here on top of 2000 ms. *)
Example send_down_submission :
  BlockchainService.sendTransactionWithRetry Sim.wallet 40 tt [] (with_retries 2)
    (start send_down_world)
  = Some (Throw (exhausted ECONNRESET), send_down_end)
  /\ sleeps (trace send_down_end) = [1000; 2250].
Proof. split; vm_compute; reflexivity. Qed.


End BackoffRuns.

(** ** Lifecycle events *)

Section Lifecycle.
Context {W : Type} `{Runtime W} `{Connection W} `{Listeners W}.

(** When the budget is exhausted and no listener throws, nothing was ever
    emitted. *)
Lemma exhausted_submission_is_silent
    wallet pollFuel transaction signers options (m : Machine W) e m' :
  listeners_quiet W ->
  BlockchainService.sendTransactionWithRetry wallet pollFuel transaction signers options m
  = Some (Throw (exhausted e), m') ->
  exists ext, trace m' = trace m ++ ext /\ emitted ext = [].
Proof.
  intros quiet Hrun. unfold BlockchainService.sendTransactionWithRetry in Hrun.
  apply send_loop_lifecycle in Hrun as (ext & Ht & Hlife); [|exact quiet].
  exists ext. split; [exact Ht|].
  destruct Hlife as [[Hsilent _] | [(res & Hr & _) | (sig & e' & Hr & Hfatal & _)]].
  - exact Hsilent.
  - discriminate.
  - inversion Hr; subst e'. discriminate.
Qed.

(** C8, as the code has it: when no listener throws, the lifecycle events
    of one call of [sendTransactionWithRetry] are either none at all (no
    attempt got as far as sending; an error is thrown), or SENT followed by
    CONFIRMED (the call returns that signature), or SENT followed by FAILED
    (the call throws the error FAILED carries; a timeout is reported as
    FAILED too).  No terminal event comes before SENT, and a SENT is
    followed by exactly one terminal event.  When the call ends because the
    retry budget is exhausted, no event was emitted. *)
Theorem C8_lifecycle_order
    wallet pollFuel transaction signers options (m : Machine W) r m' :
  listeners_quiet W ->
  BlockchainService.sendTransactionWithRetry wallet pollFuel transaction signers options m
  = Some (r, m') ->
  exists ext,
    trace m' = trace m ++ ext
    /\ lifecycle ext r
    /\ (forall e, r = Throw (exhausted e) -> emitted ext = []).
Proof.
  intros quiet Hrun.
  pose proof Hrun as Hlife. unfold BlockchainService.sendTransactionWithRetry in Hlife.
  apply send_loop_lifecycle in Hlife as (ext & Ht & Hlife); [|exact quiet].
  exists ext. split; [exact Ht|]. split; [exact Hlife|].
  intros e ->.
  apply exhausted_submission_is_silent in Hrun as (ext' & Ht' & Hsilent); [|exact quiet].
  rewrite Ht in Ht'. apply app_inv_head in Ht'. now subst ext'.
Qed.

End Lifecycle.

Section LifecycleRuns.
Import Sim.

Example confirmed_submission :
  BlockchainService.sendTransactionWithRetry Sim.wallet 40 tt [] no_options
    (start confirming_world)
  = Some (Return confirmed_result, confirmed_end).
Proof. vm_compute. reflexivity. Qed.

Lemma C8_witness :
  exists ext,
    trace confirmed_end = trace (start confirming_world) ++ ext
    /\ lifecycle ext (Return confirmed_result)
    /\ (forall e, Return confirmed_result = Throw (exhausted e) -> emitted ext = []).
Proof.
  apply (@C8_lifecycle_order World runtime web3 connection listeners Sim.wallet 40%nat tt []
           no_options (start confirming_world) (Return confirmed_result) confirmed_end).
  - intros ev args w. reflexivity.
  - vm_compute. reflexivity.
Defined.

(** C8 fails as stated: with three attempts ([retries: 2]) whose sends are
    all refused, no SENT event is emitted, not three: SENT is emitted only
    once a send has succeeded. *)
Lemma C8_counterexample :
  ~ (forall r m',
       BlockchainService.sendTransactionWithRetry Sim.wallet 40 tt [] (with_retries 2)
         (start send_down_world) = Some (r, m') ->
       length (filter is_sent (trace m')) = 3%nat).
Proof.
  intros Hclaim. specialize (Hclaim _ _ (proj1 send_down_submission)).
  vm_compute in Hclaim. discriminate.
Qed.

(** A listener that throws breaks the order.  When the listener of
    [transaction_sent] throws, its exception ends the attempt like a
    refused send: with [retries: 2] one call emits SENT three times and no
    terminal event.  When the listener of [transaction_confirmed] throws,
    the confirmed attempt is reported as FAILED as well, and retried. *)
Example heckled_sent :
  exists m',
    BlockchainService.sendTransactionWithRetry Sim.wallet 40 tt [] (with_retries 2)
      (start (mkHeckled accepting_world sent_listener_throws))
    = Some (Throw (exhausted listener_failure), m')
    /\ emitted (trace m')
       = [(TRANSACTION_SENT, [ArgStr "sig1"]); (TRANSACTION_SENT, [ArgStr "sig2"]);
          (TRANSACTION_SENT, [ArgStr "sig3"])].
Proof. eexists. split; vm_compute; reflexivity. Qed.

Example heckled_confirmed :
  exists m',
    BlockchainService.sendTransactionWithRetry Sim.wallet 40 tt [] (with_retries 0)
      (start (mkHeckled confirming_world confirmed_listener_throws))
    = Some (Throw (exhausted listener_failure), m')
    /\ emitted (trace m')
       = [(TRANSACTION_SENT, [ArgStr "sig1"]); (TRANSACTION_CONFIRMED, [ArgStr "sig1"]);
          (TRANSACTION_FAILED, [ArgErr listener_failure; ArgStr "sig1"])].
Proof. eexists. split; vm_compute; reflexivity. Qed.

End LifecycleRuns.

(** ** Verifying one attestation *)

Section Attestation.
Context {W : Type} `{Runtime W} `{Connection W} `{Json}.
Variable programId : PublicKey.
Variable wallet : Keypair.

Lemma parseAttestationData_total raw (m : Machine W) :
  exists parsed,
    BlockchainService.parseAttestationData wallet raw m = Some (Return parsed, m).
Proof.
  unfold BlockchainService.parseAttestationData.
  destruct (String.eqb (Buffer_toString_trim raw) EmptyString); [eexists; reflexivity|].
  destruct (JSON_parse (Buffer_toString_trim raw)) as [parsed|]; [|eexists; reflexivity].
  destruct (negb (truthy (credentialId parsed)) || negb (truthy (studentId parsed))
            || negb (truthy (universityId parsed))); eexists; reflexivity.
Qed.

Lemma validateAttestationStructure_total parsed (m : Machine W) :
  exists ok,
    BlockchainService.validateAttestationStructure parsed m = Some (Return ok, m).
Proof.
  unfold BlockchainService.validateAttestationStructure.
  destruct parsed as [d|]; [|eexists; reflexivity].
  destruct (negb (typeof_string (credentialId d))); [eexists; reflexivity|].
  destruct (negb (typeof_string (studentId d))); [eexists; reflexivity|].
  destruct (negb (typeof_string (universityId d))); [eexists; reflexivity|].
  destruct (negb (BlockchainService.known_attestationType (attestationType d)));
    [eexists; reflexivity|].
  unfold bind, read_world.
  destruct (truthy (timestamp d) && _); eexists; reflexivity.
Qed.

(** [verifyAttestation] always completes, and never throws: every failure
    becomes an invalid result. *)
Lemma verifyAttestation_total addr (m : Machine W) :
  exists r m', BlockchainService.verifyAttestation programId wallet addr m
               = Some (Return r, m').
Proof.
  unfold BlockchainService.verifyAttestation, try_catch.
  destruct (String.eqb addr EmptyString); [eexists _, _; reflexivity|].
  destruct (PublicKey_new addr) as [pk|e]; [|eexists _, _; reflexivity].
  unfold bind at 1. rewrite request_run.
  destruct (getAccountInfo pk (world m)) as [[[info|]|e] w']; cbn [fst snd];
    [| eexists _, _; reflexivity | eexists _, _; reflexivity].
  destruct (negb (PublicKey_equals (owner info) programId)); [eexists _, _; reflexivity|].
  unfold bind at 1.
  match goal with
  | |- context [BlockchainService.parseAttestationData wallet ?raw ?m0] =>
      destruct (parseAttestationData_total raw m0) as [parsed ->]
  end.
  unfold bind at 1.
  match goal with
  | |- context [BlockchainService.validateAttestationStructure ?p ?m0] =>
      destruct (validateAttestationStructure_total p m0) as [ok ->]
  end.
  eexists _, _; reflexivity.
Qed.

(** C5: an address whose account is absent is reported as "not found";
    an address whose account is owned by another program is reported as
    "not owned by expected program", which is another reason; both results
    are invalid. *)
Theorem C5_absent_versus_wrong_owner
    absent pk_absent forged pk_forged info (m : Machine W) w1 w2 :
  absent <> EmptyString ->
  PublicKey_new absent = Return pk_absent ->
  getAccountInfo pk_absent (world m) = (Return None, w1) ->
  forged <> EmptyString ->
  PublicKey_new forged = Return pk_forged ->
  getAccountInfo pk_forged (world m) = (Return (Some info), w2) ->
  PublicKey_equals (owner info) programId = false ->
  BlockchainService.verifyAttestation programId wallet absent m
  = Some (Return (BlockchainService.mkVerification false None
                    (Some "Attestation account not found")),
          mkMachine w1 (trace m ++ [Requested GetAccountInfo]))
  /\ exists r,
       BlockchainService.verifyAttestation programId wallet forged m
       = Some (Return r, mkMachine w2 (trace m ++ [Requested GetAccountInfo]))
       /\ BlockchainService.isValid r = false
       /\ BlockchainService.error r
          = Some "Attestation account is not owned by expected program"
       /\ BlockchainService.error r <> Some "Attestation account not found".
Proof.
  intros Hne1 Hpk1 Hinfo1 Hne2 Hpk2 Hinfo2 Howner.
  apply String.eqb_neq in Hne1, Hne2.
  split.
  - unfold BlockchainService.verifyAttestation, try_catch.
    rewrite Hne1, Hpk1. unfold bind at 1. rewrite request_run, Hinfo1.
    reflexivity.
  - eexists. split; [|split; [|split]].
    + unfold BlockchainService.verifyAttestation, try_catch.
      rewrite Hne2, Hpk2. unfold bind at 1. rewrite request_run, Hinfo2.
      cbn [fst snd]. rewrite Howner. reflexivity.
    + reflexivity.
    + reflexivity.
    + discriminate.
Qed.

End Attestation.

Section AttestationRuns.
Import Sim.

Lemma C5_witness :
  BlockchainService.verifyAttestation program Sim.wallet "Nobody11" (start ledger_world)
  = Some (Return (BlockchainService.mkVerification false None
                    (Some "Attestation account not found")),
          mkMachine ledger_world [Requested GetAccountInfo])
  /\ exists r,
       BlockchainService.verifyAttestation program Sim.wallet "Mallory1"
         (start ledger_world)
       = Some (Return r, mkMachine ledger_world [Requested GetAccountInfo])
       /\ BlockchainService.isValid r = false
       /\ BlockchainService.error r
          = Some "Attestation account is not owned by expected program"
       /\ BlockchainService.error r <> Some "Attestation account not found".
Proof.
  apply (@C5_absent_versus_wrong_owner World runtime web3 connection json program
           Sim.wallet
           "Nobody11" (String.list_byte_of_string "Nobody11")
           "Mallory1" (String.list_byte_of_string "Mallory1")
           (mkAccountInfo other_program (String.list_byte_of_string "credential"))
           (start ledger_world) ledger_world ledger_world).
  - discriminate.
  - reflexivity.
  - reflexivity.
  - discriminate.
  - reflexivity.
  - reflexivity.
  - reflexivity.
Defined.

(** The three kinds of account, and a malformed address. *)
Example verify_not_found :
  exists m',
    BlockchainService.verifyAttestation program Sim.wallet "Nobody11" (start ledger_world)
    = Some (Return (BlockchainService.invalid "Attestation account not found"), m').
Proof. eexists. vm_compute. reflexivity. Qed.

Example verify_wrong_owner :
  exists m',
    BlockchainService.verifyAttestation program Sim.wallet "Mallory1" (start ledger_world)
    = Some (Return (BlockchainService.invalid
                      "Attestation account is not owned by expected program"), m').
Proof. eexists. vm_compute. reflexivity. Qed.

Example verify_valid :
  exists m',
    BlockchainService.verifyAttestation program Sim.wallet "Alice111" (start ledger_world)
    = Some (Return (BlockchainService.mkVerification true
                      (Some (mkAttestation (JStr "cred-1") (JStr "stu-1") (JStr "uni-1")
                               (JStr "UNIVERSITY_ISSUED") (JNum 5) JNull))
                      None), m').
Proof. eexists. vm_compute. reflexivity. Qed.

Example verify_malformed_address :
  BlockchainService.verifyAttestation program Sim.wallet "not an address"
    (start ledger_world)
  = Some (Return (BlockchainService.invalid "Invalid attestation address format"),
          start ledger_world).
Proof. vm_compute. reflexivity. Qed.

End AttestationRuns.

(** ** Verifying a batch *)

Section ChunkFacts.
Context {A : Type}.

Lemma chunks_fuel_concat n fuel : forall l : list A,
  (0 < n)%nat -> (length l <= fuel)%nat ->
  concat (BatchSpec.chunks_fuel fuel n l) = l.
Proof.
  induction fuel as [|fuel IH]; intros l Hn Hlen.
  - destruct l; [reflexivity | simpl in Hlen; lia].
  - destruct l as [|a l]; [reflexivity|].
    cbn [BatchSpec.chunks_fuel concat]. rewrite IH; [apply take_drop | exact Hn |].
    rewrite length_drop. simpl in *. lia.
Qed.

(** Chunk [j] is [l.slice(j * n, j * n + n)], and starts inside [l]. *)
Lemma chunks_fuel_lookup n fuel : forall (l : list A) j c,
  (0 < n)%nat ->
  BatchSpec.chunks_fuel fuel n l !! j = Some c ->
  c = take n (drop (j * n) l) /\ (j * n < length l)%nat.
Proof.
  induction fuel as [|fuel IH]; intros l j c Hn Hc; [discriminate|].
  destruct l as [|a l]; [discriminate|].
  cbn [BatchSpec.chunks_fuel] in Hc. destruct j as [|j].
  - inversion Hc; subst c. simpl. split; [reflexivity | lia].
  - cbn [lookup list_lookup] in Hc. apply IH in Hc as [-> Hlt]; [|exact Hn].
    rewrite length_drop in Hlt. rewrite drop_drop. split.
    + reflexivity.
    + simpl in *. lia.
Qed.

Lemma chunks_fuel_nil n fuel (l : list A) :
  BatchSpec.chunks_fuel fuel n l = [] <-> fuel = O \/ l = [].
Proof.
  destruct fuel, l; simpl; split; intros; auto; try discriminate;
    destruct H as [?|?]; discriminate.
Qed.

End ChunkFacts.

Section BatchFacts.
Context {W : Type} `{Runtime W}.
Variable verify : string -> M W BlockchainService.VerificationResult.

Abbreviation VR := BlockchainService.VerificationResult.

Lemma batchVerify_loop_unfold fuel i addrs results :
  BlockchainService.batchVerify_loop verify fuel i addrs results
  = if (i <? length addrs)%nat then
      match fuel with
      | O => diverge
      | S fuel' =>
          batchResults <-
            BlockchainService.promise_all_map (BlockchainService.verify_one verify)
              (take BlockchainService.BATCH_SIZE (drop i addrs)) ;;
          (if (i + BlockchainService.BATCH_SIZE <? length addrs)%nat
           then Async.sleep 500
           else ret tt) ;;;
          BlockchainService.batchVerify_loop verify fuel'
            (i + BlockchainService.BATCH_SIZE)%nat addrs
            (BlockchainService.merge_results results batchResults)
      end
    else ret results.
Proof. destruct fuel; reflexivity. Qed.

(** The loop of the source is the chunked process of the specification. *)
Lemma batchVerify_loop_refines fuel : forall i addrs results (m : Machine W),
  (length addrs <= i + fuel)%nat ->
  BlockchainService.batchVerify_loop verify fuel i addrs results m
  = BatchSpec.process_chunks verify
      (BatchSpec.chunks_fuel fuel BlockchainService.BATCH_SIZE (drop i addrs)) results m.
Proof.
  induction fuel as [|fuel IH]; intros i addrs results m Hfuel;
    rewrite batchVerify_loop_unfold.
  - assert (Hge : (i <? length addrs)%nat = false) by (apply Nat.ltb_ge; lia).
    now rewrite Hge.
  - destruct (i <? length addrs)%nat eqn:Hlt.
    2:{ apply Nat.ltb_ge in Hlt. rewrite drop_ge by lia. reflexivity. }
    apply Nat.ltb_lt in Hlt.
    destruct (drop i addrs) as [|a rest] eqn:Hdrop.
    { apply (f_equal length) in Hdrop. rewrite length_drop in Hdrop. simpl in Hdrop. lia. }
    cbn [BatchSpec.chunks_fuel BatchSpec.process_chunks].
    rewrite <- Hdrop, drop_drop. unfold bind at 1 3.
    destruct (BlockchainService.promise_all_map _ _ m) as [[[rs|e] m1]|];
      [|reflexivity|reflexivity].
    destruct (i + BlockchainService.BATCH_SIZE <? length addrs)%nat eqn:Hmore.
    + apply Nat.ltb_lt in Hmore.
      destruct (BatchSpec.chunks_fuel fuel BlockchainService.BATCH_SIZE
                  (drop (i + BlockchainService.BATCH_SIZE) addrs)) as [|c cs] eqn:Hcs.
      { apply chunks_fuel_nil in Hcs as [-> | Hnil].
        - unfold BlockchainService.BATCH_SIZE in *. lia.
        - apply (f_equal length) in Hnil. rewrite length_drop in Hnil. simpl in Hnil. lia. }
      rewrite <- Hcs. unfold bind at 1 2. rewrite sleep_eq.
      apply IH. unfold BlockchainService.BATCH_SIZE. lia.
    + apply Nat.ltb_ge in Hmore. rewrite (drop_ge addrs) by lia.
      assert (Hnil : BatchSpec.chunks_fuel fuel BlockchainService.BATCH_SIZE (@nil string) = [])
        by (destruct fuel; reflexivity).
      rewrite Hnil. unfold bind at 1 2. cbn [ret].
      rewrite batchVerify_loop_unfold.
      assert (Hge : (i + BlockchainService.BATCH_SIZE <? length addrs)%nat = false)
        by (apply Nat.ltb_ge; lia).
      rewrite Hge. reflexivity.
Qed.

(** Verification of a single address completes: it returns or throws. *)
Hypothesis verify_completes : forall addr m, is_Some (verify addr m).

Lemma verify_one_captures addr (m : Machine W) :
  exists r m',
    BlockchainService.verify_one verify addr m = Some (Return (addr, r), m')
    /\ BatchSpec.captured verify addr r.
Proof.
  unfold BlockchainService.verify_one, try_catch, bind.
  destruct (verify_completes addr m) as [[[r|e] m'] Hrun]; rewrite Hrun.
  - exists r, m'. split; [reflexivity|]. exists m, m'. now left.
  - exists (BlockchainService.invalid (message e)), m'. split; [reflexivity|].
    exists m, m'. right. eauto.
Qed.

(** A chunk is verified member by member; no member's failure rejects the
    chunk. *)
Lemma promise_all_map_captures : forall batch (m : Machine W),
  exists rs m',
    BlockchainService.promise_all_map (BlockchainService.verify_one verify) batch m
    = Some (Return rs, m')
    /\ map fst rs = batch
    /\ Forall (fun ar => BatchSpec.captured verify (fst ar) (snd ar)) rs.
Proof.
  induction batch as [|a batch IH]; intros m.
  - exists [], m. repeat split. constructor.
  - destruct (verify_one_captures a m) as (r & m1 & Hone & Hcap).
    destruct (IH m1) as (rs & m' & Hall & Hfst & Hrs).
    exists ((a, r) :: rs), m'. split; [|split].
    + cbn [BlockchainService.promise_all_map]. unfold bind at 1. rewrite Hone.
      unfold bind at 1. rewrite Hall. reflexivity.
    + simpl. now rewrite Hfst.
    + constructor; assumption.
Qed.

Lemma assign_is_Some (results : BlockchainService.Results) a0 r0 a :
  is_Some (BlockchainService.own (BlockchainService.assign results a0 r0) !! a)
  <-> is_Some (BlockchainService.own results !! a) \/ (a = a0 /\ a <> "__proto__").
Proof.
  unfold BlockchainService.assign.
  destruct (String.eqb a0 "__proto__") eqn:Hproto; cbn [BlockchainService.own].
  - apply String.eqb_eq in Hproto. subst a0. split; [auto | intros [? | [-> ?]]; tauto].
  - apply String.eqb_neq in Hproto. destruct (decide (a0 = a)) as [-> | Hne].
    + rewrite lookup_insert_eq. split; [intros _; auto | intros _; eauto].
    + rewrite lookup_insert_ne by exact Hne. split; [auto | intros [? | [-> ?]]; tauto].
Qed.

Lemma assign_lookup (results : BlockchainService.Results) a0 r0 a r :
  BlockchainService.own (BlockchainService.assign results a0 r0) !! a = Some r ->
  BlockchainService.own results !! a = Some r \/ (a = a0 /\ r = r0).
Proof.
  unfold BlockchainService.assign.
  destruct (String.eqb a0 "__proto__"); cbn [BlockchainService.own]; [auto|].
  destruct (decide (a0 = a)) as [-> | Hne].
  - rewrite lookup_insert_eq. intros Hr. inversion Hr. auto.
  - rewrite lookup_insert_ne by exact Hne. auto.
Qed.

(** An assignment to [__proto__] sets the prototype, and only such an
    assignment does. *)
Lemma assign_prototype (results : BlockchainService.Results) a0 r0 :
  is_Some (BlockchainService.prototype (BlockchainService.assign results a0 r0))
  <-> is_Some (BlockchainService.prototype results) \/ a0 = "__proto__".
Proof.
  unfold BlockchainService.assign.
  destruct (String.eqb a0 "__proto__") eqn:Hproto; cbn [BlockchainService.prototype].
  - apply String.eqb_eq in Hproto. split; [auto | eauto].
  - apply String.eqb_neq in Hproto. tauto.
Qed.

Lemma merge_results_is_Some rs : forall (results : BlockchainService.Results) a,
  is_Some (BlockchainService.own (BlockchainService.merge_results results rs) !! a)
  <-> is_Some (BlockchainService.own results !! a)
      \/ (a ∈ map fst rs /\ a <> "__proto__").
Proof.
  unfold BlockchainService.merge_results.
  induction rs as [|[a0 r0] rs IH]; intros results a; cbn [foldl map fst snd].
  - rewrite elem_of_nil. tauto.
  - rewrite IH, assign_is_Some, elem_of_cons. tauto.
Qed.

Lemma merge_results_lookup rs : forall (results : BlockchainService.Results) a r,
  BlockchainService.own (BlockchainService.merge_results results rs) !! a = Some r ->
  BlockchainService.own results !! a = Some r \/ (a, r) ∈ rs.
Proof.
  unfold BlockchainService.merge_results.
  induction rs as [|[a0 r0] rs IH]; intros results a r Hlook; cbn [foldl fst snd] in Hlook.
  - now left.
  - apply IH in Hlook as [Hlook | Hin]; [|right; now apply elem_of_cons; right].
    apply assign_lookup in Hlook as [Hlook | [-> ->]]; [now left|].
    right. apply elem_of_cons. now left.
Qed.

Lemma merge_results_prototype rs : forall (results : BlockchainService.Results),
  is_Some (BlockchainService.prototype (BlockchainService.merge_results results rs))
  <-> is_Some (BlockchainService.prototype results) \/ "__proto__" ∈ map fst rs.
Proof.
  unfold BlockchainService.merge_results.
  induction rs as [|[a0 r0] rs IH]; intros results; cbn [foldl map fst snd].
  - rewrite elem_of_nil. tauto.
  - rewrite IH, assign_prototype, elem_of_cons.
    split; [intros [[? | ->] | ?]; auto | intros [? | [<- | ?]]; auto].
Qed.

(** The loop returns an object that holds, besides what it started with,
    a property for every address from index [i] on but [__proto__], each
    captured from that address's own verification; [__proto__] among them
    sets the prototype instead. *)
Lemma batchVerify_loop_isolated fuel : forall i addrs results (m : Machine W),
  (length addrs <= i + fuel)%nat ->
  exists results' m',
    BlockchainService.batchVerify_loop verify fuel i addrs results m
    = Some (Return results', m')
    /\ (forall a, is_Some (BlockchainService.own results' !! a)
                  <-> is_Some (BlockchainService.own results !! a)
                      \/ (a ∈ drop i addrs /\ a <> "__proto__"))
    /\ (forall a r, BlockchainService.own results' !! a = Some r ->
                    BlockchainService.own results !! a = Some r
                    \/ BatchSpec.captured verify a r)
    /\ (is_Some (BlockchainService.prototype results')
        <-> is_Some (BlockchainService.prototype results) \/ "__proto__" ∈ drop i addrs).
Proof.
  induction fuel as [|fuel IH]; intros i addrs results m Hfuel;
    rewrite batchVerify_loop_unfold.
  - assert (Hge : (i <? length addrs)%nat = false) by (apply Nat.ltb_ge; lia).
    rewrite Hge. exists results, m. split; [reflexivity|].
    rewrite drop_ge by lia. split; [|split].
    + intros a. rewrite elem_of_nil. tauto.
    + intros a r Hr. now left.
    + rewrite elem_of_nil. tauto.
  - destruct (i <? length addrs)%nat eqn:Hlt.
    2:{ apply Nat.ltb_ge in Hlt. exists results, m. split; [reflexivity|].
        rewrite drop_ge by lia. split; [|split].
        - intros a. rewrite elem_of_nil. tauto.
        - intros a r Hr. now left.
        - rewrite elem_of_nil. tauto. }
    destruct (promise_all_map_captures
                (take BlockchainService.BATCH_SIZE (drop i addrs)) m)
      as (rs & m1 & Hall & Hfst & Hrs).
    unfold bind at 1. rewrite Hall.
    set (results1 := BlockchainService.merge_results results rs).
    assert (Hpause : exists m2,
               (if (i + BlockchainService.BATCH_SIZE <? length addrs)%nat
                then Async.sleep 500 else ret tt) m1 = Some (Return tt, m2)).
    { destruct (i + BlockchainService.BATCH_SIZE <? length addrs)%nat; eexists; reflexivity. }
    destruct Hpause as [m2 Hpause]. unfold bind at 1. rewrite Hpause.
    destruct (IH (i + BlockchainService.BATCH_SIZE)%nat addrs results1 m2)
      as (results' & m' & Hloop & Hdom & Hentries & Hproto);
      [unfold BlockchainService.BATCH_SIZE; lia|].
    assert (Hsplit : forall a : string,
               a ∈ drop i addrs
               <-> a ∈ take BlockchainService.BATCH_SIZE (drop i addrs)
                   \/ a ∈ drop (i + BlockchainService.BATCH_SIZE) addrs).
    { intros a. rewrite <- drop_drop.
      rewrite <- (take_drop BlockchainService.BATCH_SIZE (drop i addrs)) at 1.
      apply elem_of_app. }
    exists results', m'. split; [exact Hloop|]. split; [|split].
    + intros a. rewrite Hdom. unfold results1. rewrite merge_results_is_Some, Hfst.
      rewrite (Hsplit a). tauto.
    + intros a r Hr. apply Hentries in Hr as [Hr | Hcap]; [|now right].
      apply merge_results_lookup in Hr as [Hr | Hin]; [now left|].
      right. rewrite Forall_forall in Hrs. exact (Hrs _ Hin).
    + rewrite Hproto. unfold results1. rewrite merge_results_prototype, Hfst.
      rewrite (Hsplit "__proto__"). tauto.
Qed.

End BatchFacts.

Section BatchIsolation.
Context {W : Type} `{Runtime W} `{Connection W} `{Json}.
Variable programId : PublicKey.
Variable wallet : Keypair.

(** C6, as the code has it: the batch call returns (it does not throw) an
    object with a property for exactly the input addresses other than
    [__proto__]; each is what the verification of that address returned,
    whatever the other addresses did.  An address [__proto__] gets no
    property: its result becomes the prototype of the object.  The call is
    the chunked process of the specification: chunk [j] is
    [addresses.slice(10 j, 10 j + 10)], the chunks are verified in order and
    a pause of 500 ms separates two chunks.  Over any verification that
    completes, also one that throws, each property is captured from that
    address's own verification: its result, or the message of the error it
    threw. *)
Theorem C6_batch_isolation addrs (m : Machine W) :
  (exists results m',
     BlockchainService.batchVerifyAttestations programId wallet addrs m
     = Some (Return results, m')
     /\ (forall a, is_Some (BlockchainService.own results !! a)
                   <-> a ∈ addrs /\ a <> "__proto__")
     /\ (forall a r, BlockchainService.own results !! a = Some r ->
                     exists m1 m2,
                       BlockchainService.verifyAttestation programId wallet a m1
                       = Some (Return r, m2))
     /\ (is_Some (BlockchainService.prototype results) <-> "__proto__" ∈ addrs))
  /\ BlockchainService.batchVerifyAttestations programId wallet addrs m
     = BatchSpec.batchVerify (BlockchainService.verifyAttestation programId wallet) addrs m
  /\ concat (BatchSpec.chunks BlockchainService.BATCH_SIZE addrs) = addrs
  /\ (forall j c,
        BatchSpec.chunks BlockchainService.BATCH_SIZE addrs !! j = Some c ->
        c = take 10 (drop (j * 10) addrs) /\ (j * 10 < length addrs)%nat)
  /\ (forall verify : string -> M W BlockchainService.VerificationResult,
        (forall addr m0, is_Some (verify addr m0)) ->
        exists results m',
          BlockchainService.batchVerifyAttestations_with verify addrs m
          = Some (Return results, m')
          /\ (forall a, is_Some (BlockchainService.own results !! a)
                        <-> a ∈ addrs /\ a <> "__proto__")
          /\ (forall a r, BlockchainService.own results !! a = Some r ->
                          BatchSpec.captured verify a r)).
Proof.
  assert (Hwith : forall verify : string -> M W BlockchainService.VerificationResult,
             (forall addr m0, is_Some (verify addr m0)) ->
             exists results m',
               BlockchainService.batchVerifyAttestations_with verify addrs m
               = Some (Return results, m')
               /\ (forall a, is_Some (BlockchainService.own results !! a)
                             <-> a ∈ addrs /\ a <> "__proto__")
               /\ (forall a r, BlockchainService.own results !! a = Some r ->
                               BatchSpec.captured verify a r)
               /\ (is_Some (BlockchainService.prototype results) <-> "__proto__" ∈ addrs)).
  { intros verify Hcompletes.
    unfold BlockchainService.batchVerifyAttestations_with.
    destruct (batchVerify_loop_isolated verify Hcompletes (length addrs) 0 addrs
                BlockchainService.no_results m)
      as (results & m' & Hrun & Hdom & Hentries & Hproto); [lia|].
    exists results, m'. split; [exact Hrun|]. split; [|split].
    - intros a. rewrite Hdom. cbn [BlockchainService.no_results BlockchainService.own].
      rewrite lookup_empty, drop_0.
      split; [intros [[? ?] | ?]; [discriminate | assumption] | auto].
    - intros a r Hr. apply Hentries in Hr as [Hr | Hcap]; [|exact Hcap].
      cbn [BlockchainService.no_results BlockchainService.own] in Hr.
      rewrite lookup_empty in Hr. discriminate.
    - rewrite Hproto, drop_0.
      cbn [BlockchainService.no_results BlockchainService.prototype].
      split; [intros [[? ?] | ?]; [discriminate | assumption] | auto]. }
  assert (Htotal : forall addr (m0 : Machine W),
             is_Some (BlockchainService.verifyAttestation programId wallet addr m0)).
  { intros addr m0. destruct (verifyAttestation_total programId wallet addr m0)
      as (r & m1 & ->). eauto. }
  split; [|split; [|split; [|split]]].
  - destruct (Hwith _ Htotal) as (results & m' & Hrun & Hdom & Hentries & Hproto).
    exists results, m'. split; [exact Hrun|]. split; [exact Hdom|]. split; [|exact Hproto].
    intros a r Hr. destruct (Hentries a r Hr) as (m1 & m2 & [Hret | (e & Hthrow & _)]).
    + eauto.
    + destruct (verifyAttestation_total programId wallet a m1) as (r' & m3 & Hrun').
      rewrite Hrun' in Hthrow. discriminate.
  - unfold BlockchainService.batchVerifyAttestations,
      BlockchainService.batchVerifyAttestations_with, BatchSpec.batchVerify,
      BatchSpec.chunks.
    apply (batchVerify_loop_refines _ (length addrs) 0 addrs BlockchainService.no_results m).
    lia.
  - apply chunks_fuel_concat; [unfold BlockchainService.BATCH_SIZE|]; lia.
  - intros j c Hc.
    apply (chunks_fuel_lookup BlockchainService.BATCH_SIZE) in Hc;
      [exact Hc | unfold BlockchainService.BATCH_SIZE; lia].
  - intros verify Hcompletes.
    destruct (Hwith verify Hcompletes) as (results & m' & Hrun & Hdom & Hentries & _).
    eauto.
Qed.

End BatchIsolation.

Section BatchRuns.
Import Sim.

Lemma C6_witness :
  exists results m',
    BlockchainService.batchVerifyAttestations_with verify_offline twelve
      (start ledger_world)
    = Some (Return results, m')
    /\ (forall a, is_Some (BlockchainService.own results !! a)
                  <-> a ∈ twelve /\ a <> "__proto__")
    /\ (forall a r, BlockchainService.own results !! a = Some r ->
                    BatchSpec.captured verify_offline a r).
Proof.
  apply (proj2 (proj2 (proj2 (proj2
           (@C6_batch_isolation World runtime web3 connection json program Sim.wallet
              twelve (start ledger_world)))))).
  intros addr m0. eexists. reflexivity.
Defined.

(** The scenario of the specification: a valid, a malformed and an absent
    address give three results, each of its own kind, and no pause. *)
Example batch_of_three :
  match BlockchainService.batchVerifyAttestations program Sim.wallet
          ["Alice111"; "not an address"; "Nobody11"] (start ledger_world) with
  | Some (Return results, m') =>
      (BlockchainService.isValid <$> BlockchainService.own results !! "Alice111",
       BlockchainService.error <$> BlockchainService.own results !! "not an address",
       BlockchainService.error <$> BlockchainService.own results !! "Nobody11",
       size (BlockchainService.own results), sleeps (trace m'))
      = (Some true,
         Some (Some "Invalid attestation address format"),
         Some (Some "Attestation account not found"),
         3%nat, [])
  | _ => False
  end.
Proof. vm_compute. reflexivity. Qed.

(** Twelve addresses, one of them twice: eleven entries, two chunks, one
    pause. *)
Example batch_of_twelve :
  match BlockchainService.batchVerifyAttestations program Sim.wallet twelve
          (start ledger_world) with
  | Some (Return results, m') =>
      (size (BlockchainService.own results), sleeps (trace m'),
       BatchSpec.chunks BlockchainService.BATCH_SIZE twelve)
      = (11%nat, [500],
         [["Alice111"; "not an address"; "Nobody11"; "Mallory1"; "Garbled1";
           "Alice111"; "A1"; "A2"; "A3"; "A4"];
          ["A5"; "A6"]])
  | _ => False
  end.
Proof. vm_compute. reflexivity. Qed.

(** The address [__proto__]: its result becomes the prototype of the
    object returned, which has no property for it. *)
Example batch_of_proto :
  BlockchainService.batchVerifyAttestations program Sim.wallet ["__proto__"]
    (start ledger_world)
  = Some (Return (BlockchainService.mkResults ∅
                    (Some (BlockchainService.invalid
                             "Invalid attestation address format"))),
          start ledger_world).
Proof. vm_compute. reflexivity. Qed.

(** C6 fails as stated for the input [["__proto__"]]: the object returned
    holds no result for that address. *)
Lemma C6_counterexample :
  ~ (forall results m',
       BlockchainService.batchVerifyAttestations program Sim.wallet ["__proto__"]
         (start ledger_world) = Some (Return results, m') ->
       is_Some (BlockchainService.own results !! "__proto__")).
Proof.
  intros Hclaim. specialize (Hclaim _ _ batch_of_proto).
  cbn [BlockchainService.own] in Hclaim. rewrite lookup_empty in Hclaim.
  destruct Hclaim as [r Hr]. discriminate Hr.
Qed.

End BatchRuns.

(** ** Rate limiting and hashing in the NIN service *)

Section NINFacts.
Context {L : Type} `{RateLimiter L} `{Web3} `{Hashes}.
Variable env_NIN_SALT : option string.

Lemma checkRateLimit_denied ip (m : Machine (NINService.State L)) reply l' :
  removeTokens 1 (NINService.rateLimiter (world m)) = (reply, l') ->
  denial reply ->
  NINService.checkRateLimit ip m
  = Some (Return false,
          mkMachine (NINService.mkState l' (NINService.ninCache (world m))) (trace m)).
Proof.
  intros Hreply Hdenied.
  unfold NINService.checkRateLimit, try_catch, bind, call_world. rewrite Hreply.
  destruct reply as [remaining|e]; [|reflexivity].
  simpl in Hdenied. cbn [ret].
  assert (Hneg : (remaining >=? 0) = false)
    by (rewrite Z.geb_leb; apply Z.leb_gt; lia).
  now rewrite Hneg.
Qed.

(** A limiter that resolves with a remainder that is not negative (it may
    have waited for tokens before it answered) lets the call through: the
    service itself never turns such an answer into a denial. *)
Lemma checkRateLimit_allowed ip (m : Machine (NINService.State L)) remaining l' :
  removeTokens 1 (NINService.rateLimiter (world m)) = (Return remaining, l') ->
  0 <= remaining ->
  NINService.checkRateLimit ip m
  = Some (Return true,
          mkMachine (NINService.mkState l' (NINService.ninCache (world m))) (trace m)).
Proof.
  intros Hreply Hleft.
  unfold NINService.checkRateLimit, try_catch, bind, call_world. rewrite Hreply.
  cbn [ret].
  assert (Hpos : (remaining >=? 0) = true)
    by (rewrite Z.geb_leb; apply Z.leb_le; lia).
  now rewrite Hpos.
Qed.

(** C9, as the code has it: the service awaits the limiter, and goes by
    its answer.  When the limiter reports that no token is left (a
    negative remainder) or fails, address generation and address
    verification return the rate-limit error at once: nothing is slept,
    logged, looked up or cached, and the call is not repeated.  When the
    limiter resolves with a remainder that is not negative -- at once, or
    after it has made the call wait -- the check lets the call through:
    the service sets no time limit and denies nothing of its own. *)
Theorem C9_rate_limit_fails_closed
    nin addr ip countryCode (m : Machine (NINService.State L)) reply l' :
  removeTokens 1 (NINService.rateLimiter (world m)) = (reply, l') ->
  let answered :=
    mkMachine (NINService.mkState l' (NINService.ninCache (world m))) (trace m) in
  (denial reply ->
   NINService.generateAddress env_NIN_SALT nin ip countryCode m
   = Some (Return (NINService.failure
                     (Some "Rate limit exceeded. Please try again later.") None),
           answered)
   /\ NINService.verifyAddress env_NIN_SALT nin addr ip countryCode m
      = Some (Return (NINService.verification false
                        (Some "Rate limit exceeded. Please try again later.")
                        (Some (default "NG" countryCode))),
              answered))
  /\ (forall remaining,
        reply = Return remaining -> 0 <= remaining ->
        NINService.checkRateLimit (default "default" ip) m = Some (Return true, answered)).
Proof.
  intros Hreply answered. split.
  - intros Hdenied.
    pose proof (checkRateLimit_denied (default "default" ip) m reply l' Hreply Hdenied)
      as Hcheck.
    split.
    + unfold NINService.generateAddress, try_catch. unfold bind at 1.
      rewrite Hcheck. reflexivity.
    + unfold NINService.verifyAddress, try_catch. unfold bind at 1.
      rewrite Hcheck. reflexivity.
  - intros remaining -> Hleft.
    exact (checkRateLimit_allowed (default "default" ip) m remaining l' Hreply Hleft).
Qed.

(** C10: [saltRounds] has no influence on the result of
    [NINService.hashNIN]: the hashing function it is passed to takes one
    argument, the NIN. *)
Theorem C10_saltRounds_ignored nin (r1 r2 : option Z) countryCode
    (m : Machine (NINService.State L)) :
  NINService.hashNIN env_NIN_SALT nin r1 countryCode m
  = NINService.hashNIN env_NIN_SALT nin r2 countryCode m.
Proof. reflexivity. Qed.

End NINFacts.

Section NINRuns.
Import Sim.

Lemma C9_witness :
  let m := start (NINService.mkState [Return (-1)] empty_cache) in
  let answered := mkMachine (NINService.mkState [] empty_cache) [] in
  (denial (Return (-1)) ->
   NINService.generateAddress (Some "pepper") "00100000008" None None m
   = Some (Return (NINService.failure
                     (Some "Rate limit exceeded. Please try again later.") None),
           answered)
   /\ NINService.verifyAddress (Some "pepper") "00100000008" "SomeAddress" None None m
      = Some (Return (NINService.verification false
                        (Some "Rate limit exceeded. Please try again later.")
                        (Some "NG")),
              answered))
  /\ (forall remaining,
        Return (-1) = Return remaining -> 0 <= remaining ->
        NINService.checkRateLimit "default" m = Some (Return true, answered)).
Proof.
  apply (@C9_rate_limit_fails_closed (list (Completion Z)) limiter web3 hashes
           (Some "pepper") "00100000008" "SomeAddress" None None
           (start (NINService.mkState [Return (-1)] empty_cache)) (Return (-1)) []).
  reflexivity.
Defined.

(** The limiter of the package, with the tokens of the hour used up: the
    call is not refused.  It waits for the rest of the hour and is served;
    the rate-limit error is never returned. *)
Example served_after_the_hour :
  NINService.generateAddress (Some "pepper") "00100000008" None None
    (start (NINService.mkState used_up empty_cache))
  = Some (Return generated,
          mkMachine
            (NINService.mkState (mkPatient 3600000 0 101)
               (NINService.ninCache (world generated_end)))
            [])
  /\ NINService.success generated = Some true
  /\ NINService.error generated = None
  /\ patient_clock used_up = 1000.
Proof. repeat split. Qed.

(** C9 fails as stated: at the limit the call is neither refused nor
    answered at once. *)
Lemma C9_counterexample :
  ~ (forall o m',
       NINService.generateAddress (Some "pepper") "00100000008" None None
         (start (NINService.mkState used_up empty_cache)) = Some (Return o, m') ->
       NINService.error o = Some "Rate limit exceeded. Please try again later."
       /\ patient_clock (NINService.rateLimiter (world m')) = patient_clock used_up).
Proof.
  intros Hclaim.
  destruct served_after_the_hour as (Hrun & _ & Herror & _).
  destruct (Hclaim _ _ Hrun) as [Hdenied _].
  rewrite Herror in Hdenied. discriminate Hdenied.
Qed.

(** A failing limiter denies as well. *)
Example limiter_failure_denies :
  NINService.generateAddress (Some "pepper") "00100000008" None None
    (start (NINService.mkState [Throw (Error "limiter down")] empty_cache))
  = Some (Return (NINService.failure
                    (Some "Rate limit exceeded. Please try again later.") None),
          mkMachine (NINService.mkState [] empty_cache) []).
Proof. reflexivity. Qed.

(** With a token left, a valid Nigerian NIN gets its address, and its hash
    whatever the salt rounds. *)
Example generate_with_token :
  match NINService.generateAddress (Some "pepper") "00100000008" None None
          (start (NINService.mkState [Return 99] empty_cache)) with
  | Some (Return o, _) =>
      (NINService.success o, NINService.address o)
      = (Some true, Some "00100000008pepper111111111111111")
  | _ => False
  end.
Proof. vm_compute. reflexivity. Qed.

Example hash_valid_nin :
  match NINService.hashNIN (Some "pepper") "00100000008" (Some 12) None
          (start (NINService.mkState (@nil (Completion Z)) empty_cache)),
        NINService.hashNIN (Some "pepper") "00100000008" None None
          (start (NINService.mkState (@nil (Completion Z)) empty_cache)) with
  | Some (Return o1, _), Some (Return o2, _) =>
      NINService.hash o1 = Some "00100000008pepper111111111111111"
      /\ NINService.hash o2 = NINService.hash o1
  | _, _ => False
  end.
Proof. vm_compute. split; reflexivity. Qed.

Example nin_validation :
  NINService.validateNGNIN "00100000008" = true
  /\ NINService.validateNGNIN "00100000009" = false
  /\ NINService.validateNGNIN "99900000000" = false
  /\ Text.re_US "123-45-6789" = true
  /\ Text.re_US "123456789" = true
  /\ Text.re_US "123--456789" = false
  /\ Text.re_UK "AB123456C" = true
  /\ Text.re_DEFAULT "abc1234" = false
  /\ Text.toUpperCase (Text.trim "  ab123456c ") = "AB123456C".
Proof. repeat split; vm_compute; reflexivity. Qed.

End NINRuns.

(** ** Termination of a submission *)

Section Termination.
Context {W : Type} `{ClockLaws W} `{Listeners W}.

Lemma poll_status_completes sig (m : Machine W) :
  exists r m',
    BlockchainService.poll_status sig m = Some (r, m')
    /\ world m' = snd (getSignatureStatuses sig (world m)).
Proof.
  unfold BlockchainService.poll_status, try_catch. unfold bind at 1.
  rewrite request_run.
  destruct (getSignatureStatuses sig (world m)) as [[[info|]|e] w']; cbn [fst snd].
  - destruct (status_err info); cbn [throw ret];
      [destruct (instanceof_TransactionFailedError _)|]; eexists _, _; split; reflexivity.
  - eexists _, _; split; reflexivity.
  - destruct (instanceof_TransactionFailedError e); eexists _, _; split; reflexivity.
Qed.

(** The wait ends within [confirmationTimeout / 1000] polls. *)
Lemma waitForConfirmation_loop_completes fuel :
  forall start sig lastValid commitment (m : Machine W),
    BlockchainService.confirmationTimeout
    <= Date_now (world m) - start + 1000 * Z.of_nat fuel ->
    exists r m',
      BlockchainService.waitForConfirmation_loop fuel start sig lastValid commitment m
      = Some (r, m').
Proof.
  induction fuel as [|fuel IH]; intros start sig lastValid commitment m Hfuel;
    rewrite waitForConfirmation_loop_unfold;
    destruct (Date_now (world m) - start <? BlockchainService.confirmationTimeout) eqn:Hlt;
    try (eexists _, _; reflexivity).
  - apply Z.ltb_lt in Hlt. lia.
  - destruct (poll_status_completes sig m) as (r & m1 & Hpoll & Hw1).
    unfold bind at 1. rewrite Hpoll.
    destruct r as [[|]|e]; try (eexists _, _; reflexivity).
    unfold bind at 1. rewrite check_slot_run. unfold bind at 1. rewrite sleep_eq.
    apply IH. cbn [world].
    pose proof (timer_advances 1000 (snd (getSlot commitment (world m1)))) as Ht.
    pose proof (slot_monotone commitment (world m1)) as Hs.
    pose proof (status_monotone sig (world m)) as Hp.
    rewrite <- Hw1 in Hp. lia.
Qed.

Lemma waitForConfirmation_completes fuel sig lastValid commitment (m : Machine W) :
  (30 <= fuel)%nat ->
  exists r m',
    BlockchainService.waitForConfirmation fuel sig lastValid commitment m = Some (r, m').
Proof.
  intros Hfuel. unfold BlockchainService.waitForConfirmation, bind, read_world.
  apply waitForConfirmation_loop_completes.
  unfold BlockchainService.confirmationTimeout. lia.
Qed.

Lemma send_attempt_completes wallet pollFuel transaction signers options commitment
    (m : Machine W) :
  (30 <= pollFuel)%nat ->
  exists r m',
    BlockchainService.send_attempt wallet pollFuel transaction signers options commitment m
    = Some (r, m').
Proof.
  intros Hfuel. unfold BlockchainService.send_attempt.
  unfold bind at 1. rewrite request_run.
  destruct (getLatestBlockhash commitment (world m)) as [[[bh lastValid]|e] w1];
    cbn [fst snd]; [|eexists _, _; reflexivity].
  unfold bind at 1.
  destruct (sign_and_serialize transaction bh (Keypair_publicKey wallet) (wallet :: signers))
    as [raw|e]; cbn [ret throw]; [|eexists _, _; reflexivity].
  unfold bind at 1. rewrite request_run. cbn [world trace].
  destruct (sendRawTransaction raw _ w1) as [[sig|e] w2];
    cbn [fst snd]; [|eexists _, _; reflexivity].
  unfold bind at 1. rewrite emit_run. cbn [world trace].
  destruct (run_listeners TRANSACTION_SENT [ArgStr sig] w2) as [[[]|e] w3];
    cbn [fst snd]; [|eexists _, _; reflexivity].
  assert (Hfailed : forall err (m0 : Machine W),
             exists r m',
               (emit TRANSACTION_FAILED [ArgErr err; ArgStr sig] ;;;
                @throw W BlockchainService.SendResult err) m0 = Some (r, m')).
  { intros err m0. unfold bind. rewrite emit_run.
    destruct (run_listeners TRANSACTION_FAILED [ArgErr err; ArgStr sig] (world m0))
      as [[[]|e] w4]; eexists _, _; reflexivity. }
  unfold try_catch. unfold bind at 1.
  match goal with
  | |- context [BlockchainService.waitForConfirmation pollFuel sig lastValid commitment ?m0] =>
      destruct (waitForConfirmation_completes pollFuel sig lastValid commitment m0 Hfuel)
        as ([[]|e] & m3 & ->)
  end; [|apply Hfailed].
  unfold bind at 1. rewrite emit_run.
  destruct (run_listeners TRANSACTION_CONFIRMED [ArgStr sig] (world m3)) as [[[]|e] w4];
    cbn [fst snd]; [eexists _, _; reflexivity | apply Hfailed].
Qed.

Lemma send_loop_completes wallet pollFuel transaction signers options commitment retries fuel :
  (30 <= pollFuel)%nat ->
  forall attempt (m : Machine W),
    retries - attempt + 1 <= Z.of_nat fuel ->
    exists r m',
      BlockchainService.sendTransaction_loop wallet fuel pollFuel retries attempt
        transaction signers options commitment m = Some (r, m').
Proof.
  intros Hpoll. induction fuel as [|fuel IH]; intros attempt m Hfuel.
  - rewrite send_loop_done by lia. eauto.
  - destruct (Z_le_gt_dec attempt retries) as [Hle | Hgt];
      [|rewrite send_loop_done by lia; eauto].
    rewrite send_loop_step by exact Hle.
    destruct (send_attempt_completes wallet pollFuel transaction signers options commitment
                m Hpoll) as ([res|e] & m1 & ->); [eauto|].
    destruct (fatal e); [eauto|].
    destruct (attempt <? retries) eqn:Hlt; [|eauto].
    apply IH. lia.
Qed.

(** With fuel for thirty polls per attempt, a submission always completes:
    it returns or throws. *)
Theorem sendTransactionWithRetry_completes
    wallet pollFuel transaction signers options (m : Machine W) :
  (30 <= pollFuel)%nat ->
  exists r m',
    BlockchainService.sendTransactionWithRetry wallet pollFuel transaction signers options m
    = Some (r, m').
Proof.
  intros Hpoll. unfold BlockchainService.sendTransactionWithRetry.
  apply send_loop_completes; [exact Hpoll | lia].
Qed.

End Termination.

Section TerminationRuns.
Import Sim.

(** The laws hold of the network that refuses every request. *)
Lemma outage_clock_laws : ClockLaws Outage.
Proof.
  split.
  - intros ms w. simpl. lia.
  - intros sig w. simpl. lia.
  - intros c w. simpl. lia.
Qed.

Example outage_submission_completes :
  exists r m',
    BlockchainService.sendTransactionWithRetry Sim.wallet 30 tt [] no_options
      (start (mkOutage 0))
    = Some (r, m').
Proof.
  apply (@sendTransactionWithRetry_completes Outage outage_runtime web3 outage_connection
           outage_clock_laws outage_listeners).
  lia.
Qed.

End TerminationRuns.

(** * More of the code *)

(** ** Salt, hashes and key pairs *)

Section SaltFacts.
Context `{Hashes} `{Web3}.

(** X1: an empty [NIN_SALT] counts as a missing one: every function that
    hashes or derives throws the same configuration error, whatever the
    NIN. *)
Theorem X1_missing_or_empty_salt (env : option string) (nin other : string) :
  env = None \/ env = Some EmptyString ->
  Crypto.hashNIN env nin = Throw salt_error
  /\ Crypto.verifyNINHash env nin other = Throw salt_error
  /\ Crypto.generateSeedFromNIN env nin = Throw salt_error
  /\ AddressGeneration.generateAddressFromNIN env nin = Throw salt_error
  /\ AddressGeneration.generateKeypairFromNIN env nin = Throw salt_error
  /\ AddressGeneration.verifyAddressForNIN env nin other = Throw salt_error.
Proof. intros [-> | ->]; repeat split. Qed.

(** X2: with the salt set, a hash verifies for a NIN exactly when it is the
    hash of that NIN; in particular the hash [hashNIN] returns does. *)
Theorem X2_hash_round_trip (salt nin hash : string) :
  salt <> EmptyString ->
  (Crypto.verifyNINHash (Some salt) nin hash = Return true
   <-> Crypto.hashNIN (Some salt) nin = Return hash)
  /\ exists h,
       Crypto.hashNIN (Some salt) nin = Return h
       /\ Crypto.verifyNINHash (Some salt) nin h = Return true.
Proof.
  intros Hsalt. apply String.eqb_neq in Hsalt.
  unfold Crypto.verifyNINHash, Crypto.hashNIN, Crypto.salt_missing. rewrite Hsalt.
  cbn [Crypto.salt_value]. split.
  - split; intros Heq; inversion Heq as [Hh].
    + apply String.eqb_eq in Hh. congruence.
    + now rewrite String.eqb_refl.
  - eexists. split; [reflexivity|]. now rewrite String.eqb_refl.
Qed.

(** X3: the address of a NIN is the public key of the key pair of that
    NIN, and the one fails exactly when the other does, with the same
    error. *)
Theorem X3_address_is_key_pair_address (env : option string) (nin : string) :
  AddressGeneration.generateAddressFromNIN env nin
  = match AddressGeneration.generateKeypairFromNIN env nin with
    | Return kp => Return (PublicKey_toBase58 (Keypair_publicKey kp))
    | Throw e => Throw e
    end.
Proof.
  unfold AddressGeneration.generateAddressFromNIN, AddressGeneration.generateKeypairFromNIN.
  destruct (Crypto.generateSeedFromNIN env nin); reflexivity.
Qed.

End SaltFacts.

Section SaltRuns.
Import Sim.

Lemma X1_witness :
  Crypto.hashNIN (Some EmptyString) "00100000008" = Throw salt_error
  /\ Crypto.verifyNINHash (Some EmptyString) "00100000008" "abc" = Throw salt_error
  /\ Crypto.generateSeedFromNIN (Some EmptyString) "00100000008" = Throw salt_error
  /\ AddressGeneration.generateAddressFromNIN (Some EmptyString) "00100000008"
     = Throw salt_error
  /\ AddressGeneration.generateKeypairFromNIN (Some EmptyString) "00100000008"
     = Throw salt_error
  /\ AddressGeneration.verifyAddressForNIN (Some EmptyString) "00100000008" "abc"
     = Throw salt_error.
Proof.
  apply (@X1_missing_or_empty_salt hashes web3 (Some EmptyString) "00100000008" "abc").
  now right.
Defined.

Lemma X2_witness :
  (Crypto.verifyNINHash (Some "pepper") "00100000008" "xyz" = Return true
   <-> Crypto.hashNIN (Some "pepper") "00100000008" = Return "xyz")
  /\ exists h,
       Crypto.hashNIN (Some "pepper") "00100000008" = Return h
       /\ Crypto.verifyNINHash (Some "pepper") "00100000008" h = Return true.
Proof.
  apply (@X2_hash_round_trip hashes "pepper" "00100000008" "xyz"). discriminate.
Defined.

End SaltRuns.

(** ** What [withRetry] returns *)

Section WithRetryOutcome.
Context {W : Type} `{Runtime W} {T : Type}.
Variable operation : Callback W T.
Variable maxRetries initialDelayMs : Z.

(** The operation leaves no invocation marks of its own. *)
Hypothesis quiet :
  forall m s m', operation m = Some (s, m') ->
                 invocations (trace m') = invocations (trace m).

Lemma withRetry_loop_success fuel attempt lastError (m : Machine W) v m1 :
  attempt <= maxRetries ->
  operation (invoke m) = Some (Fulfilled v, m1) ->
  Async.withRetry_loop operation maxRetries initialDelayMs (S fuel) attempt lastError m
  = Some (Return v, m1).
Proof.
  intros Hle Hop. rewrite withRetry_loop_unfold.
  assert (Hleb : (attempt <=? maxRetries) = true) by (apply Z.leb_le; lia).
  rewrite Hleb. unfold bind at 1. rewrite await_operation_run, Hop. reflexivity.
Qed.

Lemma invocations_invoke (m : Machine W) :
  invocations (trace (invoke m)) = S (invocations (trace m)).
Proof.
  unfold invoke. cbn [trace]. rewrite invocations_app.
  change (invocations [Invoked]) with 1%nat. lia.
Qed.

Lemma invocations_slept (t : list Effect) ms :
  invocations (t ++ [Slept ms]) = invocations t.
Proof.
  rewrite invocations_app. change (invocations [Slept ms]) with 0%nat. lia.
Qed.

Lemma withRetry_loop_outcome fuel :
  forall attempt lastError (m : Machine W) r m',
    1 <= attempt <= maxRetries ->
    Async.withRetry_loop operation maxRetries initialDelayMs fuel attempt lastError m
    = Some (r, m') ->
    exists m_last s,
      operation m_last = Some (s, m')
      /\ r = outcome_of s
      /\ 1 <= Z.of_nat (invocations (trace m')) - Z.of_nat (invocations (trace m))
         <= maxRetries - attempt + 1
      /\ (forall e, r = Throw e ->
            Z.of_nat (invocations (trace m')) - Z.of_nat (invocations (trace m))
            = maxRetries - attempt + 1).
Proof.
  induction fuel as [|fuel IH]; intros attempt lastError m r m' Hrange Hrun.
  - rewrite withRetry_loop_unfold in Hrun.
    assert (Hleb : (attempt <=? maxRetries) = true) by (apply Z.leb_le; lia).
    rewrite Hleb in Hrun. discriminate.
  - destruct (operation (invoke m)) as [[[v|reason] m1]|] eqn:Hop.
    + rewrite (withRetry_loop_success fuel attempt lastError m v m1) in Hrun
        by (lia || assumption).
      inversion Hrun; subst r m'. exists (invoke m), (Fulfilled v).
      split; [exact Hop|]. split; [reflexivity|].
      apply quiet in Hop. rewrite Hop, invocations_invoke.
      split; [lia | discriminate].
    + pose proof (quiet _ _ _ Hop) as Hq. rewrite invocations_invoke in Hq.
      destruct (Z_lt_ge_dec attempt maxRetries) as [Hlt | Hge].
      * rewrite (withRetry_loop_retry operation maxRetries initialDelayMs fuel attempt
                   lastError m reason m1 Hlt Hop) in Hrun.
        apply IH in Hrun as (m_last & s & Hlast & Hr & Hcount & Hthrow); [|lia].
        cbn [trace] in Hcount, Hthrow. rewrite invocations_slept in Hcount, Hthrow.
        exists m_last, s. split; [exact Hlast|]. split; [exact Hr|]. split; [lia|].
        intros e' He'. specialize (Hthrow e' He'). lia.
      * assert (attempt = maxRetries) by lia. subst attempt.
        rewrite (withRetry_loop_last operation maxRetries initialDelayMs fuel lastError
                   m reason m1) in Hrun by (lia || assumption).
        inversion Hrun; subst r m'. exists (invoke m), (Rejected reason).
        split; [exact Hop|]. split; [reflexivity|].
        split; [lia|]. intros; lia.
    + rewrite withRetry_loop_unfold in Hrun.
      assert (Hleb : (attempt <=? maxRetries) = true) by (apply Z.leb_le; lia).
      rewrite Hleb in Hrun. unfold bind at 1 in Hrun.
      rewrite await_operation_run, Hop in Hrun. discriminate.
Qed.

(** X4: what [withRetry] gives is what the last call of its operation
    gave, with two exceptions that are errors of its own making.  With
    [maxRetries] below 1 it throws "Operation failed after maximum retries"
    without calling the operation.  Otherwise it makes at least one and at
    most [maxRetries] calls and returns what the last call was fulfilled
    with, or throws what the last call was rejected with -- but when that
    is a falsy value, it throws "Operation failed after maximum retries" in
    its place; it throws only when all [maxRetries] calls were made. *)
Theorem X4_withRetry_outcome (m : Machine W) r m' :
  Async.withRetry operation maxRetries initialDelayMs m = Some (r, m') ->
  (maxRetries < 1
   /\ r = Throw (Error "Operation failed after maximum retries") /\ m' = m)
  \/ (1 <= maxRetries
      /\ exists m_last s,
           operation m_last = Some (s, m')
           /\ r = match s with
                  | Fulfilled v => Return v
                  | Rejected (AnError e) => Throw e
                  | Rejected Falsy =>
                      Throw (Error "Operation failed after maximum retries")
                  end
           /\ 1 <= Z.of_nat (invocations (trace m')) - Z.of_nat (invocations (trace m))
              <= maxRetries
           /\ (forall e, r = Throw e ->
                 Z.of_nat (invocations (trace m')) - Z.of_nat (invocations (trace m))
                 = maxRetries)).
Proof.
  intros Hrun. unfold Async.withRetry in Hrun.
  destruct (Z_lt_ge_dec maxRetries 1) as [Hlt | Hge].
  - left. split; [exact Hlt|]. rewrite withRetry_loop_unfold in Hrun.
    assert (Hleb : (1 <=? maxRetries) = false) by (apply Z.leb_gt; lia).
    rewrite Hleb in Hrun. inversion Hrun. split; reflexivity.
  - right. split; [lia|].
    apply withRetry_loop_outcome in Hrun as (m_last & s & Hlast & Hr & Hcount & Hthrow);
      [|lia].
    exists m_last, s. split; [exact Hlast|]. split.
    + rewrite Hr. destruct s as [v|[e|]]; reflexivity.
    + split; [lia|]. intros e He. specialize (Hthrow e He). lia.
Qed.

End WithRetryOutcome.

(** ** The retry helper of the verification service *)

Section VerificationRetry.
Context {W : Type} `{Runtime W} {T : Type}.
Variable maxRetries retryDelay : Z.
Variable operation : M W T.
Variable errorMessage : string.

Lemma VS_withRetry_unfold fuel retryCount :
  VerificationService.withRetry maxRetries retryDelay fuel operation errorMessage retryCount
  = try_catch
      (record Invoked ;;; operation)
      (fun error =>
         if retryCount >=? maxRetries then
           throw (Error (errorMessage +:+ " after " +:+ pretty maxRetries
                         +:+ " attempts: " +:+ message error))
         else
           Async.sleep (retryDelay * 2 ^ retryCount) ;;;
           match fuel with
           | O => diverge
           | S fuel' =>
               VerificationService.withRetry maxRetries retryDelay fuel' operation
                 errorMessage (retryCount + 1)
           end).
Proof. destruct fuel; reflexivity. Qed.

Hypothesis always_fails :
  forall m, exists e m',
    operation m = Some (Throw e, m')
    /\ invocations (trace m') = invocations (trace m)
    /\ sleeps (trace m') = sleeps (trace m).

Lemma VS_withRetry_exhausts fuel :
  forall retryCount (m : Machine W),
    Z.of_nat fuel = maxRetries - retryCount ->
    exists e m_last m',
      VerificationService.withRetry maxRetries retryDelay fuel operation errorMessage
        retryCount m
      = Some (Throw (Error (errorMessage +:+ " after " +:+ pretty maxRetries
                            +:+ " attempts: " +:+ message e)), m')
      /\ operation m_last = Some (Throw e, m')
      /\ invocations (trace m') = (invocations (trace m) + S fuel)%nat
      /\ sleeps (trace m')
         = sleeps (trace m) ++ retry_delays retryDelay (retryCount + 1) fuel.
Proof.
  induction fuel as [|fuel IH]; intros retryCount m Hfuel;
    rewrite VS_withRetry_unfold; unfold try_catch at 1; unfold bind at 1;
    rewrite record_run; fold (invoke m);
    destruct (always_fails (invoke m)) as (e & m1 & Hop & Hinv & Hsl); rewrite Hop.
  - assert (Hge : (retryCount >=? maxRetries) = true)
      by (rewrite Z.geb_leb; apply Z.leb_le; lia).
    rewrite Hge. exists e, (invoke m), m1. split; [reflexivity|]. split; [exact Hop|].
    split.
    + rewrite Hinv, invocations_invoke. lia.
    + rewrite Hsl. unfold invoke. cbn [trace retry_delays]. rewrite sleeps_app.
      reflexivity.
  - assert (Hlt : (retryCount >=? maxRetries) = false)
      by (rewrite Z.geb_leb; apply Z.leb_gt; lia).
    rewrite Hlt. unfold bind at 1. rewrite sleep_eq.
    destruct (IH (retryCount + 1)
                (mkMachine (timer_fires (retryDelay * 2 ^ retryCount) (world m1))
                   (trace m1 ++ [Slept (retryDelay * 2 ^ retryCount)])))
      as (e' & m_last & m' & Hrun & Hlast & Hcount & Hsleeps); [lia|].
    exists e', m_last, m'. split; [exact Hrun|]. split; [exact Hlast|]. split.
    + rewrite Hcount. cbn [trace]. rewrite invocations_slept, Hinv, invocations_invoke.
      lia.
    + rewrite Hsleeps. cbn [trace retry_delays]. rewrite sleeps_app, Hsl.
      unfold invoke. cbn [trace]. rewrite sleeps_app. cbn [sleeps].
      rewrite app_nil_r, <- app_assoc.
      replace (retryCount + 1 - 1) with retryCount by lia. reflexivity.
Qed.

(** X5: against an operation that always fails, the retry helper of the
    verification service calls it [maxRetries + 1] times, sleeps
    [retryDelay], [2 retryDelay], [4 retryDelay], ... between the calls, and
    throws an error whose message is the given text, then
    [after <maxRetries> attempts:], then the message of the last error: the
    number in the message is one less than the number of calls. *)
Theorem X5_verification_retry_exhausts (m : Machine W) :
  0 <= maxRetries ->
  exists e m_last m',
    VerificationService.withRetry_call maxRetries retryDelay operation errorMessage m
    = Some (Throw (Error (errorMessage +:+ " after " +:+ pretty maxRetries
                          +:+ " attempts: " +:+ message e)), m')
    /\ operation m_last = Some (Throw e, m')
    /\ Z.of_nat (invocations (trace m'))
       = Z.of_nat (invocations (trace m)) + maxRetries + 1
    /\ sleeps (trace m')
       = sleeps (trace m) ++ retry_delays retryDelay 1 (Z.to_nat maxRetries).
Proof.
  intros Hpos. unfold VerificationService.withRetry_call.
  destruct (VS_withRetry_exhausts (Z.to_nat maxRetries) 0 m)
    as (e & m_last & m' & Hrun & Hlast & Hcount & Hsleeps); [lia|].
  exists e, m_last, m'. split; [exact Hrun|]. split; [exact Hlast|].
  split; [rewrite Hcount; lia | exact Hsleeps].
Qed.

End VerificationRetry.

Section RetryOutcomeRuns.
Import Sim.

Lemma read_slot_quiet (m : Machine World) s m' :
  settled read_slot m = Some (s, m') -> invocations (trace m') = invocations (trace m).
Proof.
  unfold settled, read_slot, call_world.
  destruct (getSlot confirmed (world m)) as [[z|e] w'];
    intros Hrun; inversion Hrun; reflexivity.
Qed.

Example flaky_run :
  Async.withRetry (settled read_slot) 3 1000 (start flaky_world)
  = Some (Return 42, flaky_end).
Proof. vm_compute. reflexivity. Qed.

Lemma X4_witness :
  (3 < 1
   /\ Return 42 = Throw (Error "Operation failed after maximum retries")
   /\ flaky_end = start flaky_world)
  \/ (1 <= 3
      /\ exists m_last s,
           settled read_slot m_last = Some (s, flaky_end)
           /\ Return 42
              = match s with
                | Fulfilled v => Return v
                | Rejected (AnError e) => Throw e
                | Rejected Falsy =>
                    Throw (Error "Operation failed after maximum retries")
                end
           /\ 1 <= Z.of_nat (invocations (trace flaky_end))
                   - Z.of_nat (invocations (trace (start flaky_world)))
              <= 3
           /\ (forall e, Return 42 = Throw e ->
                 Z.of_nat (invocations (trace flaky_end))
                 - Z.of_nat (invocations (trace (start flaky_world)))
                 = 3)).
Proof.
  apply (@X4_withRetry_outcome World runtime Z (settled read_slot) 3 1000 read_slot_quiet
           (start flaky_world) (Return 42) flaky_end).
  exact flaky_run.
Defined.

Lemma X5_witness :
  exists e m_last m',
    VerificationService.withRetry_call (T := unit) 3 1000 always_reset "Failed to verify"
      (start (mkOutage 0))
    = Some (Throw (Error ("Failed to verify" +:+ " after " +:+ pretty 3
                          +:+ " attempts: " +:+ message e)), m')
    /\ always_reset (T := unit) m_last = Some (Throw e, m')
    /\ Z.of_nat (invocations (trace m'))
       = Z.of_nat (invocations (trace (start (mkOutage 0)))) + 3 + 1
    /\ sleeps (trace m')
       = sleeps (trace (start (mkOutage 0))) ++ retry_delays 1000 1 (Z.to_nat 3).
Proof.
  apply (@X5_verification_retry_exhausts Outage outage_runtime unit 3 1000 always_reset
           "Failed to verify").
  - intros m0. exists ECONNRESET, m0. repeat split; reflexivity.
  - lia.
Defined.

End RetryOutcomeRuns.

(** ** The NIN service: validation and its cache *)

Section ValidationFacts.
Context {L : Type} `{Web3}.

Lemma with_cached_idem (o : NINService.NinObject) :
  NINService.with_cached (NINService.with_cached o) = NINService.with_cached o.
Proof. reflexivity. Qed.

(** What a call of [validateNIN] on a NIN that is not empty leaves behind:
    its answer is in the cache under the call's key, and the limiter is
    untouched. *)
Lemma validateNIN_caches nin cc (m : Machine (NINService.State L)) r m1 :
  nin <> EmptyString ->
  NINService.validateNIN nin (Some cc) m = Some (Return r, m1) ->
  exists c ttl,
    NINService.ninCache (world m1) !! ("nin_validation_" +:+ cc +:+ "_" +:+ nin)
    = Some (c, ttl)
    /\ NINService.with_cached (NINService.clone c) = NINService.with_cached r
    /\ NINService.isValid c = NINService.isValid r
    /\ NINService.countryCode c = NINService.countryCode r
    /\ NINService.rateLimiter (world m1) = NINService.rateLimiter (world m)
    /\ trace m1 = trace m.
Proof.
  intros Hnin Hrun. unfold NINService.validateNIN in Hrun.
  cbv beta iota zeta delta [from_option id] in Hrun.
  apply String.eqb_neq in Hnin. rewrite Hnin in Hrun.
  unfold bind at 1 in Hrun. unfold NINService.cache_get, read_world in Hrun.
  destruct (NINService.ninCache (world m) !! ("nin_validation_" +:+ cc +:+ "_" +:+ nin))
    as [[c ttl]|] eqn:Hget; cbn [fmap option_fmap option_map fst] in Hrun.
  - inversion Hrun; subst r m1. exists c, ttl. repeat split; assumption || reflexivity.
  - destruct (NINService.lookup_pattern cc) as [p|]; [|discriminate].
    destruct (negb (NINService.pattern_test p (Text.toUpperCase (Text.trim nin))));
      [|destruct (String.eqb cc "NG"
                  && negb (NINService.validateNGNIN (Text.toUpperCase (Text.trim nin))))];
      unfold bind, NINService.cache_set, update_world, ret in Hrun;
      inversion Hrun; subst r m1; cbn [world trace NINService.ninCache
                                        NINService.rateLimiter];
      eexists _, _; rewrite lookup_insert_eq; repeat split; reflexivity.
Qed.

(** A call of [validateNIN] that finds its key in the cache. *)
Lemma validateNIN_hit nin cc (m : Machine (NINService.State L)) c ttl :
  nin <> EmptyString ->
  NINService.ninCache (world m) !! ("nin_validation_" +:+ cc +:+ "_" +:+ nin)
  = Some (c, ttl) ->
  NINService.validateNIN nin (Some cc) m
  = Some (Return (NINService.with_cached (NINService.clone c)), m).
Proof.
  intros Hnin Hget. unfold NINService.validateNIN.
  cbv beta iota zeta delta [from_option id].
  apply String.eqb_neq in Hnin. rewrite Hnin.
  unfold bind at 1. unfold NINService.cache_get, read_world. rewrite Hget.
  reflexivity.
Qed.

(** X6: [validateNIN] answers from the cache under the key
    [nin_validation_<country>_<nin>].  A call whose key is that of an
    earlier call gets the earlier answer, marked [cached], with no format
    check and no change of state, also when the two calls differ in country
    and NIN: the key does not keep the two apart. *)
Theorem X6_validation_shared_by_key
    nin1 cc1 nin2 cc2 (m : Machine (NINService.State L)) r m1 :
  nin1 <> EmptyString ->
  nin2 <> EmptyString ->
  cc1 +:+ "_" +:+ nin1 = cc2 +:+ "_" +:+ nin2 ->
  NINService.validateNIN nin1 (Some cc1) m = Some (Return r, m1) ->
  NINService.validateNIN nin2 (Some cc2) m1
  = Some (Return (NINService.with_cached r), m1).
Proof.
  intros Hnin1 Hnin2 Hkey Hrun.
  destruct (validateNIN_caches nin1 cc1 m r m1 Hnin1 Hrun)
    as (c & ttl & Hget & Hc & _).
  rewrite Hkey in Hget.
  rewrite (validateNIN_hit nin2 cc2 m1 c ttl Hnin2 Hget). now rewrite Hc.
Qed.

End ValidationFacts.

Section ValidationRuns.
Import Sim.

Lemma X6_witness :
  NINService.validateNIN (L := list (Completion Z)) "B_12345678" (Some "A")
    (mkMachine
       (NINService.mkState []
          (<["nin_validation_A_B_12345678"
             := (NINService.validation_result true None "A_B", None)]> empty_cache))
       [])
  = Some (Return (NINService.with_cached (NINService.validation_result true None "A_B")),
          mkMachine
            (NINService.mkState []
               (<["nin_validation_A_B_12345678"
                  := (NINService.validation_result true None "A_B", None)]> empty_cache))
            []).
Proof.
  apply (@X6_validation_shared_by_key (list (Completion Z)) web3
           "12345678" "A_B" "B_12345678" "A"
           (start (NINService.mkState [] empty_cache))).
  - discriminate.
  - discriminate.
  - reflexivity.
  - reflexivity.
Defined.

End ValidationRuns.

(** ** The check digit of a Nigerian NIN *)

Lemma digit_value_inj c1 c2 :
  Text.is_digit c1 = true -> Text.is_digit c2 = true ->
  Text.digit_value c1 = Text.digit_value c2 -> c1 = c2.
Proof.
  unfold Text.is_digit, Text.digit_value, Text.code_of.
  intros H1 H2 Heq.
  apply andb_prop in H1 as [H1 _]. apply andb_prop in H2 as [H2 _].
  apply Nat.leb_le in H1, H2.
  rewrite <- (Ascii.ascii_nat_embedding c1), <- (Ascii.ascii_nat_embedding c2).
  f_equal. lia.
Qed.

Lemma chars_inj s1 s2 : Text.chars s1 = Text.chars s2 -> s1 = s2.
Proof.
  unfold Text.chars. intros Heq.
  rewrite <- (String.string_of_list_ascii_of_string s1),
          <- (String.string_of_list_ascii_of_string s2).
  now rewrite Heq.
Qed.

Lemma re_NG_shape s :
  Text.re_NG s = true ->
  exists c,
    Text.chars s = take 10 (Text.chars s) ++ [c]
    /\ drop 10 (Text.chars s) = [c]
    /\ Text.is_digit c = true
    /\ length (Text.chars s) = 11%nat.
Proof.
  unfold Text.re_NG. intros Hre. apply andb_prop in Hre as [Hlen Hdigits].
  apply Nat.eqb_eq in Hlen.
  destruct (drop 10 (Text.chars s)) as [|c [|c' rest]] eqn:Hdrop.
  - apply (f_equal length) in Hdrop. rewrite length_drop, Hlen in Hdrop. discriminate.
  - exists c. split; [|split; [reflexivity|split; [|exact Hlen]]].
    + rewrite <- Hdrop. now rewrite take_drop.
    + rewrite <- (take_drop 10 (Text.chars s)), Hdrop, forallb_app in Hdigits.
      apply andb_prop in Hdigits as [_ Hc]. simpl in Hc.
      now rewrite andb_true_r in Hc.
  - apply (f_equal length) in Hdrop. rewrite length_drop, Hlen in Hdrop. discriminate.
Qed.

(** X7: a NIN that [validateNGNIN] accepts is eleven digits whose first
    three, read as a number, lie between 1 and 38, and its last digit is
    fixed by the first ten: two accepted NINs that agree on their first ten
    digits are the same. *)
Theorem X7_check_digit_determined (nin1 nin2 : string) :
  NINService.validateNGNIN nin1 = true ->
  NINService.validateNGNIN nin2 = true ->
  (length (Text.chars nin1) = 11%nat
   /\ forallb Text.is_digit (Text.chars nin1) = true
   /\ 1 <= Text.parseInt (take 3 (Text.chars nin1)) <= 38)
  /\ (take 10 (Text.chars nin1) = take 10 (Text.chars nin2) -> nin1 = nin2).
Proof.
  unfold NINService.validateNGNIN. intros H1 H2.
  destruct (Text.re_NG nin1) eqn:Hre1; [|discriminate].
  destruct (Text.re_NG nin2) eqn:Hre2; [|discriminate].
  cbn [negb] in H1, H2.
  destruct ((Text.parseInt (take 3 (Text.chars nin1)) <? 1)
            || (Text.parseInt (take 3 (Text.chars nin1)) >? 38)) eqn:Hstate1;
    [discriminate|].
  destruct ((Text.parseInt (take 3 (Text.chars nin2)) <? 1)
            || (Text.parseInt (take 3 (Text.chars nin2)) >? 38)) eqn:Hstate2;
    [discriminate|].
  apply Z.eqb_eq in H1, H2.
  split.
  - pose proof Hre1 as Hshape. unfold Text.re_NG in Hshape.
    apply andb_prop in Hshape as [Hlen Hdigits]. apply Nat.eqb_eq in Hlen.
    apply orb_false_elim in Hstate1 as [Hlow Hhigh].
    apply Z.ltb_ge in Hlow. rewrite Z.gtb_ltb in Hhigh. apply Z.ltb_ge in Hhigh.
    repeat split; assumption.
  - intros Hprefix.
    destruct (re_NG_shape nin1 Hre1) as (c1 & Hs1 & Hd1 & Hc1 & _).
    destruct (re_NG_shape nin2 Hre2) as (c2 & Hs2 & Hd2 & Hc2 & _).
    rewrite Hd1 in H1. rewrite Hd2 in H2.
    rewrite !firstn_map in H1, H2. rewrite Hprefix, H2 in H1.
    cbn [take Text.parseInt foldl] in H1.
    assert (Hc : c2 = c1) by (apply digit_value_inj; [assumption..|lia]).
    apply chars_inj. rewrite Hs1, Hs2, Hprefix, Hc. reflexivity.
Qed.

Lemma X7_witness :
  (length (Text.chars "00100000008") = 11%nat
   /\ forallb Text.is_digit (Text.chars "00100000008") = true
   /\ 1 <= Text.parseInt (take 3 (Text.chars "00100000008")) <= 38)
  /\ (take 10 (Text.chars "00100000008") = take 10 (Text.chars "00100000008")
      -> "00100000008" = "00100000008").
Proof.
  apply (X7_check_digit_determined "00100000008" "00100000008"); reflexivity.
Defined.

(** ** The NIN service: addresses *)

Lemma address_key_not_validation_key x y :
  "nin_address_" +:+ x <> "nin_validation_" +:+ y.
Proof. intros Heq. cbv in Heq. congruence. Qed.

Lemma verify_key_not_validation_key x y :
  "nin_verify_" +:+ x <> "nin_validation_" +:+ y.
Proof. intros Heq. cbv in Heq. congruence. Qed.

Section AddressServiceFacts.
Context {L : Type} `{RateLimiter L} `{Web3} `{Hashes}.
Variable env_NIN_SALT : option string.

Lemma checkRateLimit_run ip (m : Machine (NINService.State L)) :
  exists allowed,
    NINService.checkRateLimit ip m
    = Some (Return allowed,
            mkMachine
              (NINService.mkState (snd (removeTokens 1 (NINService.rateLimiter (world m))))
                 (NINService.ninCache (world m)))
              (trace m)).
Proof.
  unfold NINService.checkRateLimit, try_catch, bind, call_world.
  destruct (removeTokens 1 (NINService.rateLimiter (world m))) as [[remaining|e] l'];
    cbn [snd ret]; eauto.
Qed.

(** The path of [generateAddress] that derives an address. *)
Lemma generateAddress_fresh
    nin ip countryCode (m : Machine (NINService.State L)) o m' :
  NINService.generateAddress env_NIN_SALT nin ip countryCode m = Some (Return o, m') ->
  NINService.success o = Some true ->
  NINService.cached o = None ->
  exists seed kp cc,
    Crypto.generateSeedFromNIN env_NIN_SALT nin = Return seed
    /\ Keypair_fromSeed (take 32 seed) = Return kp
    /\ o = NINService.mkNinObject None (Some true)
             (Some (PublicKey_toBase58 (Keypair_publicKey kp)))
             (Some (NINService.TheKeypair kp)) None None cc None
    /\ NINService.ninCache (world m')
       !! ("nin_address_" +:+ default "NG" countryCode +:+ "_" +:+ nin)
       = Some (NINService.clone o, None)
    /\ exists c ttl,
         NINService.ninCache (world m')
         !! ("nin_validation_" +:+ default "NG" countryCode +:+ "_" +:+ nin)
         = Some (c, ttl)
         /\ NINService.isValid c = Some true.
Proof.
  intros Hrun Hsuccess Hfresh.
  unfold NINService.generateAddress in Hrun.
  set (cc := default "NG" countryCode) in *.
  unfold try_catch in Hrun. unfold bind at 1 in Hrun.
  destruct (checkRateLimit_run (default "default" ip) m) as [allowed Hcheck].
  rewrite Hcheck in Hrun.
  destruct allowed; cbn [negb] in Hrun;
    [|inversion Hrun; subst o; discriminate].
  unfold bind at 1 in Hrun. unfold NINService.cache_get at 1, read_world in Hrun.
  cbn [world NINService.ninCache] in Hrun.
  destruct (NINService.ninCache (world m) !! ("nin_address_" +:+ cc +:+ "_" +:+ nin))
    as [[c0 ttl0]|] eqn:Hget; cbn [fmap option_fmap option_map fst] in Hrun.
  { inversion Hrun; subst o; discriminate. }
  unfold bind at 1 in Hrun.
  match type of Hrun with
  | context [NINService.validateNIN nin (Some cc) ?m0] =>
      destruct (NINService.validateNIN nin (Some cc) m0) as [[[v|e] m1]|] eqn:Hval
  end; [|inversion Hrun; subst o; discriminate|discriminate].
  destruct (NINService.is_true (NINService.isValid v)) eqn:Hvalid; cbn [negb] in Hrun;
    [|inversion Hrun; subst o; discriminate].
  assert (Hnin : nin <> EmptyString).
  { intros ->. unfold NINService.validateNIN in Hval. cbn in Hval.
    inversion Hval; subst v. discriminate. }
  destruct (validateNIN_caches nin cc _ v m1 Hnin Hval)
    as (c & ttl & Hcached & _ & Hcvalid & _).
  destruct (Crypto.generateSeedFromNIN env_NIN_SALT nin) as [seed|e];
    [|inversion Hrun; subst o; discriminate].
  destruct (Keypair_fromSeed (take 32 seed)) as [kp|e] eqn:Hkp;
    [|inversion Hrun; subst o; discriminate].
  unfold bind, NINService.cache_set, update_world, ret in Hrun.
  inversion Hrun; subst o m'. exists seed, kp, (NINService.countryCode v).
  cbn [world NINService.ninCache].
  rewrite lookup_insert_eq.
  repeat split; try reflexivity; try assumption.
  exists c, ttl. split.
  - rewrite lookup_insert_ne; [exact Hcached | apply address_key_not_validation_key].
  - rewrite Hcvalid. unfold NINService.is_true in Hvalid.
    destruct (NINService.isValid v) as [[|]|]; [reflexivity|discriminate..].
Qed.

Lemma derivations_of_seed nin seed kp :
  Crypto.generateSeedFromNIN env_NIN_SALT nin = Return seed ->
  Keypair_fromSeed (take 32 seed) = Return kp ->
  AddressGeneration.generateKeypairFromNIN env_NIN_SALT nin = Return kp
  /\ AddressGeneration.generateAddressFromNIN env_NIN_SALT nin
     = Return (PublicKey_toBase58 (Keypair_publicKey kp)).
Proof.
  intros Hseed Hkp.
  unfold AddressGeneration.generateKeypairFromNIN,
    AddressGeneration.generateAddressFromNIN, AddressGeneration.slice_0_32.
  rewrite Hseed, Hkp. split; reflexivity.
Qed.

(** X8: an answer of [generateAddress] that reports success and is not
    marked [cached] carries the key pair of [generateKeypairFromNIN] for the
    NIN and the address of [generateAddressFromNIN].  The call leaves in
    the cache, under [nin_address_<country>_<nin>] and with the standard
    TTL, the cache's copy of the answer: the same address and flags, and in
    place of the key pair the copy of it, which is not the key pair.  Under
    the validation key of the call the cache holds an entry that says
    valid (the one this call made, or the one it found there). *)
Theorem X8_generated_address
    nin ip countryCode (m : Machine (NINService.State L)) o m' :
  NINService.generateAddress env_NIN_SALT nin ip countryCode m = Some (Return o, m') ->
  NINService.success o = Some true ->
  NINService.cached o = None ->
  exists kp,
    AddressGeneration.generateKeypairFromNIN env_NIN_SALT nin = Return kp
    /\ NINService.keypair o = Some (NINService.TheKeypair kp)
    /\ AddressGeneration.generateAddressFromNIN env_NIN_SALT nin
       = Return (PublicKey_toBase58 (Keypair_publicKey kp))
    /\ NINService.address o = Some (PublicKey_toBase58 (Keypair_publicKey kp))
    /\ (exists kept,
          NINService.ninCache (world m')
          !! ("nin_address_" +:+ default "NG" countryCode +:+ "_" +:+ nin)
          = Some (kept, None)
          /\ NINService.keypair kept = Some (NINService.CloneOf kp)
          /\ NINService.keypair kept <> NINService.keypair o
          /\ NINService.address kept = NINService.address o
          /\ NINService.success kept = Some true
          /\ NINService.countryCode kept = NINService.countryCode o
          /\ NINService.cached kept = None)
    /\ exists c ttl,
         NINService.ninCache (world m')
         !! ("nin_validation_" +:+ default "NG" countryCode +:+ "_" +:+ nin)
         = Some (c, ttl)
         /\ NINService.isValid c = Some true.
Proof.
  intros Hrun Hsuccess Hfresh.
  destruct (generateAddress_fresh nin ip countryCode m o m' Hrun Hsuccess Hfresh)
    as (seed & kp & cc & Hseed & Hkp & Ho & Hcached & Hvalidation).
  destruct (derivations_of_seed nin seed kp Hseed Hkp) as [Hpair Haddr].
  exists kp. split; [exact Hpair|].
  split; [now rewrite Ho|]. split; [exact Haddr|].
  split; [now rewrite Ho|]. split; [|exact Hvalidation].
  exists (NINService.clone o). split; [exact Hcached|].
  rewrite Ho. cbn. repeat split. discriminate.
Qed.

(** X9: an address that [generateAddress] has just derived for a NIN
    verifies for that NIN: when the limiter lets the next call through and
    the pair is not in the verification cache, [verifyAddress] answers
    [isValid: true] without an error and caches the answer for an hour. *)
Theorem X9_generated_address_verifies
    nin ip ip2 countryCode (m : Machine (NINService.State L)) o m' a remaining l' :
  NINService.generateAddress env_NIN_SALT nin ip countryCode m = Some (Return o, m') ->
  NINService.success o = Some true ->
  NINService.cached o = None ->
  NINService.address o = Some a ->
  removeTokens 1 (NINService.rateLimiter (world m')) = (Return remaining, l') ->
  0 <= remaining ->
  NINService.ninCache (world m')
  !! ("nin_verify_" +:+ default "NG" countryCode +:+ "_" +:+ nin +:+ "_" +:+ a) = None ->
  exists v m'',
    NINService.verifyAddress env_NIN_SALT nin a ip2 countryCode m' = Some (Return v, m'')
    /\ NINService.isValid v = Some true
    /\ NINService.error v = None
    /\ NINService.ninCache (world m'')
       !! ("nin_verify_" +:+ default "NG" countryCode +:+ "_" +:+ nin +:+ "_" +:+ a)
       = Some (v, Some 3600).
Proof.
  intros Hrun Hsuccess Hfresh Haddr Hreply Hleft Hmiss.
  destruct (generateAddress_fresh nin ip countryCode m o m' Hrun Hsuccess Hfresh)
    as (seed & kp & cc0 & Hseed & Hkp & Ho & _ & c & ttl & Hcached & Hcvalid).
  destruct (derivations_of_seed nin seed kp Hseed Hkp) as [_ Hgen].
  rewrite Ho in Haddr. injection Haddr as <-.
  assert (Hnin : nin <> EmptyString).
  { intros ->. unfold NINService.generateAddress in Hrun.
    unfold try_catch in Hrun. unfold bind at 1 in Hrun.
    destruct (checkRateLimit_run (default "default" ip) m) as [allowed Hcheck].
    rewrite Hcheck in Hrun.
    destruct allowed; cbn [negb] in Hrun; [|inversion Hrun; subst o; discriminate].
    unfold bind at 1 in Hrun. unfold NINService.cache_get at 1, read_world in Hrun.
    cbn [world NINService.ninCache] in Hrun.
    destruct (NINService.ninCache (world m) !! _) as [[c0 ttl0]|];
      cbn [fmap option_fmap option_map fst] in Hrun;
      inversion Hrun; subst o; discriminate. }
  unfold NINService.verifyAddress.
  set (cc := default "NG" countryCode) in *.
  unfold try_catch. unfold bind at 1.
  rewrite (checkRateLimit_allowed (default "default" ip2) m' remaining l' Hreply Hleft).
  cbn [negb]. unfold bind at 1. unfold NINService.cache_get at 1, read_world.
  cbn [world NINService.ninCache]. rewrite Hmiss.
  cbn [fmap option_fmap option_map]. unfold bind at 1.
  rewrite (validateNIN_hit nin cc
             (mkMachine (NINService.mkState l' (NINService.ninCache (world m')))
                (trace m'))
             c ttl Hnin Hcached).
  cbn [NINService.with_cached NINService.clone NINService.isValid]. rewrite Hcvalid.
  cbn [NINService.is_true default from_option id negb].
  rewrite (verifyAddressForNIN_spec _ _ _ _ Hgen), String.eqb_refl.
  unfold bind, NINService.cache_set, update_world, ret.
  eexists _, _. split; [reflexivity|].
  cbn [world NINService.ninCache NINService.verification NINService.isValid
       NINService.error].
  rewrite lookup_insert_eq. repeat split; reflexivity.
Qed.

End AddressServiceFacts.

Section AddressServiceRuns.
Import Sim.

Example generate_run :
  NINService.generateAddress (Some "pepper") "00100000008" None None
    (start (NINService.mkState [] empty_cache))
  = Some (Return generated, generated_end).
Proof. reflexivity. Qed.

Lemma X8_witness :
  exists kp,
    AddressGeneration.generateKeypairFromNIN (Some "pepper") "00100000008" = Return kp
    /\ NINService.keypair generated = Some (NINService.TheKeypair kp)
    /\ AddressGeneration.generateAddressFromNIN (Some "pepper") "00100000008"
       = Return (PublicKey_toBase58 (Keypair_publicKey kp))
    /\ NINService.address generated = Some (PublicKey_toBase58 (Keypair_publicKey kp))
    /\ (exists kept,
          NINService.ninCache (world generated_end)
          !! ("nin_address_" +:+ default "NG" None +:+ "_" +:+ "00100000008")
          = Some (kept, None)
          /\ NINService.keypair kept = Some (NINService.CloneOf kp)
          /\ NINService.keypair kept <> NINService.keypair generated
          /\ NINService.address kept = NINService.address generated
          /\ NINService.success kept = Some true
          /\ NINService.countryCode kept = NINService.countryCode generated
          /\ NINService.cached kept = None)
    /\ exists c ttl,
         NINService.ninCache (world generated_end)
         !! ("nin_validation_" +:+ default "NG" None +:+ "_" +:+ "00100000008")
         = Some (c, ttl)
         /\ NINService.isValid c = Some true.
Proof.
  apply (@X8_generated_address (list (Completion Z)) limiter web3 hashes (Some "pepper")
           "00100000008" None None (start (NINService.mkState [] empty_cache))
           generated generated_end).
  - exact generate_run.
  - reflexivity.
  - reflexivity.
Defined.

Lemma X9_witness :
  exists v m'',
    NINService.verifyAddress (Some "pepper") "00100000008"
      "00100000008pepper111111111111111" None None generated_end
    = Some (Return v, m'')
    /\ NINService.isValid v = Some true
    /\ NINService.error v = None
    /\ NINService.ninCache (world m'')
       !! ("nin_verify_" +:+ default "NG" None +:+ "_" +:+ "00100000008" +:+ "_"
           +:+ "00100000008pepper111111111111111")
       = Some (v, Some 3600).
Proof.
  apply (@X9_generated_address_verifies (list (Completion Z)) limiter web3 hashes
           (Some "pepper") "00100000008" None None None
           (start (NINService.mkState [] empty_cache)) generated generated_end
           "00100000008pepper111111111111111" 99 []).
  - exact generate_run.
  - reflexivity.
  - reflexivity.
  - reflexivity.
  - reflexivity.
  - lia.
  - reflexivity.
Defined.

End AddressServiceRuns.

(** ** The NIN service: errors *)

Section ServiceErrors.
Context {L : Type} `{RateLimiter L} `{Web3} `{Hashes}.
Variable env_NIN_SALT : option string.

Lemma validateNIN_run nin cc (m : Machine (NINService.State L)) :
  exists r m', NINService.validateNIN nin cc m = Some (r, m').
Proof.
  unfold NINService.validateNIN.
  destruct (String.eqb nin EmptyString); [unfold ret; eauto|].
  unfold bind at 1. unfold NINService.cache_get, read_world.
  destruct (_ <$> NINService.ninCache (world m) !! _); [unfold ret; eauto|].
  destruct (NINService.lookup_pattern (default "NG" cc)) as [p|];
    [|unfold throw; eauto].
  destruct (negb (NINService.pattern_test p _));
    [|destruct (String.eqb (default "NG" cc) "NG" && negb (NINService.validateNGNIN _))];
    unfold bind, NINService.cache_set, update_world, ret; eauto.
Qed.

Ltac returns := unfold bind, NINService.cache_set, update_world, ret, throw; eauto.

(** X10: the calls of the service that promise an answer object keep the
    promise: whatever the NIN, the address, the country code, the limiter
    and the cache, [generateAddress], [verifyAddress], [hashNIN] and
    [invalidateCache] return and do not throw. *)
Theorem X10_service_never_throws
    nin addr ip countryCode saltRounds (m : Machine (NINService.State L)) :
  (exists o m',
     NINService.generateAddress env_NIN_SALT nin ip countryCode m = Some (Return o, m'))
  /\ (exists o m',
        NINService.verifyAddress env_NIN_SALT nin addr ip countryCode m
        = Some (Return o, m'))
  /\ (exists o m',
        NINService.hashNIN env_NIN_SALT nin saltRounds countryCode m
        = Some (Return o, m'))
  /\ (exists b m',
        NINService.invalidateCache (L := L) nin countryCode m = Some (Return b, m')).
Proof.
  split; [|split; [|split]].
  - unfold NINService.generateAddress, try_catch. unfold bind at 1.
    destruct (checkRateLimit_run (default "default" ip) m) as [allowed ->].
    destruct allowed; cbn [negb]; [|returns].
    unfold bind at 1. unfold NINService.cache_get at 1, read_world.
    destruct (_ <$> _ !! _); [returns|].
    unfold bind at 1.
    match goal with
    | |- context [NINService.validateNIN nin ?c ?m0] =>
        destruct (validateNIN_run nin c m0) as ([v|e] & m1 & ->)
    end; [|returns].
    destruct (negb (NINService.is_true (NINService.isValid v))); [returns|].
    destruct (Crypto.generateSeedFromNIN env_NIN_SALT nin) as [seed|e]; [|returns].
    destruct (Keypair_fromSeed (take 32 seed)) as [kp|e]; returns.
  - unfold NINService.verifyAddress, try_catch. unfold bind at 1.
    destruct (checkRateLimit_run (default "default" ip) m) as [allowed ->].
    destruct allowed; cbn [negb]; [|returns].
    unfold bind at 1. unfold NINService.cache_get at 1, read_world.
    destruct (_ <$> _ !! _); [returns|].
    unfold bind at 1.
    match goal with
    | |- context [NINService.validateNIN nin ?c ?m0] =>
        destruct (validateNIN_run nin c m0) as ([v|e] & m1 & ->)
    end; [|returns].
    destruct (negb (NINService.is_true (NINService.isValid v))); [returns|].
    destruct (AddressGeneration.verifyAddressForNIN env_NIN_SALT nin addr) as [ok|e];
      returns.
  - unfold NINService.hashNIN, try_catch. unfold bind at 1.
    match goal with
    | |- context [NINService.validateNIN nin ?c ?m0] =>
        destruct (validateNIN_run nin c m0) as ([v|e] & m1 & ->)
    end; [|returns].
    destruct (negb (NINService.is_true (NINService.isValid v))); [returns|].
    unfold bind at 1. unfold NINService.cache_get at 1, read_world.
    destruct (_ <$> _ !! _); [returns|].
    unfold NINService.call_arity1.
    destruct (Crypto.hashNIN env_NIN_SALT nin) as [h|e]; returns.
  - unfold NINService.invalidateCache, try_catch. unfold bind at 1. unfold read_world.
    destruct (foldl NINService.invalidate_pattern _ _) as [cache' deletedCount].
    returns.
Qed.

(** X11: a country code that names a property every JavaScript object
    inherits ([constructor], [toString], [__proto__], ...) is looked up in
    the table of patterns and found, as something that is no pattern:
    [validateNIN] then throws instead of answering (unless the NIN is empty
    or the key is cached), and [hashNIN] reports the failure with the text
    of that error. *)
Theorem X11_inherited_country_code
    nin countryCode saltRounds (m : Machine (NINService.State L)) :
  In countryCode NINService.Object_prototype_keys ->
  nin <> EmptyString ->
  NINService.ninCache (world m) !! ("nin_validation_" +:+ countryCode +:+ "_" +:+ nin)
  = None ->
  NINService.validateNIN nin (Some countryCode) m
  = Some (Throw (Error "pattern.test is not a function"), m)
  /\ NINService.hashNIN env_NIN_SALT nin saltRounds (Some countryCode) m
     = Some (Return (NINService.failure (Some "pattern.test is not a function")
                       (Some countryCode)), m).
Proof.
  intros Hkey Hnin Hmiss.
  assert (Hval : NINService.validateNIN nin (Some countryCode) m
                 = Some (Throw (Error "pattern.test is not a function"), m)).
  { unfold NINService.validateNIN.
    cbv beta iota zeta delta [from_option id].
    apply String.eqb_neq in Hnin. rewrite Hnin.
    unfold bind at 1. unfold NINService.cache_get, read_world. rewrite Hmiss.
    cbn [fmap option_fmap option_map].
    assert (Hlookup : NINService.lookup_pattern countryCode = None).
    { cbn in Hkey.
      repeat (destruct Hkey as [<- | Hkey]; [reflexivity|]). contradiction. }
    rewrite Hlookup. reflexivity. }
  split; [exact Hval|].
  unfold NINService.hashNIN, try_catch. unfold bind at 1.
  cbv beta iota zeta delta [from_option id]. rewrite Hval. reflexivity.
Qed.

End ServiceErrors.

Section ServiceErrorRuns.
Import Sim.

Lemma X11_witness :
  NINService.validateNIN "12345678" (Some "constructor")
    (start (NINService.mkState (@nil (Completion Z)) empty_cache))
  = Some (Throw (Error "pattern.test is not a function"),
          start (NINService.mkState [] empty_cache))
  /\ NINService.hashNIN (Some "pepper") "12345678" None (Some "constructor")
       (start (NINService.mkState (@nil (Completion Z)) empty_cache))
     = Some (Return (NINService.failure (Some "pattern.test is not a function")
                       (Some "constructor")),
             start (NINService.mkState [] empty_cache)).
Proof.
  apply (@X11_inherited_country_code (list (Completion Z)) web3 hashes (Some "pepper")
           "12345678" "constructor" None
           (start (NINService.mkState [] empty_cache))).
  - cbn. tauto.
  - discriminate.
  - reflexivity.
Defined.

End ServiceErrorRuns.

(** ** The NIN service: batches *)

Section NinBatchFacts.
Context {L : Type} `{RateLimiter L} `{Web3} `{Hashes}.
Variable env_NIN_SALT : option string.

Lemma validateNIN_limiter nin cc (m : Machine (NINService.State L)) r m' :
  NINService.validateNIN nin cc m = Some (r, m') ->
  NINService.rateLimiter (world m') = NINService.rateLimiter (world m).
Proof.
  unfold NINService.validateNIN.
  destruct (String.eqb nin EmptyString);
    [unfold ret; intros Hrun; inversion Hrun; reflexivity|].
  unfold bind at 1. unfold NINService.cache_get, read_world.
  destruct (_ <$> NINService.ninCache (world m) !! _);
    [unfold ret; intros Hrun; inversion Hrun; reflexivity|].
  destruct (NINService.lookup_pattern (default "NG" cc)) as [p|];
    [|unfold throw; intros Hrun; inversion Hrun; reflexivity].
  destruct (negb (NINService.pattern_test p _));
    [|destruct (String.eqb (default "NG" cc) "NG" && negb (NINService.validateNGNIN _))];
    unfold bind, NINService.cache_set, update_world, ret;
    intros Hrun; inversion Hrun; reflexivity.
Qed.

Ltac settle :=
  unfold bind, NINService.cache_set, update_world, ret, throw;
  eexists _, _; split; reflexivity.

(** A verification takes one token, whatever its answer. *)
Lemma verifyAddress_takes_one nin addr ip cc (m : Machine (NINService.State L)) :
  exists o m',
    NINService.verifyAddress env_NIN_SALT nin addr ip cc m = Some (Return o, m')
    /\ NINService.rateLimiter (world m')
       = snd (removeTokens 1 (NINService.rateLimiter (world m))).
Proof.
  unfold NINService.verifyAddress, try_catch. unfold bind at 1.
  destruct (checkRateLimit_run (default "default" ip) m) as [allowed ->].
  destruct allowed; cbn [negb]; [|settle].
  unfold bind at 1. unfold NINService.cache_get at 1, read_world.
  destruct (_ <$> _ !! _); [settle|].
  unfold bind at 1.
  match goal with
  | |- context [NINService.validateNIN nin ?c ?m0] =>
      destruct (validateNIN_run nin c m0) as (r & m1 & Hval);
      pose proof (validateNIN_limiter nin c m0 r m1 Hval) as Hlim;
      rewrite Hval
  end.
  cbn [world NINService.rateLimiter] in Hlim.
  destruct r as [v|e];
    [|eexists _, _; split; [reflexivity | exact Hlim]].
  destruct (negb (NINService.is_true (NINService.isValid v)));
    [eexists _, _; split; [reflexivity | exact Hlim]|].
  destruct (AddressGeneration.verifyAddressForNIN env_NIN_SALT nin addr) as [ok|e];
    unfold bind, NINService.cache_set, update_world, ret, throw;
    eexists _, _; (split; [reflexivity | exact Hlim]).
Qed.

Lemma batch_map_echoes ip cc : forall verifications (m : Machine (NINService.State L)),
  exists results m',
    BlockchainService.promise_all_map
      (fun na : string * string =>
         result <- NINService.verifyAddress env_NIN_SALT (fst na) (snd na) (Some ip)
                     (Some cc) ;;
         ret (NINService.echo_pair result (fst na) (snd na)))
      verifications m
    = Some (Return results, m')
    /\ map NINService.pair_nin results = map fst verifications
    /\ map (fun p => NINService.address (NINService.pair_result p)) results
       = map (fun na => Some (snd na)) verifications
    /\ NINService.rateLimiter (world m')
       = Nat.iter (length verifications) (fun l => snd (removeTokens 1 l))
           (NINService.rateLimiter (world m)).
Proof.
  induction verifications as [|[nin addr] rest IH]; intros m.
  - exists [], m. repeat split.
  - destruct (verifyAddress_takes_one nin addr (Some ip) (Some cc) m)
      as (o & m1 & Hone & Hlim).
    destruct (IH m1) as (results & m' & Hall & Hnins & Haddrs & Hlims).
    exists (NINService.echo_pair o nin addr :: results), m'.
    split; [|split; [|split]].
    + cbn [BlockchainService.promise_all_map fst snd]. unfold bind at 1.
      unfold bind at 1. rewrite Hone. unfold ret at 1. unfold bind at 1.
      rewrite Hall. reflexivity.
    + cbn [map NINService.echo_pair NINService.pair_nin fst]. now rewrite Hnins.
    + cbn [map NINService.echo_pair NINService.pair_result NINService.address snd].
      now rewrite Haddrs.
    + rewrite Hlims, Hlim. cbn [length]. now rewrite Nat.iter_succ_r.
Qed.

(** X12: [batchVerify] takes one token for the batch, whatever its size.
    If that is denied it throws its own rate-limit error and verifies
    nothing.  Otherwise it does not throw: it returns one answer per pair,
    in the order of the input, each with the NIN and the address of its
    pair, and every pair has taken one more token. *)
Theorem X12_batch_verify
    verifications ip countryCode (m : Machine (NINService.State L)) :
  let take_token := fun l => snd (removeTokens 1 l) in
  let limiter := NINService.rateLimiter (world m) in
  exists r m',
    NINService.batchVerify env_NIN_SALT verifications ip countryCode m = Some (r, m')
    /\ match r with
       | Throw e =>
           e = Error "Rate limit exceeded. Please reduce batch size or try again later."
           /\ denial (fst (removeTokens 1 limiter))
           /\ m' = mkMachine
                     (NINService.mkState (take_token limiter)
                        (NINService.ninCache (world m)))
                     (trace m)
       | Return results =>
           ~ denial (fst (removeTokens 1 limiter))
           /\ map NINService.pair_nin results = map fst verifications
           /\ map (fun p => NINService.address (NINService.pair_result p)) results
              = map (fun na => Some (snd na)) verifications
           /\ NINService.rateLimiter (world m')
              = Nat.iter (S (length verifications)) take_token limiter
       end.
Proof.
  intros take_token limiter.
  unfold NINService.batchVerify, NINService.call_arity1. unfold bind at 1.
  destruct (removeTokens 1 limiter) as [reply l'] eqn:Hreply.
  destruct reply as [remaining|e]; [destruct (Z_lt_ge_dec remaining 0) as [Hneg|Hpos]|].
  - rewrite (checkRateLimit_denied (default "default" ip) m (Return remaining) l'
               Hreply Hneg).
    cbn [negb]. eexists _, _. split; [reflexivity|].
    subst take_token. cbn beta. fold limiter. rewrite Hreply.
    repeat split. exact Hneg.
  - rewrite (checkRateLimit_allowed (default "default" ip) m remaining l' Hreply)
      by lia.
    cbn [negb].
    destruct (batch_map_echoes (default "default" ip) (default "NG" countryCode)
                verifications
                (mkMachine (NINService.mkState l' (NINService.ninCache (world m)))
                   (trace m)))
      as (results & m' & Hall & Hnins & Haddrs & Hlims).
    exists (Return results), m'. split; [exact Hall|].
    split; [cbn; lia|]. split; [exact Hnins|]. split; [exact Haddrs|].
    rewrite Hlims. cbn [world NINService.rateLimiter].
    rewrite Nat.iter_succ_r. subst take_token. cbn beta. fold limiter.
    now rewrite Hreply.
  - rewrite (checkRateLimit_denied (default "default" ip) m (Throw e) l' Hreply I).
    cbn [negb]. eexists _, _. split; [reflexivity|].
    subst take_token. cbn beta. fold limiter. rewrite Hreply.
    repeat split.
Qed.

End NinBatchFacts.

(** ** The NIN service: invalidation *)

Lemma chars_app s t : Text.chars (s +:+ t) = Text.chars s ++ Text.chars t.
Proof.
  unfold Text.chars. induction s as [|c s IH]; [reflexivity|].
  cbn. now rewrite <- IH.
Qed.

Lemma prefix_app s t : String.prefix s (s +:+ t) = true.
Proof.
  induction s as [|c s IH].
  - now destruct t.
  - change (String c s +:+ t) with (String c (s +:+ t)). cbn [String.prefix].
    destruct (Ascii.ascii_dec c c); [exact IH | contradiction].
Qed.

Lemma append_assoc s t u : (s +:+ t) +:+ u = s +:+ (t +:+ u).
Proof.
  induction s as [|c s IH]; [reflexivity|].
  change ((String c s +:+ t) +:+ u) with (String c ((s +:+ t) +:+ u)).
  now rewrite IH.
Qed.

Lemma ends_with_star_snoc s : NINService.ends_with_star (s +:+ "*") = true.
Proof.
  unfold NINService.ends_with_star. rewrite chars_app.
  change (Text.chars "*") with ["*"%char]. now rewrite last_snoc.
Qed.

Lemma drop_last_char_snoc s : NINService.drop_last_char (s +:+ "*") = s.
Proof.
  unfold NINService.drop_last_char. rewrite chars_app.
  change (Text.chars "*") with ["*"%char]. rewrite removelast_last.
  apply String.string_of_list_ascii_of_string.
Qed.

Lemma pattern_matches_self p : NINService.pattern_matches p p = true.
Proof.
  unfold NINService.pattern_matches.
  destruct (NINService.ends_with_star p) eqn:Hstar; [|apply String.eqb_refl].
  unfold NINService.ends_with_star in Hstar.
  destruct (last (Text.chars p)) as [c|] eqn:Hlast; [|discriminate].
  apply last_Some in Hlast as [l' Hp].
  assert (Heq : p = NINService.drop_last_char p +:+ String c EmptyString).
  { apply chars_inj. rewrite chars_app. unfold NINService.drop_last_char.
    rewrite Hp, removelast_last. unfold Text.chars at 2.
    now rewrite String.list_ascii_of_string_of_list_ascii. }
  rewrite Heq at 2. apply prefix_app.
Qed.

Section InvalidationFacts.
Context {L : Type} `{Web3}.

Lemma delete_keys : forall (keys : list string) (c : gmap string (NINService.NinObject * option Z)) (n : Z),
  NoDup keys ->
  (forall k, k ∈ keys -> is_Some (c !! k)) ->
  (forall k, fst (foldl NINService.delete_step (c, n) keys) !! k
             = if decide (k ∈ keys) then None else c !! k)
  /\ snd (foldl NINService.delete_step (c, n) keys) = n + Z.of_nat (length keys).
Proof.
  induction keys as [|key keys IH]; intros c n Hnodup Hin.
  - split; [|cbn; lia]. intros k. cbn. destruct (decide (k ∈ [])) as [Hk|]; [|reflexivity].
    now apply elem_of_nil in Hk.
  - apply NoDup_cons in Hnodup as [Hfresh Hnodup].
    assert (Hstep : NINService.delete_step (c, n) key = (delete key c, n + 1)).
    { unfold NINService.delete_step, NINService.cache_del. cbn [fst snd].
      destruct (Hin key) as [v Hv]; [now left|]. now rewrite Hv. }
    cbn [foldl]. rewrite Hstep.
    destruct (IH (delete key c) (n + 1) Hnodup) as [Hlookup Hcount].
    { intros k Hk. rewrite lookup_delete_ne by (intros ->; contradiction).
      apply Hin. now right. }
    split; [|rewrite Hcount; cbn [length]; lia].
    intros k. rewrite Hlookup.
    destruct (decide (k ∈ keys)) as [Hk|Hk].
    + rewrite decide_True by now right. reflexivity.
    + destruct (decide (k = key)) as [->|Hne].
      * rewrite decide_True by now left. apply lookup_delete_eq.
      * rewrite decide_False by (rewrite elem_of_cons; tauto).
        now apply lookup_delete_ne.
Qed.

Lemma invalidate_pattern_spec (c : gmap string (NINService.NinObject * option Z)) (n : Z) (p : string) :
  (forall k, fst (NINService.invalidate_pattern (c, n) p) !! k
             = if NINService.pattern_matches p k then None else c !! k)
  /\ n <= snd (NINService.invalidate_pattern (c, n) p)
  /\ (n < snd (NINService.invalidate_pattern (c, n) p)
      <-> exists k, is_Some (c !! k) /\ NINService.pattern_matches p k = true).
Proof.
  unfold NINService.invalidate_pattern. cbn [fst].
  set (keys := filter (fun key => NINService.pattern_matches p key = true)
                 (NINService.cache_keys c)).
  assert (Hkeys : forall k, k ∈ keys
                            <-> NINService.pattern_matches p k = true /\ is_Some (c !! k)).
  { intros k. subst keys. rewrite list_elem_of_filter. unfold NINService.cache_keys.
    rewrite list_elem_of_fmap. split.
    - intros [Hm ([k' v] & -> & Hv)]. apply elem_of_map_to_list in Hv. cbn. eauto.
    - intros [Hm [v Hv]]. split; [exact Hm|]. exists (k, v). split; [reflexivity|].
      now apply elem_of_map_to_list. }
  destruct (delete_keys keys c n) as [Hlookup Hcount].
  { subst keys. apply NoDup_filter. unfold NINService.cache_keys.
    apply NoDup_fst_map_to_list. }
  { intros k Hk. now apply Hkeys in Hk. }
  clearbody keys. split; [|split].
  - intros k. rewrite Hlookup.
    destruct (decide (k ∈ keys)) as [Hk|Hk].
    + apply Hkeys in Hk as [-> _]. reflexivity.
    + destruct (NINService.pattern_matches p k) eqn:Hm; [|reflexivity].
      destruct (c !! k) as [v|] eqn:Hv; [|reflexivity].
      exfalso. apply Hk, Hkeys. eauto.
  - rewrite Hcount. lia.
  - rewrite Hcount. split.
    + intros Hpos. destruct keys as [|k keys']; [cbn in Hpos; lia|].
      exists k. assert (Hin : k ∈ k :: keys') by now left.
      apply Hkeys in Hin. tauto.
    + intros (k & Hsome & Hm).
      assert (Hin : k ∈ keys) by (apply Hkeys; tauto).
      destruct keys; [now apply elem_of_nil in Hin | cbn [length]; lia].
Qed.

Lemma invalidate_patterns_spec : forall (ps : list string) (c : gmap string (NINService.NinObject * option Z)) (n : Z),
  (forall k, fst (foldl NINService.invalidate_pattern (c, n) ps) !! k
             = if existsb (fun p => NINService.pattern_matches p k) ps
               then None else c !! k)
  /\ n <= snd (foldl NINService.invalidate_pattern (c, n) ps)
  /\ (n < snd (foldl NINService.invalidate_pattern (c, n) ps)
      <-> exists k p, is_Some (c !! k) /\ In p ps
                      /\ NINService.pattern_matches p k = true).
Proof.
  induction ps as [|p ps IH]; intros c n.
  - cbn. split; [reflexivity|]. split; [lia|]. split; [lia|].
    intros (k & p & _ & [] & _).
  - cbn [foldl].
    destruct (invalidate_pattern_spec c n p) as (Hlookup1 & Hle1 & Hpos1).
    destruct (NINService.invalidate_pattern (c, n) p) as [c1 n1].
    cbn [fst snd] in Hlookup1, Hle1, Hpos1.
    destruct (IH c1 n1) as (Hlookup & Hle & Hpos).
    split; [|split].
    + intros k. rewrite Hlookup, Hlookup1. cbn [existsb].
      destruct (NINService.pattern_matches p k);
        destruct (existsb _ ps); reflexivity.
    + lia.
    + split.
      * intros Hlt. destruct (Z_lt_ge_dec n n1) as [Hfirst|Hnone].
        -- apply Hpos1 in Hfirst as (k & Hsome & Hm). exists k, p.
           split; [exact Hsome|]. split; [now left | exact Hm].
        -- assert (Hrest : n1 < snd (foldl NINService.invalidate_pattern (c1, n1) ps))
             by lia.
           apply Hpos in Hrest as (k & p' & Hsome & Hin & Hm).
           exists k, p'. split; [|split; [now right | exact Hm]].
           rewrite Hlookup1 in Hsome.
           destruct (NINService.pattern_matches p k); [|exact Hsome].
           now destruct Hsome.
      * intros (k & p' & Hsome & Hin & Hm).
        destruct (NINService.pattern_matches p k) eqn:Hmp.
        -- assert (n < n1) by (apply Hpos1; eauto). lia.
        -- destruct Hin as [-> | Hin]; [congruence|].
           assert (n1 < snd (foldl NINService.invalidate_pattern (c1, n1) ps)).
           { apply Hpos. exists k, p'. rewrite Hlookup1, Hmp. tauto. }
           lia.
Qed.

(** X13: [invalidateCache] deletes exactly the keys that one of its four
    patterns matches and keeps every other entry as it was; a pattern that
    ends in a star matches by prefix (the verification pattern always, the
    others when the NIN itself ends in a star), any other pattern matches
    its own text only.  So the validation, address and hash entries of the
    NIN and every verification entry of the NIN are gone afterwards.  The
    answer is [true] exactly when some entry was deleted; the limiter is
    not consulted. *)
Theorem X13_invalidate_cache nin countryCode (m : Machine (NINService.State L)) :
  let cc := default "NG" countryCode in
  let patterns := NINService.invalidation_patterns nin cc in
  let cache := NINService.ninCache (world m) in
  exists b m',
    NINService.invalidateCache nin countryCode m = Some (Return b, m')
    /\ (forall key,
          NINService.ninCache (world m') !! key
          = if existsb (fun p => NINService.pattern_matches p key) patterns
            then None else cache !! key)
    /\ NINService.ninCache (world m') !! ("nin_validation_" +:+ cc +:+ "_" +:+ nin) = None
    /\ NINService.ninCache (world m') !! ("nin_address_" +:+ cc +:+ "_" +:+ nin) = None
    /\ NINService.ninCache (world m') !! ("nin_hash_" +:+ cc +:+ "_" +:+ nin) = None
    /\ (forall addr,
          NINService.ninCache (world m')
          !! ("nin_verify_" +:+ cc +:+ "_" +:+ nin +:+ "_" +:+ addr) = None)
    /\ (b = true
        <-> exists key p, is_Some (cache !! key) /\ In p patterns
                          /\ NINService.pattern_matches p key = true)
    /\ NINService.rateLimiter (world m') = NINService.rateLimiter (world m)
    /\ trace m' = trace m.
Proof.
  intros cc patterns cache.
  unfold NINService.invalidateCache, try_catch. unfold bind at 1. unfold read_world.
  fold cc. fold patterns. fold cache.
  destruct (invalidate_patterns_spec patterns cache 0) as (Hlookup & _ & Hpos).
  destruct (foldl NINService.invalidate_pattern (cache, 0) patterns)
    as [cache' deletedCount].
  cbn [fst snd] in Hlookup, Hpos.
  unfold bind, update_world, ret. eexists _, _. split; [reflexivity|].
  cbn [world trace NINService.ninCache NINService.rateLimiter].
  assert (Hgone : forall key p, In p patterns ->
                    NINService.pattern_matches p key = true -> cache' !! key = None).
  { intros key p Hin Hm. rewrite Hlookup.
    assert (Hex : existsb (fun p => NINService.pattern_matches p key) patterns = true)
      by (apply existsb_exists; eauto).
    now rewrite Hex. }
  split; [exact Hlookup|].
  split; [|split; [|split; [|split; [|split; [|split; reflexivity]]]]].
  - apply (Hgone _ ("nin_validation_" +:+ cc +:+ "_" +:+ nin));
      [cbn; tauto | apply pattern_matches_self].
  - apply (Hgone _ ("nin_address_" +:+ cc +:+ "_" +:+ nin));
      [cbn; tauto | apply pattern_matches_self].
  - apply (Hgone _ ("nin_hash_" +:+ cc +:+ "_" +:+ nin));
      [cbn; tauto | apply pattern_matches_self].
  - intros addr.
    apply (Hgone _ ("nin_verify_" +:+ cc +:+ "_" +:+ nin +:+ "_*")); [cbn; tauto|].
    unfold NINService.pattern_matches.
    replace ("nin_verify_" +:+ cc +:+ "_" +:+ nin +:+ "_*")
      with (("nin_verify_" +:+ cc +:+ "_" +:+ nin +:+ "_") +:+ "*")
      by (now rewrite !append_assoc).
    rewrite ends_with_star_snoc, drop_last_char_snoc.
    replace ("nin_verify_" +:+ cc +:+ "_" +:+ nin +:+ "_" +:+ addr)
      with (("nin_verify_" +:+ cc +:+ "_" +:+ nin +:+ "_") +:+ addr)
      by (now rewrite !append_assoc).
    apply prefix_app.
  - rewrite Z.gtb_ltb, Z.ltb_lt. exact Hpos.
Qed.

End InvalidationFacts.

(** ** What a valid attestation stands for *)

Section AttestationSoundness.
Context {W : Type} `{Runtime W} `{Connection W} `{Json}.
Variable programId : PublicKey.
Variable wallet : Keypair.

Lemma parseAttestationData_some raw (m : Machine W) r m' d :
  BlockchainService.parseAttestationData wallet raw m = Some (r, m') ->
  r = Return (Some d) ->
  m' = m
  /\ truthy (credentialId d) = true
  /\ truthy (studentId d) = true
  /\ truthy (universityId d) = true.
Proof.
  unfold BlockchainService.parseAttestationData.
  destruct (String.eqb (Buffer_toString_trim raw) EmptyString);
    [unfold ret; intros Hrun ->; discriminate|].
  destruct (JSON_parse (Buffer_toString_trim raw)) as [parsed|];
    [|unfold ret; intros Hrun ->; discriminate].
  destruct (truthy (credentialId parsed)) eqn:Hc;
    [|unfold ret; intros Hrun ->; discriminate].
  destruct (truthy (studentId parsed)) eqn:Hs;
    [|unfold ret; intros Hrun ->; discriminate].
  destruct (truthy (universityId parsed)) eqn:Hu;
    [|unfold ret; intros Hrun ->; discriminate].
  cbn [negb orb]. unfold bind, read_world, ret. intros Hrun ->.
  inversion Hrun; subst. cbn. auto.
Qed.

Lemma truthy_string v :
  truthy v = true -> typeof_string v = true ->
  exists s, v = JStr s /\ s <> EmptyString.
Proof.
  destruct v as [| |b|z|s|]; try discriminate. cbn. intros Ht _.
  exists s. split; [reflexivity|]. intros ->. discriminate.
Qed.

Lemma validateAttestationStructure_true d (m : Machine W) m' :
  BlockchainService.validateAttestationStructure (Some d) m = Some (Return true, m') ->
  m' = m
  /\ typeof_string (credentialId d) = true
  /\ typeof_string (studentId d) = true
  /\ typeof_string (universityId d) = true
  /\ (attestationType d = JStr "UNIVERSITY_ISSUED"
      \/ attestationType d = JStr "GOVERNMENT_ACCREDITED")
  /\ (truthy (timestamp d) = false
      \/ exists ts, timestamp d = JNum ts /\ ts <= Date_now (world m)).
Proof.
  unfold BlockchainService.validateAttestationStructure.
  destruct (typeof_string (credentialId d)); [|discriminate].
  destruct (typeof_string (studentId d)); [|discriminate].
  destruct (typeof_string (universityId d)); [|discriminate].
  destruct (BlockchainService.known_attestationType (attestationType d)) eqn:Hknown;
    [|discriminate].
  cbn [negb]. unfold bind, read_world.
  destruct (truthy (timestamp d)) eqn:Htruthy; cbn [andb].
  - destruct (timestamp d) as [| |b|ts|s|] eqn:Hts; try discriminate.
    destruct (ts >? Date_now (world m)) eqn:Hlate; [discriminate|].
    unfold ret. intros Hrun. inversion Hrun; subst m'.
    repeat split; try reflexivity.
    + unfold BlockchainService.known_attestationType in Hknown.
      destruct (attestationType d) as [| |b|z|s|]; try discriminate.
      apply orb_prop in Hknown as [Hk|Hk]; apply String.eqb_eq in Hk; subst s; auto.
    + right. exists ts. split; [reflexivity|].
      rewrite Z.gtb_ltb in Hlate. now apply Z.ltb_ge in Hlate.
  - unfold ret. intros Hrun. inversion Hrun; subst m'.
    repeat split; try reflexivity.
    + unfold BlockchainService.known_attestationType in Hknown.
      destruct (attestationType d) as [| |b|z|s|]; try discriminate.
      apply orb_prop in Hknown as [Hk|Hk]; apply String.eqb_eq in Hk; subst s; auto.
    + now left.
Qed.

(** What [verifyAttestation] has checked when it answers [isValid: true]. *)
Lemma verifyAttestation_valid addr (m : Machine W) r m' :
  BlockchainService.verifyAttestation programId wallet addr m = Some (Return r, m') ->
  BlockchainService.isValid r = true ->
  exists pk info d,
    PublicKey_new addr = Return pk
    /\ getAccountInfo pk (world m) = (Return (Some info), world m')
    /\ PublicKey_equals (owner info) programId = true
    /\ trace m' = trace m ++ [Requested GetAccountInfo]
    /\ r = BlockchainService.mkVerification true (Some d) None
    /\ BlockchainService.parseAttestationData wallet (data info) m'
       = Some (Return (Some d), m')
    /\ BlockchainService.validateAttestationStructure (Some d) m'
       = Some (Return true, m').
Proof.
  unfold BlockchainService.verifyAttestation, try_catch. intros Hrun Hvalid.
  destruct (String.eqb addr EmptyString);
    [inversion Hrun; subst r; discriminate|].
  destruct (PublicKey_new addr) as [pk|e]; [|inversion Hrun; subst r; discriminate].
  unfold bind at 1 in Hrun. rewrite request_run in Hrun.
  destruct (getAccountInfo pk (world m)) as [[[info|]|e] w'] eqn:Hinfo;
    cbn [fst snd] in Hrun; [| inversion Hrun; subst r; discriminate
                            | inversion Hrun; subst r; discriminate].
  destruct (PublicKey_equals (owner info) programId) eqn:Howner; cbn [negb] in Hrun;
    [|inversion Hrun; subst r; discriminate].
  unfold bind at 1 in Hrun.
  match type of Hrun with
  | context [BlockchainService.parseAttestationData wallet ?raw ?m0] =>
      destruct (parseAttestationData_total wallet raw m0) as [parsed Hparse];
      rewrite Hparse in Hrun
  end.
  unfold bind at 1 in Hrun.
  match type of Hrun with
  | context [BlockchainService.validateAttestationStructure ?p ?m0] =>
      destruct (validateAttestationStructure_total p m0) as [ok Hok];
      rewrite Hok in Hrun
  end.
  unfold ret in Hrun. inversion Hrun; subst r m'. clear Hrun.
  destruct ok; [|discriminate].
  destruct parsed as [d|]; [|discriminate].
  exists pk, info, d. cbn [world trace].
  repeat split; try reflexivity; assumption.
Qed.

(** X14: an answer [isValid: true] of [verifyAttestation] stands for an
    account that exists at the address and is owned by the program, read
    with one request; the data returned with it has non-empty strings as
    credential, student and university, one of the two known attestation
    types, and a timestamp that is absent (or falsy) or a number not later
    than the clock; the answer carries no error. *)
Theorem X14_valid_attestation addr (m : Machine W) r m' :
  BlockchainService.verifyAttestation programId wallet addr m = Some (Return r, m') ->
  BlockchainService.isValid r = true ->
  exists pk info d,
    PublicKey_new addr = Return pk
    /\ getAccountInfo pk (world m) = (Return (Some info), world m')
    /\ PublicKey_equals (owner info) programId = true
    /\ trace m' = trace m ++ [Requested GetAccountInfo]
    /\ BlockchainService.vdata r = Some d
    /\ BlockchainService.error r = None
    /\ (exists c s u,
          credentialId d = JStr c /\ c <> EmptyString
          /\ studentId d = JStr s /\ s <> EmptyString
          /\ universityId d = JStr u /\ u <> EmptyString)
    /\ (attestationType d = JStr "UNIVERSITY_ISSUED"
        \/ attestationType d = JStr "GOVERNMENT_ACCREDITED")
    /\ (truthy (timestamp d) = false
        \/ exists ts, timestamp d = JNum ts /\ ts <= Date_now (world m')).
Proof.
  intros Hrun Hvalid.
  destruct (verifyAttestation_valid addr m r m' Hrun Hvalid)
    as (pk & info & d & Hpk & Hinfo & Howner & Htrace & Hr & Hparse & Hok).
  destruct (parseAttestationData_some _ _ _ _ d Hparse eq_refl)
    as (_ & Hc & Hs & Hu).
  destruct (validateAttestationStructure_true d _ _ Hok)
    as (_ & Htc & Hts & Htu & Htype & Htime).
  destruct (truthy_string _ Hc Htc) as (c & Hceq & Hcne).
  destruct (truthy_string _ Hs Hts) as (s & Hseq & Hsne).
  destruct (truthy_string _ Hu Htu) as (u & Hueq & Hune).
  exists pk, info, d. subst r. cbn [BlockchainService.vdata BlockchainService.error].
  repeat split; try reflexivity; try assumption.
  exists c, s, u. repeat split; assumption.
Qed.

End AttestationSoundness.

Section AttestationSoundnessRuns.
Import Sim.

Example alice_run :
  BlockchainService.verifyAttestation program Sim.wallet "Alice111" (start ledger_world)
  = Some (Return alice_result, mkMachine ledger_world [Requested GetAccountInfo]).
Proof. vm_compute. reflexivity. Qed.

Lemma X14_witness :
  exists pk info d,
    PublicKey_new "Alice111" = Return pk
    /\ getAccountInfo pk (world (start ledger_world))
       = (Return (Some info), world (mkMachine ledger_world [Requested GetAccountInfo]))
    /\ PublicKey_equals (owner info) program = true
    /\ trace (mkMachine ledger_world [Requested GetAccountInfo])
       = trace (start ledger_world) ++ [Requested GetAccountInfo]
    /\ BlockchainService.vdata alice_result = Some d
    /\ BlockchainService.error alice_result = None
    /\ (exists c s u,
          credentialId d = JStr c /\ c <> EmptyString
          /\ studentId d = JStr s /\ s <> EmptyString
          /\ universityId d = JStr u /\ u <> EmptyString)
    /\ (attestationType d = JStr "UNIVERSITY_ISSUED"
        \/ attestationType d = JStr "GOVERNMENT_ACCREDITED")
    /\ (truthy (timestamp d) = false
        \/ exists ts, timestamp d = JNum ts
                      /\ ts <= Date_now (world (mkMachine ledger_world
                                                  [Requested GetAccountInfo]))).
Proof.
  apply (@X14_valid_attestation World runtime web3 connection json program Sim.wallet
           "Alice111" (start ledger_world) alice_result
           (mkMachine ledger_world [Requested GetAccountInfo])).
  - exact alice_run.
  - reflexivity.
Defined.

End AttestationSoundnessRuns.

(** ** Sessions, sockets and reconnections *)

Lemma reconnect_delays_app cl1 cl2 :
  reconnect_delays (cl1 ++ cl2) = reconnect_delays cl1 ++ reconnect_delays cl2.
Proof. unfold reconnect_delays. apply omap_app. Qed.

Lemma backoff_delay_scheduled attempts :
  0 <= attempts < BlockchainSession.maxReconnectAttempts ->
  In (Z.min (BlockchainSession.reconnectDelay * 2 ^ (attempts + 1 - 1)) 30000)
     backoff_schedule.
Proof.
  unfold BlockchainSession.maxReconnectAttempts. intros Hrange.
  assert (Hcases : attempts = 0 \/ attempts = 1 \/ attempts = 2 \/ attempts = 3
                   \/ attempts = 4) by lia.
  destruct Hcases as [-> | [-> | [-> | [-> | ->]]]]; vm_compute; tauto.
Qed.

Section SessionFacts.
Context {H : Type} `{Runtime H} `{Web3} `{!BlockchainSession.Host H}.
Variable programId : PublicKey.

Ltac open_machine m :=
  destruct m as [[cfg sess rt sock att reg logs wr h cl] tr].

Ltac compute_run_in Hrun :=
  unfold BlockchainSession.perform, BlockchainSession.logoutFromSAS,
    BlockchainSession.cleanupSession, BlockchainSession.cleanupWebsocket,
    BlockchainSession.setupSessionRefresh, BlockchainSession.socket_event,
    BlockchainSession.onopen, BlockchainSession.onclose, BlockchainSession.onerror,
    BlockchainSession.initializeWebSocketConnection,
    BlockchainSession.scheduleReconnect,
    BlockchainSession.call_host, BlockchainSession.always,
    bind, try_catch, read_world, update_world, call_world, ret,
    BlockchainSession.set_sasSession, BlockchainSession.set_sasRefreshTimeout,
    BlockchainSession.set_ws, BlockchainSession.set_reconnectAttempts,
    BlockchainSession.set_wired in Hrun;
  cbv beta iota zeta delta
    [world trace BlockchainSession.sasConfig BlockchainSession.sasSession
     BlockchainSession.sasRefreshTimeout BlockchainSession.ws
     BlockchainSession.reconnectAttempts BlockchainSession.accountChangeListeners
     BlockchainSession.logsSubscriptionId BlockchainSession.wired
     BlockchainSession.host BlockchainSession.calls id] in Hrun.

Ltac split_run Hrun :=
  repeat
    (match type of Hrun with
     | context [match ?x with _ => _ end] =>
         lazymatch x with
         | context [match _ with _ => _ end] => fail
         | _ => destruct x eqn:?
         end
     end;
     cbv beta iota zeta in Hrun).

Ltac project :=
  cbv beta iota zeta delta
    [world trace BlockchainSession.sasConfig BlockchainSession.sasSession
     BlockchainSession.sasRefreshTimeout BlockchainSession.ws
     BlockchainSession.reconnectAttempts BlockchainSession.accountChangeListeners
     BlockchainSession.logsSubscriptionId BlockchainSession.wired
     BlockchainSession.host BlockchainSession.calls id].

Ltac project_in Hyp :=
  cbv beta iota zeta delta
    [world trace BlockchainSession.sasConfig BlockchainSession.sasSession
     BlockchainSession.sasRefreshTimeout BlockchainSession.ws
     BlockchainSession.reconnectAttempts BlockchainSession.accountChangeListeners
     BlockchainSession.logsSubscriptionId BlockchainSession.wired
     BlockchainSession.host BlockchainSession.calls id] in Hyp.

Ltac finish_run Hrun :=
  compute_run_in Hrun; split_run Hrun; inversion Hrun; subst; clear Hrun.

Ltac count_delays :=
  rewrite ?reconnect_delays_app;
  repeat match goal with
         | |- context [reconnect_delays [?c]] =>
             let r := eval cbv beta iota delta [reconnect_delays omap list_omap]
                      in (reconnect_delays [c]) in
             change (reconnect_delays [c]) with r
         end;
  rewrite ?app_nil_r.

Lemma perform_within_budget op opened (m : Machine (BlockchainSession.Service H)) r m' :
  within_budget opened (world m) ->
  BlockchainSession.perform op m = Some (r, m') ->
  within_budget (opened + (if is_open op then 1 else 0)) (world m').
Proof.
  intros Hinv Hrun. open_machine m.
  unfold within_budget in Hinv. project_in Hinv.
  destruct Hinv as (Hatt & Hcount & Hsched & Hws).
  destruct op as [session| | |socket [| |]| |]; cbn [is_open];
    finish_run Hrun; unfold within_budget; project; count_delays.
  all: try (match goal with
            | Hge : (_ >=? _) = false |- _ =>
                rewrite Z.geb_leb in Hge; apply Z.leb_gt in Hge
            end).
  all: rewrite ?length_app, ?Forall_app; cbn [length].
  all: unfold BlockchainSession.maxReconnectAttempts in *.
  all: repeat split; try assumption; try lia; eauto.
  all: try (intros [? ?]; discriminate).
  all: try (apply Forall_singleton, backoff_delay_scheduled;
            unfold BlockchainSession.maxReconnectAttempts; lia).
Qed.

Lemma within_budget_more opened opened' (s : BlockchainSession.Service H) :
  opened <= opened' -> within_budget opened s -> within_budget opened' s.
Proof.
  unfold within_budget, BlockchainSession.maxReconnectAttempts.
  intros Hle (Hatt & Hcount & Hrest). split; [exact Hatt|]. split; [lia | exact Hrest].
Qed.

Lemma opens_cons op ops : opens (op :: ops) = (if is_open op then 1 else 0) + opens ops.
Proof.
  unfold opens. rewrite filter_cons. destruct (is_open op) eqn:Hop.
  - rewrite decide_True by reflexivity. cbn [length]. lia.
  - rewrite decide_False by discriminate. lia.
Qed.

Lemma opens_nonneg ops : 0 <= opens ops.
Proof. unfold opens. lia. Qed.

Lemma run_within_budget ops : forall opened (m : Machine (BlockchainSession.Service H)),
  within_budget opened (world m) ->
  within_budget (opened + opens ops) (world (BlockchainSession.run ops m)).
Proof.
  induction ops as [|op ops IH]; intros opened m Hinv.
  - cbn [BlockchainSession.run]. apply (within_budget_more opened); [|exact Hinv].
    pose proof (opens_nonneg []). lia.
  - cbn [BlockchainSession.run]. rewrite opens_cons.
    destruct (BlockchainSession.perform op m) as [[r m']|] eqn:Hrun.
    + replace (opened + ((if is_open op then 1 else 0) + opens ops))
        with (opened + (if is_open op then 1 else 0) + opens ops) by lia.
      apply IH. exact (perform_within_budget op opened m r m' Hinv Hrun).
    + apply (within_budget_more opened); [|exact Hinv].
      pose proof (opens_nonneg ops). destruct (is_open op); lia.
Qed.

(** X15: whatever happens to a service after its construction, in any
    order, [reconnectAttempts] stays between 0 and 5; a reconnection is
    scheduled after 1, 2, 4, 8 or 16 seconds, so the limit of 30 seconds in
    [scheduleReconnect] is never the delay; at most five reconnections are
    scheduled for each time a socket reported that it is open, and five
    before the first such report: logging out, or a new session, does not
    give new attempts; and the service holds no socket without holding a
    session. *)
Theorem X15_reconnection_budget config (h : H) ops :
  let s := world (BlockchainSession.run ops
                    (mkMachine (BlockchainSession.constructed config h) [])) in
  0 <= BlockchainSession.reconnectAttempts s <= 5
  /\ Forall (fun ms => In ms [1000; 2000; 4000; 8000; 16000])
       (reconnect_delays (BlockchainSession.calls s))
  /\ Z.of_nat (length (reconnect_delays (BlockchainSession.calls s)))
     <= 5 * opens ops + BlockchainSession.reconnectAttempts s
  /\ Z.of_nat (length (reconnect_delays (BlockchainSession.calls s)))
     <= 5 * (opens ops + 1)
  /\ (is_Some (BlockchainSession.ws s) -> is_Some (BlockchainSession.sasSession s)).
Proof.
  intros s.
  destruct (run_within_budget ops 0
              (mkMachine (BlockchainSession.constructed config h) []))
    as (Hatt & Hcount & Hsched & Hws).
  { unfold within_budget, BlockchainSession.constructed,
      BlockchainSession.maxReconnectAttempts. cbn.
    repeat split; try lia; [constructor | intros [? ?]; discriminate]. }
  fold s in Hatt, Hcount, Hsched, Hws.
  unfold BlockchainSession.maxReconnectAttempts in *.
  split; [exact Hatt|]. split; [exact Hsched|]. split; [lia|]. split; [lia | exact Hws].
Qed.


Ltac compute_run :=
  unfold BlockchainSession.perform, BlockchainSession.logoutFromSAS,
    BlockchainSession.isAuthenticatedWithSAS,
    BlockchainSession.cleanupSession, BlockchainSession.cleanupWebsocket,
    BlockchainSession.setupSessionRefresh, BlockchainSession.socket_event,
    BlockchainSession.onopen, BlockchainSession.onclose, BlockchainSession.onerror,
    BlockchainSession.initializeWebSocketConnection,
    BlockchainSession.scheduleReconnect,
    BlockchainSession.call_host, BlockchainSession.always,
    bind, try_catch, read_world, update_world, call_world, ret,
    BlockchainSession.set_sasSession, BlockchainSession.set_sasRefreshTimeout,
    BlockchainSession.set_ws, BlockchainSession.set_reconnectAttempts,
    BlockchainSession.set_wired;
  project.

Ltac split_goal :=
  repeat
    (match goal with
     | |- context [match ?x with _ => _ end] =>
         lazymatch x with
         | context [match _ with _ => _ end] => fail
         | _ => destruct x eqn:?
         end
     end;
     cbv beta iota zeta).

(** X16: [cleanupSession] never throws, also when closing the socket does.
    After it the service holds no session, no socket and no refresh timer;
    the timer it held is cleared and the socket it held is closed, with the
    handlers taken off it first, so that the socket's closing schedules no
    reconnection; the count of reconnection attempts is left as it is.  In
    the state it leaves, the service is not authenticated, cleaning up
    again does nothing, and a reconnection timer that fires finds no
    session and opens no socket. *)
Theorem X16_cleanup_session (m : Machine (BlockchainSession.Service H)) :
  exists m',
    BlockchainSession.cleanupSession m = Some (Return tt, m')
    /\ BlockchainSession.sasSession (world m') = None
    /\ BlockchainSession.ws (world m') = None
    /\ BlockchainSession.sasRefreshTimeout (world m') = None
    /\ BlockchainSession.reconnectAttempts (world m')
       = BlockchainSession.reconnectAttempts (world m)
    /\ BlockchainSession.calls (world m')
       = BlockchainSession.calls (world m)
         ++ match BlockchainSession.sasRefreshTimeout (world m) with
            | Some handle => [BlockchainSession.ClearTimeout handle]
            | None => []
            end
         ++ match BlockchainSession.ws (world m) with
            | Some socket => [BlockchainSession.SocketClose socket]
            | None => []
            end
    /\ match BlockchainSession.ws (world m) with
       | Some socket =>
           (socket ∉ BlockchainSession.wired (world m'))
           /\ forall ev, BlockchainSession.socket_event socket ev m'
                         = Some (Return tt, m')
       | None => True
       end
    /\ BlockchainSession.isAuthenticatedWithSAS m' = Some (Return false, m')
    /\ BlockchainSession.cleanupSession m' = Some (Return tt, m')
    /\ BlockchainSession.initializeWebSocketConnection m' = Some (Return tt, m').
Proof.
  open_machine m. compute_run.
  destruct rt as [handle|]; destruct sock as [socket|]; cbv beta iota zeta;
    try (destruct (BlockchainSession.WebSocket_close socket _) as [[[]|e] h']);
    cbv beta iota zeta;
    (eexists; split; [reflexivity|]); project;
    rewrite <- ?app_assoc, ?app_nil_r; cbn [app];
    repeat split; try reflexivity.
  all: try (destruct cfg as [config|]; [|reflexivity];
            destruct (String.eqb _ _); reflexivity).
  all: try (intros Hin; apply list_elem_of_filter in Hin as [Hne _]; now apply Hne).
  all: try (intros ev; rewrite bool_decide_eq_false_2;
            [reflexivity
            | intros Hin; apply list_elem_of_filter in Hin as [Hne _]; now apply Hne]).
Qed.


(** X17: [logoutFromSAS] never throws, whatever the request to the
    [/logout] endpoint does, and ends with the session cleaned up: no
    session, no socket, no refresh timer.  The request is made only when a
    session and a configuration are there, once, with the session's token,
    before anything is cleaned up. *)
Theorem X17_logout_cleans_up (m : Machine (BlockchainSession.Service H)) :
  exists m',
    BlockchainSession.logoutFromSAS m = Some (Return tt, m')
    /\ BlockchainSession.sasSession (world m') = None
    /\ BlockchainSession.ws (world m') = None
    /\ BlockchainSession.sasRefreshTimeout (world m') = None
    /\ BlockchainSession.isAuthenticatedWithSAS m' = Some (Return false, m')
    /\ BlockchainSession.calls (world m')
       = BlockchainSession.calls (world m)
         ++ match BlockchainSession.sasSession (world m),
                  BlockchainSession.sasConfig (world m) with
            | Some session, Some config =>
                [BlockchainSession.Fetch
                   (BlockchainSession.strip_trailing_slash
                      (BlockchainSession.authEndpoint config) +:+ "/logout")
                   ("Bearer " +:+ BlockchainSession.token session)]
            | _, _ => []
            end
         ++ match BlockchainSession.sasRefreshTimeout (world m) with
            | Some handle => [BlockchainSession.ClearTimeout handle]
            | None => []
            end
         ++ match BlockchainSession.ws (world m) with
            | Some socket => [BlockchainSession.SocketClose socket]
            | None => []
            end.
Proof.
  open_machine m. compute_run.
  destruct sess as [session|]; destruct cfg as [config|]; cbv beta iota zeta;
    try (destruct (BlockchainSession.fetch _ _ h) as [[[]|e0] h0]);
    cbv beta iota zeta;
    destruct rt as [handle|]; destruct sock as [socket|]; cbv beta iota zeta;
    try (destruct (BlockchainSession.WebSocket_close socket _) as [[[]|e] h']);
    cbv beta iota zeta;
    (eexists; split; [reflexivity|]); project;
    rewrite <- ?app_assoc, ?app_nil_r; cbn [app];
    repeat split; reflexivity.
Qed.


Ltac compute_subscriptions :=
  unfold BlockchainSession.shutdown, BlockchainSession.listenToProgramLogs,
    BlockchainSession.remove_logs_subscription,
    BlockchainSession.listenToAccountChanges, BlockchainSession.run_cleanup,
    BlockchainSession.set_accountChangeListeners,
    BlockchainSession.set_logsSubscriptionId;
  compute_run.

Lemma registry_get_snoc key subId (l : list (string * Z)) :
  BlockchainSession.registry_get key l = None ->
  BlockchainSession.registry_get key (l ++ [(key, subId)]) = Some subId.
Proof.
  induction l as [|[k v] l IH]; cbn [BlockchainSession.registry_get app].
  - now rewrite String.eqb_refl.
  - destruct (String.eqb k key); [discriminate | exact IH].
Qed.

(** X18: the registry of account listeners hands out one subscription per
    account.  Listening to an account that is not registered subscribes
    and registers it.  Listening to it again subscribes nothing, whatever
    commitment is asked for, and returns a function that removes the
    first subscription and leaves the account registered: once that
    function has run, the account is still registered and a further call
    gets the removed subscription, and no new one. *)
Theorem X18_account_listener_reuse
    account commitment commitment2 commitment3
    (m : Machine (BlockchainSession.Service H)) subId h' :
  let key := PublicKey_toBase58 account in
  BlockchainSession.registry_get key
    (BlockchainSession.accountChangeListeners (world m)) = None ->
  BlockchainSession.onAccountChange account (default confirmed commitment)
    (BlockchainSession.host (world m)) = (Return subId, h') ->
  exists m1 m2,
    BlockchainSession.listenToAccountChanges account commitment m
    = Some (Return (BlockchainSession.UnsubscribeAndForget subId key), m1)
    /\ BlockchainSession.registry_get key
         (BlockchainSession.accountChangeListeners (world m1)) = Some subId
    /\ BlockchainSession.listenToAccountChanges account commitment2 m1
       = Some (Return (BlockchainSession.Unsubscribe subId), m1)
    /\ BlockchainSession.run_cleanup (BlockchainSession.Unsubscribe subId) m1
       = Some (Return tt, m2)
    /\ BlockchainSession.accountChangeListeners (world m2)
       = BlockchainSession.accountChangeListeners (world m1)
    /\ BlockchainSession.listenToAccountChanges account commitment3 m2
       = Some (Return (BlockchainSession.Unsubscribe subId), m2)
    /\ BlockchainSession.calls (world m2)
       = BlockchainSession.calls (world m)
         ++ [BlockchainSession.OnAccountChange key (default confirmed commitment);
             BlockchainSession.RemoveAccountChangeListener subId].
Proof.
  intros key Hfresh Hsub. open_machine m. project_in Hfresh. project_in Hsub.
  assert (Hreg : BlockchainSession.registry_get key (reg ++ [(key, subId)]) = Some subId)
    by now apply registry_get_snoc.
  destruct (BlockchainSession.removeAccountChangeListener subId h') as [[[]|e] h2]
    eqn:Hremove;
    compute_subscriptions; fold key; rewrite Hfresh, Hsub; cbv beta iota zeta;
    (eexists _, _; split; [reflexivity|]); project; rewrite Hreg; cbv beta iota zeta;
    (split; [reflexivity|]); (split; [reflexivity|]);
    rewrite Hremove; cbv beta iota zeta;
    (split; [reflexivity|]); project; rewrite Hreg; cbv beta iota zeta;
    rewrite <- ?app_assoc; repeat split; reflexivity.
Qed.

Lemma remove_account_listeners_run entries :
  forall cfg sess rt sock att reg logs wr (h : H) cl tr,
  exists h',
    BlockchainSession.remove_account_listeners entries
      (mkMachine (BlockchainSession.mkService cfg sess rt sock att reg logs wr h cl) tr)
    = Some (Return tt,
            mkMachine
              (BlockchainSession.mkService cfg sess rt sock att reg logs wr h'
                 (cl ++ map (fun kv => BlockchainSession.RemoveAccountChangeListener kv.2)
                          entries))
              tr).
Proof.
  induction entries as [|[k v] entries IH]; intros cfg sess rt sock att reg logs wr h cl tr.
  - exists h. cbn [BlockchainSession.remove_account_listeners map]. unfold ret.
    now rewrite app_nil_r.
  - cbn [BlockchainSession.remove_account_listeners map snd].
    unfold bind at 1. unfold try_catch, BlockchainSession.call_host, call_world, ret.
    project.
    destruct (BlockchainSession.removeAccountChangeListener v h) as [[[]|e] h1];
      cbv beta iota zeta;
      destruct (IH cfg sess rt sock att reg logs wr h1
                  (cl ++ [BlockchainSession.RemoveAccountChangeListener v]) tr)
        as [h' ->];
      exists h'; rewrite <- app_assoc; reflexivity.
Qed.

Lemma shutdown_run (m : Machine (BlockchainSession.Service H)) :
  exists m',
    BlockchainSession.shutdown m = Some (Return tt, m')
    /\ BlockchainSession.accountChangeListeners (world m') = []
    /\ BlockchainSession.logsSubscriptionId (world m') = None
    /\ BlockchainSession.sasSession (world m') = None
    /\ BlockchainSession.ws (world m') = None
    /\ BlockchainSession.sasRefreshTimeout (world m') = None
    /\ BlockchainSession.calls (world m')
       = BlockchainSession.calls (world m)
         ++ map (fun kv => BlockchainSession.RemoveAccountChangeListener kv.2)
              (BlockchainSession.accountChangeListeners (world m))
         ++ match BlockchainSession.logsSubscriptionId (world m) with
            | Some id_ => [BlockchainSession.RemoveOnLogsListener id_]
            | None => []
            end
         ++ match BlockchainSession.sasRefreshTimeout (world m) with
            | Some handle => [BlockchainSession.ClearTimeout handle]
            | None => []
            end
         ++ match BlockchainSession.ws (world m) with
            | Some socket => [BlockchainSession.SocketClose socket]
            | None => []
            end
         ++ [BlockchainSession.RemoveAllListeners].
Proof.
  open_machine m. compute_subscriptions.
  destruct (remove_account_listeners_run reg cfg sess rt sock att reg logs wr h cl tr)
    as [h1 ->].
  cbv beta iota zeta. project.
  destruct logs as [id_|]; cbv beta iota zeta;
    try (destruct (BlockchainSession.removeOnLogsListener id_ h1) as [[[]|e1] h2]);
    cbv beta iota zeta;
    destruct rt as [handle|]; destruct sock as [socket|]; cbv beta iota zeta;
    try (destruct (BlockchainSession.WebSocket_close socket _) as [[[]|e] h3]);
    cbv beta iota zeta;
    (eexists; split; [reflexivity|]); project;
    rewrite <- ?app_assoc, ?app_nil_r; cbn [app];
    repeat split; reflexivity.
Qed.

(** X19: [shutdown] never throws, whatever the removals and the closing of
    the socket do.  It removes every registered account listener, in the
    order of registration, then the logs listener, then cleans the session
    up, then removes its own event listeners; afterwards nothing is
    registered and no session, socket or timer is held, and a second
    [shutdown] only removes the event listeners again. *)
Theorem X19_shutdown (m : Machine (BlockchainSession.Service H)) :
  exists m' m'',
    BlockchainSession.shutdown m = Some (Return tt, m')
    /\ BlockchainSession.accountChangeListeners (world m') = []
    /\ BlockchainSession.logsSubscriptionId (world m') = None
    /\ BlockchainSession.sasSession (world m') = None
    /\ BlockchainSession.ws (world m') = None
    /\ BlockchainSession.sasRefreshTimeout (world m') = None
    /\ BlockchainSession.calls (world m')
       = BlockchainSession.calls (world m)
         ++ map (fun kv => BlockchainSession.RemoveAccountChangeListener kv.2)
              (BlockchainSession.accountChangeListeners (world m))
         ++ match BlockchainSession.logsSubscriptionId (world m) with
            | Some id_ => [BlockchainSession.RemoveOnLogsListener id_]
            | None => []
            end
         ++ match BlockchainSession.sasRefreshTimeout (world m) with
            | Some handle => [BlockchainSession.ClearTimeout handle]
            | None => []
            end
         ++ match BlockchainSession.ws (world m) with
            | Some socket => [BlockchainSession.SocketClose socket]
            | None => []
            end
         ++ [BlockchainSession.RemoveAllListeners]
    /\ BlockchainSession.shutdown m' = Some (Return tt, m'')
    /\ BlockchainSession.calls (world m'')
       = BlockchainSession.calls (world m') ++ [BlockchainSession.RemoveAllListeners].
Proof.
  destruct (shutdown_run m) as (m' & Hrun & Hreg & Hlogs & Hsess & Hws & Hrt & Hcalls).
  destruct (shutdown_run m') as (m'' & Hrun2 & _ & _ & _ & _ & _ & Hcalls2).
  rewrite Hreg, Hlogs, Hws, Hrt in Hcalls2. cbn [map app] in Hcalls2.
  exists m', m''. repeat split; assumption.
Qed.


(** X20: the service holds one logs subscription at a time, and the
    function [listenToProgramLogs] returns removes the subscription that
    is current when it is called, not the one of the call that returned
    it.  A second call removes the first subscription before it
    subscribes; the function the first call returned, called after that,
    removes the second subscription and leaves none. *)
Theorem X20_logs_subscription_replaced
    commitment1 commitment2 (m : Machine (BlockchainSession.Service H)) id1 h1 id2 h3 :
  BlockchainSession.logsSubscriptionId (world m) = None ->
  BlockchainSession.onLogs programId (default confirmed commitment1)
    (BlockchainSession.host (world m)) = (Return id1, h1) ->
  BlockchainSession.onLogs programId (default confirmed commitment2)
    (snd (BlockchainSession.removeOnLogsListener id1 h1)) = (Return id2, h3) ->
  exists m1 m2 m3,
    BlockchainSession.listenToProgramLogs programId commitment1 m = Some (Return tt, m1)
    /\ BlockchainSession.logsSubscriptionId (world m1) = Some id1
    /\ BlockchainSession.listenToProgramLogs programId commitment2 m1
       = Some (Return tt, m2)
    /\ BlockchainSession.logsSubscriptionId (world m2) = Some id2
    /\ BlockchainSession.remove_logs_subscription m2 = Some (Return tt, m3)
    /\ BlockchainSession.logsSubscriptionId (world m3) = None
    /\ BlockchainSession.calls (world m3)
       = BlockchainSession.calls (world m)
         ++ [BlockchainSession.OnLogs (default confirmed commitment1);
             BlockchainSession.RemoveOnLogsListener id1;
             BlockchainSession.OnLogs (default confirmed commitment2);
             BlockchainSession.RemoveOnLogsListener id2].
Proof.
  intros Hnone Hfirst Hsecond. open_machine m.
  project_in Hnone. project_in Hfirst. subst logs.
  destruct (BlockchainSession.removeOnLogsListener id1 h1) as [r1 h2] eqn:Hremove1.
  cbn [snd] in Hsecond. project_in Hsecond.
  destruct (BlockchainSession.removeOnLogsListener id2 h3) as [r2 h4] eqn:Hremove2.
  destruct r1 as [[]|e1]; destruct r2 as [[]|e2];
    compute_subscriptions; rewrite Hfirst; cbv beta iota zeta;
    (eexists _, _, _; split; [reflexivity|]); project; (split; [reflexivity|]);
    rewrite Hremove1; cbv beta iota zeta;
    rewrite Hsecond; cbv beta iota zeta;
    (split; [reflexivity|]); project; (split; [reflexivity|]);
    rewrite Hremove2; cbv beta iota zeta;
    (split; [reflexivity|]); project; rewrite <- ?app_assoc;
    split; reflexivity.
Qed.

End SessionFacts.

Section SessionRuns.
Import Sim.

(** On a host that refuses every socket, a session's connection is tried
    six times and five reconnections are scheduled; a new session after a
    logout gets no further reconnection. *)
Example refused_sockets :
  let ops :=
    [BlockchainSession.AssignSession session1;
     BlockchainSession.InitializeWebSocketConnection;
     BlockchainSession.InitializeWebSocketConnection;
     BlockchainSession.InitializeWebSocketConnection;
     BlockchainSession.InitializeWebSocketConnection;
     BlockchainSession.InitializeWebSocketConnection;
     BlockchainSession.InitializeWebSocketConnection;
     BlockchainSession.InitializeWebSocketConnection;
     BlockchainSession.LogoutFromSAS;
     BlockchainSession.AssignSession session1;
     BlockchainSession.InitializeWebSocketConnection] in
  let s := world (BlockchainSession.run ops offline) in
  reconnect_delays (BlockchainSession.calls s) = [1000; 2000; 4000; 8000; 16000]
  /\ length (sockets_requested (BlockchainSession.calls s)) = 8%nat
  /\ BlockchainSession.reconnectAttempts s = 5.
Proof. vm_compute. repeat split; reflexivity. Qed.

Lemma X18_witness :
  exists m1 m2,
    BlockchainSession.listenToAccountChanges program None online
    = Some (Return (BlockchainSession.UnsubscribeAndForget 1 (PublicKey_toBase58 program)),
            m1)
    /\ BlockchainSession.registry_get (PublicKey_toBase58 program)
         (BlockchainSession.accountChangeListeners (world m1)) = Some 1
    /\ BlockchainSession.listenToAccountChanges program (Some finalized) m1
       = Some (Return (BlockchainSession.Unsubscribe 1), m1)
    /\ BlockchainSession.run_cleanup (BlockchainSession.Unsubscribe 1) m1
       = Some (Return tt, m2)
    /\ BlockchainSession.accountChangeListeners (world m2)
       = BlockchainSession.accountChangeListeners (world m1)
    /\ BlockchainSession.listenToAccountChanges program None m2
       = Some (Return (BlockchainSession.Unsubscribe 1), m2)
    /\ BlockchainSession.calls (world m2)
       = BlockchainSession.calls (world online)
         ++ [BlockchainSession.OnAccountChange (PublicKey_toBase58 program)
               (default confirmed None);
             BlockchainSession.RemoveAccountChangeListener 1].
Proof.
  apply (@X18_account_listener_reuse Browser web3 browser
           program None (Some finalized) None online 1 (mkBrowser 0 2 false)).
  - reflexivity.
  - reflexivity.
Defined.

Lemma X20_witness :
  exists m1 m2 m3,
    BlockchainSession.listenToProgramLogs program None online = Some (Return tt, m1)
    /\ BlockchainSession.logsSubscriptionId (world m1) = Some 1
    /\ BlockchainSession.listenToProgramLogs program (Some finalized) m1
       = Some (Return tt, m2)
    /\ BlockchainSession.logsSubscriptionId (world m2) = Some 2
    /\ BlockchainSession.remove_logs_subscription m2 = Some (Return tt, m3)
    /\ BlockchainSession.logsSubscriptionId (world m3) = None
    /\ BlockchainSession.calls (world m3)
       = BlockchainSession.calls (world online)
         ++ [BlockchainSession.OnLogs (default confirmed None);
             BlockchainSession.RemoveOnLogsListener 1;
             BlockchainSession.OnLogs (default confirmed (Some finalized));
             BlockchainSession.RemoveOnLogsListener 2].
Proof.
  apply (@X20_logs_subscription_replaced Browser web3 browser program
           None (Some finalized) online 1 (mkBrowser 0 2 false) 2 (mkBrowser 0 3 false)).
  - reflexivity.
  - reflexivity.
  - reflexivity.
Defined.

End SessionRuns.

(** ** The NIN service: what stays in the cache *)

Lemma hash_key_not_validation_key x y :
  "nin_hash_" +:+ x <> "nin_validation_" +:+ y.
Proof. intros Heq. cbv in Heq. congruence. Qed.

Section CachedAnswers.
Context {L : Type} `{RateLimiter L} `{Web3} `{Hashes}.
Variable env_NIN_SALT : option string.

(** X21: what [generateAddress] leaves in the cache for a NIN answers the
    next call.  The next call for the NIN and country that the limiter lets
    through while the entry is alive, from whatever [ip], is answered from
    the cache, without validation or derivation and without a change to the
    cache: it gets the address and the flags of the first answer, marked
    [cached], and in place of the key pair the cache's copy of it, which is
    not the key pair that the first caller got. *)
Theorem X21_key_pair_cached
    nin ip ip2 countryCode (m : Machine (NINService.State L)) o m' remaining l' :
  NINService.generateAddress env_NIN_SALT nin ip countryCode m = Some (Return o, m') ->
  NINService.success o = Some true ->
  NINService.cached o = None ->
  removeTokens 1 (NINService.rateLimiter (world m')) = (Return remaining, l') ->
  0 <= remaining ->
  exists kp answer,
    NINService.generateAddress env_NIN_SALT nin ip2 countryCode m'
    = Some (Return answer,
            mkMachine (NINService.mkState l' (NINService.ninCache (world m'))) (trace m'))
    /\ NINService.keypair o = Some (NINService.TheKeypair kp)
    /\ NINService.keypair answer = Some (NINService.CloneOf kp)
    /\ NINService.keypair answer <> NINService.keypair o
    /\ NINService.address answer = NINService.address o
    /\ NINService.success answer = Some true
    /\ NINService.countryCode answer = NINService.countryCode o
    /\ NINService.cached answer = Some true.
Proof.
  intros Hrun Hsuccess Hfresh Hreply Hleft.
  destruct (generateAddress_fresh env_NIN_SALT nin ip countryCode m o m'
              Hrun Hsuccess Hfresh)
    as (seed & kp & cc0 & _ & _ & Ho & Hcached & _).
  exists kp, (NINService.with_cached (NINService.clone (NINService.clone o))).
  split.
  - unfold NINService.generateAddress, try_catch. unfold bind at 1.
    rewrite (checkRateLimit_allowed (default "default" ip2) m' remaining l' Hreply Hleft).
    cbn [negb]. unfold bind at 1. unfold NINService.cache_get at 1, read_world.
    cbn [world NINService.ninCache]. rewrite Hcached. reflexivity.
  - rewrite Ho. cbn. repeat split. discriminate.
Qed.

(** The path of [hashNIN] that computes a hash. *)
Lemma hashNIN_fresh nin saltRounds countryCode (m : Machine (NINService.State L)) o m' :
  NINService.hashNIN env_NIN_SALT nin saltRounds countryCode m = Some (Return o, m') ->
  NINService.success o = Some true ->
  NINService.cached o = None ->
  nin <> EmptyString
  /\ (exists h, NINService.hash o = Some h /\ Crypto.hashNIN env_NIN_SALT nin = Return h)
  /\ NINService.ninCache (world m')
     !! ("nin_hash_" +:+ default "NG" countryCode +:+ "_" +:+ nin) = Some (o, None)
  /\ NINService.clone o = o
  /\ exists c ttl,
       NINService.ninCache (world m')
       !! ("nin_validation_" +:+ default "NG" countryCode +:+ "_" +:+ nin)
       = Some (c, ttl)
       /\ NINService.isValid c = Some true.
Proof.
  intros Hrun Hsuccess Hfresh.
  unfold NINService.hashNIN in Hrun.
  set (cc := default "NG" countryCode) in *.
  unfold try_catch in Hrun. unfold bind at 1 in Hrun.
  destruct (NINService.validateNIN nin (Some cc) m) as [[[v|e] m1]|] eqn:Hval;
    [|inversion Hrun; subst o; discriminate|discriminate].
  destruct (NINService.is_true (NINService.isValid v)) eqn:Hvalid; cbn [negb] in Hrun;
    [|inversion Hrun; subst o; discriminate].
  assert (Hnin : nin <> EmptyString).
  { intros ->. unfold NINService.validateNIN in Hval. cbn in Hval.
    inversion Hval; subst v. discriminate. }
  destruct (validateNIN_caches nin cc m v m1 Hnin Hval)
    as (c & ttl & Hcached & _ & Hcvalid & _).
  unfold bind at 1 in Hrun. unfold NINService.cache_get at 1, read_world in Hrun.
  destruct (NINService.ninCache (world m1) !! ("nin_hash_" +:+ cc +:+ "_" +:+ nin))
    as [[c0 ttl0]|] eqn:Hget; cbn [fmap option_fmap option_map fst] in Hrun.
  { inversion Hrun; subst o; discriminate. }
  unfold NINService.call_arity1 in Hrun.
  destruct (Crypto.hashNIN env_NIN_SALT nin) as [h|e];
    [|inversion Hrun; subst o; discriminate].
  unfold bind, NINService.cache_set, update_world, ret in Hrun.
  inversion Hrun; subst o m'.
  cbn [world NINService.ninCache NINService.hash].
  split; [exact Hnin|]. split; [eauto|]. rewrite lookup_insert_eq.
  split; [reflexivity|]. split; [reflexivity|].
  exists c, ttl. split.
  - rewrite lookup_insert_ne; [exact Hcached | apply hash_key_not_validation_key].
  - rewrite Hcvalid. unfold NINService.is_true in Hvalid.
    destruct (NINService.isValid v) as [[|]|]; [reflexivity|discriminate..].
Qed.

(** X22: a hash that the service's [hashNIN] has computed is the hash of
    [crypto.ts] for the NIN, so [verifyNINHash] accepts it; and it is
    computed once: the next call for the NIN and country, whatever its
    [saltRounds], is answered from the cache with the same object, marked
    [cached], and changes nothing. *)
Theorem X22_service_hash
    nin saltRounds saltRounds2 countryCode (m : Machine (NINService.State L)) o m' :
  NINService.hashNIN env_NIN_SALT nin saltRounds countryCode m = Some (Return o, m') ->
  NINService.success o = Some true ->
  NINService.cached o = None ->
  (exists h,
     NINService.hash o = Some h
     /\ Crypto.hashNIN env_NIN_SALT nin = Return h
     /\ Crypto.verifyNINHash env_NIN_SALT nin h = Return true)
  /\ NINService.hashNIN env_NIN_SALT nin saltRounds2 countryCode m'
     = Some (Return (NINService.with_cached o), m').
Proof.
  intros Hrun Hsuccess Hfresh.
  destruct (hashNIN_fresh nin saltRounds countryCode m o m' Hrun Hsuccess Hfresh)
    as (Hnin & (h & Hh & Hhash) & Hcached & Hclone & c & ttl & Hval & Hcvalid).
  split.
  - exists h. split; [exact Hh|]. split; [exact Hhash|].
    unfold Crypto.verifyNINHash. rewrite Hhash. now rewrite String.eqb_refl.
  - unfold NINService.hashNIN, try_catch. unfold bind at 1.
    rewrite (validateNIN_hit nin (default "NG" countryCode) m' c ttl Hnin Hval).
    cbn [NINService.with_cached NINService.clone NINService.isValid]. rewrite Hcvalid.
    cbn [NINService.is_true default from_option id negb].
    unfold bind at 1. unfold NINService.cache_get at 1, read_world.
    rewrite Hcached. cbn [fmap option_fmap option_map fst]. now rewrite Hclone.
Qed.

End CachedAnswers.

Section CachedAnswerRuns.
Import Sim.

Lemma X21_witness :
  exists kp answer,
    NINService.generateAddress (Some "pepper") "00100000008" (Some "10.0.0.7") None
      generated_end
    = Some (Return answer,
            mkMachine (NINService.mkState [] (NINService.ninCache (world generated_end)))
              (trace generated_end))
    /\ NINService.keypair generated = Some (NINService.TheKeypair kp)
    /\ NINService.keypair answer = Some (NINService.CloneOf kp)
    /\ NINService.keypair answer <> NINService.keypair generated
    /\ NINService.address answer = NINService.address generated
    /\ NINService.success answer = Some true
    /\ NINService.countryCode answer = NINService.countryCode generated
    /\ NINService.cached answer = Some true.
Proof.
  apply (@X21_key_pair_cached (list (Completion Z)) limiter web3 hashes (Some "pepper")
           "00100000008" None (Some "10.0.0.7") None
           (start (NINService.mkState [] empty_cache)) generated generated_end 99 []).
  - exact generate_run.
  - reflexivity.
  - reflexivity.
  - reflexivity.
  - lia.
Defined.

(** The answer to the second call, in the stand-in: the address again, and
    a copy where the key pair was. *)
Example generate_twice :
  NINService.generateAddress (Some "pepper") "00100000008" None None generated_end
  = Some (Return
            (NINService.mkNinObject None (Some true)
               (Some "00100000008pepper111111111111111")
               (Some (NINService.CloneOf (toy_digest "00100000008pepper")))
               None None (Some "NG") (Some true)),
          generated_end).
Proof. reflexivity. Qed.

Example hash_run :
  NINService.hashNIN (Some "pepper") "00100000008" (Some 12) None
    (start (NINService.mkState (@nil (Completion Z)) empty_cache))
  = Some (Return hashed, hashed_end).
Proof. reflexivity. Qed.

Lemma X22_witness :
  (exists h,
     NINService.hash hashed = Some h
     /\ Crypto.hashNIN (Some "pepper") "00100000008" = Return h
     /\ Crypto.verifyNINHash (Some "pepper") "00100000008" h = Return true)
  /\ NINService.hashNIN (Some "pepper") "00100000008" (Some 4) None hashed_end
     = Some (Return (NINService.with_cached hashed), hashed_end).
Proof.
  apply (@X22_service_hash (list (Completion Z)) web3 hashes (Some "pepper")
           "00100000008" (Some 12) (Some 4) None
           (start (NINService.mkState [] empty_cache)) hashed hashed_end).
  - exact hash_run.
  - reflexivity.
  - reflexivity.
Defined.

End CachedAnswerRuns.

(** ** Two verifiers of attestations *)

Section TwoVerifiers.
Context {W : Type} `{Runtime W} `{Connection W} `{Json}.
Variable programId : PublicKey.
Variable wallet : Keypair.

(** X23: the verifier of [SolanaAttestationService] never throws and
    answers [true] exactly when the address is well formed and an account
    exists at it, whoever owns the account and whatever it holds.  On the
    same ledger it accepts every address that [BlockchainService]'s
    [verifyAttestation] reports valid. *)
Theorem X23_account_exists addr (m : Machine W) :
  exists b m2,
    SolanaAttestationService.verifyAttestation addr m = Some (Return b, m2)
    /\ (b = true
        <-> exists pk info w',
              PublicKey_new addr = Return pk
              /\ getAccountInfo pk (world m) = (Return (Some info), w'))
    /\ (forall r m',
          BlockchainService.verifyAttestation programId wallet addr m
          = Some (Return r, m') ->
          BlockchainService.isValid r = true ->
          b = true /\ world m2 = world m' /\ trace m2 = trace m')
    /\ (BlockchainService.verifyAttestation programId wallet addr m
        = Some (Return (BlockchainService.invalid
                          "Attestation account is not owned by expected program"),
                m2)
        -> b = true).
Proof.
  unfold SolanaAttestationService.verifyAttestation, try_catch.
  destruct (PublicKey_new addr) as [pk|e] eqn:Hpk.
  - unfold bind at 1. rewrite request_run.
    destruct (getAccountInfo pk (world m)) as [[[info|]|e] w'] eqn:Hinfo;
      cbn [fst snd]; eexists _, _; (split; [reflexivity|]).
    + split; [split; [eauto | reflexivity]|]. split; [|reflexivity].
      intros r m' Hrun Hvalid. split; [reflexivity|].
      destruct (verifyAttestation_valid programId wallet addr m r m' Hrun Hvalid)
        as (pk' & info' & d & Hpk' & Hinfo' & _ & Htrace & _).
      rewrite Hpk in Hpk'. injection Hpk' as <-. rewrite Hinfo in Hinfo'.
      injection Hinfo' as _ ->. cbn [world trace]. now rewrite Htrace.
    + split; [split; [discriminate|]|].
      * intros (pk' & info' & w'' & Hpk' & Hinfo'). congruence.
      * split.
        -- intros r m' Hrun Hvalid.
           destruct (verifyAttestation_valid programId wallet addr m r m' Hrun Hvalid)
             as (pk' & info' & d & Hpk' & Hinfo' & _).
           congruence.
        -- unfold BlockchainService.verifyAttestation, try_catch.
           destruct (String.eqb addr EmptyString); [discriminate|].
           rewrite Hpk. unfold bind at 1. rewrite request_run, Hinfo. discriminate.
    + split; [split; [discriminate|]|].
      * intros (pk' & info' & w'' & Hpk' & Hinfo'). congruence.
      * split.
        -- intros r m' Hrun Hvalid.
           destruct (verifyAttestation_valid programId wallet addr m r m' Hrun Hvalid)
             as (pk' & info' & d & Hpk' & Hinfo' & _).
           congruence.
        -- unfold BlockchainService.verifyAttestation, try_catch.
           destruct (String.eqb addr EmptyString); [discriminate|].
           rewrite Hpk. unfold bind at 1. rewrite request_run, Hinfo. discriminate.
  - eexists _, _. split; [reflexivity|].
    split; [split; [discriminate|]|].
    + intros (pk' & info' & w'' & Hpk' & _). congruence.
    + split.
      * intros r m' Hrun Hvalid.
        destruct (verifyAttestation_valid programId wallet addr m r m' Hrun Hvalid)
          as (pk' & info' & d & Hpk' & _).
        congruence.
      * unfold BlockchainService.verifyAttestation, try_catch.
        destruct (String.eqb addr EmptyString); [discriminate|].
        rewrite Hpk. discriminate.
Qed.

End TwoVerifiers.

(** ** Creating an attestation *)

Section CreateFacts.
Context {W : Type} `{ClockLaws W} `{Listeners W} `{!CreateAttestation.Instructions}.
Variable programId : PublicKey.
Variable wallet : Keypair.

(** X24: on a clock that keeps the laws of [ClockLaws] (a timer fires no
    earlier than asked, and the clock does not run backwards during a
    request) and with fuel for thirty polls per attempt, [createAttestation]
    always answers and never throws.  It reports success exactly when the
    program address was found, the student and university addresses are
    well formed, the data could be written as JSON and the submission of
    the transaction returned; the answer then carries the signature of that
    submission and the program address.  When the submission throws, the
    answer carries the message of its error.  If one of the steps before
    the submission fails, the answer carries a message and nothing was
    requested from the ledger. *)
Theorem X24_create_attestation pollFuel data (m : Machine W) :
  (30 <= pollFuel)%nat ->
  let submit := fun found student university payload =>
    BlockchainService.sendTransactionWithRetry wallet pollFuel
      (attestation_transaction programId wallet found student university payload)
      [] (BlockchainService.mkSendTransactionOptions None None None) m in
  exists res m',
    CreateAttestation.createAttestation programId wallet pollFuel data m
    = Some (Return res, m')
    /\ (CreateAttestation.success res = true
        <-> exists found student university payload sent m1,
              prepared programId data found student university payload
              /\ submit found student university payload = Some (Return sent, m1))
    /\ (forall found student university payload sent m1,
          prepared programId data found student university payload ->
          submit found student university payload = Some (Return sent, m1) ->
          m' = m1
          /\ res = CreateAttestation.mkCreated true
                     (Some (BlockchainService.signature sent)) None
                     (Some (PublicKey_toBase58 (fst found))))
    /\ (forall found student university payload e m1,
          prepared programId data found student university payload ->
          submit found student university payload = Some (Throw e, m1) ->
          m' = m1
          /\ res = CreateAttestation.mkCreated false None (Some (message e)) None)
    /\ ((forall found student university payload,
           ~ prepared programId data found student university payload) ->
        m' = m /\ exists msg, res = CreateAttestation.mkCreated false None (Some msg) None).
Proof.
  intros Hpoll submit.
  unfold CreateAttestation.createAttestation, CreateAttestation.findAttestationAddress,
    try_catch.
  assert (Hunprepared :
            (forall found student university payload,
               ~ prepared programId data found student university payload) ->
            forall msg,
              exists res m',
                Some (Return (CreateAttestation.mkCreated false None (Some msg) None), m)
                = Some (Return res, m')
                /\ (CreateAttestation.success res = true
                    <-> exists found student university payload sent m1,
                          prepared programId data found student university payload
                          /\ submit found student university payload
                             = Some (Return sent, m1))
                /\ (forall found student university payload sent m1,
                      prepared programId data found student university payload ->
                      submit found student university payload = Some (Return sent, m1) ->
                      m' = m1
                      /\ res = CreateAttestation.mkCreated true
                                 (Some (BlockchainService.signature sent)) None
                                 (Some (PublicKey_toBase58 (fst found))))
                /\ (forall found student university payload e m1,
                      prepared programId data found student university payload ->
                      submit found student university payload = Some (Throw e, m1) ->
                      m' = m1
                      /\ res = CreateAttestation.mkCreated false None
                                 (Some (message e)) None)
                /\ ((forall found student university payload,
                       ~ prepared programId data found student university payload) ->
                    m' = m
                    /\ exists msg0,
                         res = CreateAttestation.mkCreated false None (Some msg0) None)).
  { intros Hnone msg. eexists _, _. split; [reflexivity|].
    split; [split; [discriminate|]|split; [|split]].
    - intros (found & student & university & payload & _ & _ & Hprep & _).
      destruct (Hnone _ _ _ _ Hprep).
    - intros found student university payload sent m1 Hprep. destruct (Hnone _ _ _ _ Hprep).
    - intros found student university payload e m1 Hprep. destruct (Hnone _ _ _ _ Hprep).
    - intros _. eauto. }
  unfold bind at 1.
  destruct (CreateAttestation.PublicKey_findProgramAddress
              [CreateAttestation.Buffer_from "attestation";
               CreateAttestation.Buffer_from (CreateAttestation.credentialId data);
               CreateAttestation.Buffer_from (CreateAttestation.attestationType data)]
              programId)
    as [found|e1] eqn:Hfound; cbn [CreateAttestation.evaluate ret throw].
  2: { apply Hunprepared. intros f st u p (Hf & _). unfold prepared in *. congruence. }
  unfold bind at 1.
  destruct (PublicKey_new (CreateAttestation.studentId data)) as [student|e2] eqn:Hstudent;
    cbn [CreateAttestation.evaluate ret throw].
  2: { apply Hunprepared. intros f st u p (_ & Hst & _). congruence. }
  unfold bind at 1.
  destruct (PublicKey_new (CreateAttestation.universityId data)) as [university|e3]
    eqn:Huniversity; cbn [CreateAttestation.evaluate ret throw].
  2: { apply Hunprepared. intros f st u p (_ & _ & Hu & _). congruence. }
  unfold bind at 1.
  destruct (CreateAttestation.JSON_stringify data) as [payload|e4] eqn:Hpayload;
    cbn [CreateAttestation.evaluate ret throw].
  2: { apply Hunprepared. intros f st u p (_ & _ & _ & Hp). congruence. }
  clear Hunprepared.
  assert (Hprepared : prepared programId data found student university payload)
    by (repeat split; assumption).
  assert (Hsame : forall f st u p,
             prepared programId data f st u p ->
             f = found /\ st = student /\ u = university /\ p = payload).
  { intros f st u p (Hf & Hst & Hu & Hp).
    rewrite Hfound in Hf. rewrite Hstudent in Hst. rewrite Huniversity in Hu.
    rewrite Hpayload in Hp. repeat split; congruence. }
  unfold bind at 1.
  fold (attestation_transaction programId wallet found student university payload).
  fold (submit found student university payload).
  destruct (sendTransactionWithRetry_completes wallet pollFuel
              (attestation_transaction programId wallet found student university payload)
              [] (BlockchainService.mkSendTransactionOptions None None None) m Hpoll)
    as ([sent|e5] & m1 & Hsend).
  - fold (submit found student university payload) in Hsend. rewrite Hsend.
    eexists _, _. split; [reflexivity|].
    split; [split; [intros _; exists found, student, university, payload, sent, m1; auto
                   | reflexivity]|].
    split; [|split].
    + intros f st u p sent' m1' Hprep Hsubmit.
      destruct (Hsame _ _ _ _ Hprep) as (-> & -> & -> & ->).
      rewrite Hsend in Hsubmit. inversion Hsubmit; subst. split; reflexivity.
    + intros f st u p e m1' Hprep Hsubmit.
      destruct (Hsame _ _ _ _ Hprep) as (-> & -> & -> & ->).
      rewrite Hsend in Hsubmit. discriminate Hsubmit.
    + intros Hnone. destruct (Hnone _ _ _ _ Hprepared).
  - fold (submit found student university payload) in Hsend. rewrite Hsend.
    eexists _, _. split; [reflexivity|].
    split; [split; [discriminate|]|split; [|split]].
    + intros (f & st & u & p & sent' & m1' & Hprep & Hsubmit).
      destruct (Hsame _ _ _ _ Hprep) as (-> & -> & -> & ->).
      rewrite Hsend in Hsubmit. discriminate Hsubmit.
    + intros f st u p sent' m1' Hprep Hsubmit.
      destruct (Hsame _ _ _ _ Hprep) as (-> & -> & -> & ->).
      rewrite Hsend in Hsubmit. discriminate Hsubmit.
    + intros f st u p e m1' Hprep Hsubmit.
      destruct (Hsame _ _ _ _ Hprep) as (-> & -> & -> & ->).
      rewrite Hsend in Hsubmit. inversion Hsubmit; subst. split; reflexivity.
    + intros Hnone. destruct (Hnone _ _ _ _ Hprepared).
Qed.

End CreateFacts.

Section CreateRuns.
Import Sim.

Lemma X24_witness :
  let submit := fun found student university payload =>
    BlockchainService.sendTransactionWithRetry Sim.wallet 30
      (attestation_transaction program Sim.wallet found student university payload)
      [] (BlockchainService.mkSendTransactionOptions None None None)
      (start (mkOutage 0)) in
  exists res m',
    CreateAttestation.createAttestation program Sim.wallet 30 degree (start (mkOutage 0))
    = Some (Return res, m')
    /\ (CreateAttestation.success res = true
        <-> exists found student university payload sent m1,
              prepared program degree found student university payload
              /\ submit found student university payload = Some (Return sent, m1))
    /\ (forall found student university payload sent m1,
          prepared program degree found student university payload ->
          submit found student university payload = Some (Return sent, m1) ->
          m' = m1
          /\ res = CreateAttestation.mkCreated true
                     (Some (BlockchainService.signature sent)) None
                     (Some (PublicKey_toBase58 (fst found))))
    /\ (forall found student university payload e m1,
          prepared program degree found student university payload ->
          submit found student university payload = Some (Throw e, m1) ->
          m' = m1
          /\ res = CreateAttestation.mkCreated false None (Some (message e)) None)
    /\ ((forall found student university payload,
           ~ prepared program degree found student university payload) ->
        m' = start (mkOutage 0)
        /\ exists msg, res = CreateAttestation.mkCreated false None (Some msg) None).
Proof.
  apply (@X24_create_attestation Outage outage_runtime web3 outage_connection
           outage_clock_laws outage_listeners instructions program Sim.wallet 30%nat
           degree (start (mkOutage 0))).
  lia.
Defined.

(** On a ledger that confirms, the attestation is created; a student
    address that is malformed is refused before anything is sent. *)
Example create_on_ledger :
  match CreateAttestation.createAttestation program Sim.wallet 30 degree
          (start confirming_world) with
  | Some (Return res, m') =>
      res = CreateAttestation.mkCreated true (Some "sig1") None
              (Some "attestationcred-1UNIVERSITY_ISSUED")
      /\ emitted (trace m')
         = [(TRANSACTION_SENT, [ArgStr "sig1"]); (TRANSACTION_CONFIRMED, [ArgStr "sig1"])]
  | _ => False
  end
  /\ CreateAttestation.createAttestation program Sim.wallet 30
       (CreateAttestation.mkAttestationData "cred-1" "not an address" "University1"
          "UNIVERSITY_ISSUED")
       (start confirming_world)
     = Some (Return (CreateAttestation.mkCreated false None
                       (Some "Invalid public key input") None),
             start confirming_world).
Proof. vm_compute. repeat split; reflexivity. Qed.

End CreateRuns.

(** ** The cost of a batch *)

Lemma lookups_app t1 t2 : lookups (t1 ++ t2) = (lookups t1 + lookups t2)%nat.
Proof. unfold lookups. now rewrite filter_app, length_app. Qed.

Section BatchCost.
Context {W : Type} `{Runtime W} `{Connection W} `{Json}.
Variable programId : PublicKey.
Variable wallet : Keypair.

Lemma batch_effects_refl (t : list Effect) :
  exists ext, t = t ++ ext /\ Forall batch_effect ext.
Proof. exists []. split; [now rewrite app_nil_r | constructor]. Qed.

Lemma batch_effects_trans (t1 t2 t3 : list Effect) :
  (exists ext, t2 = t1 ++ ext /\ Forall batch_effect ext) ->
  (exists ext, t3 = t2 ++ ext /\ Forall batch_effect ext) ->
  exists ext, t3 = t1 ++ ext /\ Forall batch_effect ext.
Proof.
  intros (e1 & -> & Hfirst) (e2 & -> & Hsecond). exists (e1 ++ e2).
  split; [now rewrite app_assoc | now apply Forall_app].
Qed.

Lemma verifyAttestation_cost addr (m : Machine W) :
  exists r m',
    BlockchainService.verifyAttestation programId wallet addr m = Some (Return r, m')
    /\ sleeps (trace m') = sleeps (trace m)
    /\ lookups (trace m')
       = (lookups (trace m) + if well_formed addr then 1 else 0)%nat
    /\ exists ext, trace m' = trace m ++ ext /\ Forall batch_effect ext.
Proof.
  unfold BlockchainService.verifyAttestation, try_catch, well_formed.
  destruct (String.eqb addr EmptyString); cbn [negb andb];
    [eexists _, _; split; [reflexivity|]; split; [reflexivity|];
     split; [lia | apply batch_effects_refl]|].
  destruct (PublicKey_new addr) as [pk|e];
    [|eexists _, _; split; [reflexivity|]; split; [reflexivity|];
      split; [lia | apply batch_effects_refl]].
  assert (Hcost : forall t : list Effect,
             sleeps (t ++ [Requested GetAccountInfo]) = sleeps t
             /\ lookups (t ++ [Requested GetAccountInfo]) = (lookups t + 1)%nat
             /\ exists ext, t ++ [Requested GetAccountInfo] = t ++ ext
                            /\ Forall batch_effect ext).
  { intros t. rewrite sleeps_app, lookups_app. cbn [sleeps].
    rewrite app_nil_r. split; [reflexivity|]. split; [reflexivity|].
    exists [Requested GetAccountInfo]. split; [reflexivity|].
    constructor; [left; reflexivity | constructor]. }
  unfold bind at 1. rewrite request_run.
  destruct (getAccountInfo pk (world m)) as [[[info|]|e] w']; cbn [fst snd];
    [| eexists _, _; split; [reflexivity | apply Hcost]
     | eexists _, _; split; [reflexivity | apply Hcost]].
  destruct (negb (PublicKey_equals (owner info) programId));
    [eexists _, _; split; [reflexivity | apply Hcost]|].
  unfold bind at 1.
  match goal with
  | |- context [BlockchainService.parseAttestationData wallet ?raw ?m0] =>
      destruct (parseAttestationData_total wallet raw m0) as [parsed ->]
  end.
  unfold bind at 1.
  match goal with
  | |- context [BlockchainService.validateAttestationStructure ?p ?m0] =>
      destruct (validateAttestationStructure_total p m0) as [ok ->]
  end.
  eexists _, _; split; [reflexivity | apply Hcost].
Qed.

Lemma verify_one_cost addr (m : Machine W) :
  exists r m',
    BlockchainService.verify_one (BlockchainService.verifyAttestation programId wallet)
      addr m
    = Some (Return (addr, r), m')
    /\ sleeps (trace m') = sleeps (trace m)
    /\ lookups (trace m')
       = (lookups (trace m) + if well_formed addr then 1 else 0)%nat
    /\ exists ext, trace m' = trace m ++ ext /\ Forall batch_effect ext.
Proof.
  destruct (verifyAttestation_cost addr m) as (r & m' & Hone & Hs & Hl & He).
  exists r, m'. split; [|split; [|split]; assumption].
  unfold BlockchainService.verify_one, try_catch, bind. now rewrite Hone.
Qed.

Lemma promise_all_map_cost : forall batch (m : Machine W),
  exists rs m',
    BlockchainService.promise_all_map
      (BlockchainService.verify_one
         (BlockchainService.verifyAttestation programId wallet)) batch m
    = Some (Return rs, m')
    /\ sleeps (trace m') = sleeps (trace m)
    /\ lookups (trace m') = (lookups (trace m) + length (filter well_formed batch))%nat
    /\ exists ext, trace m' = trace m ++ ext /\ Forall batch_effect ext.
Proof.
  induction batch as [|a batch IH]; intros m.
  - exists [], m. split; [reflexivity|]. split; [reflexivity|].
    split; [cbn; lia | apply batch_effects_refl].
  - destruct (verify_one_cost a m) as (r & m1 & Hone & Hs1 & Hl1 & He1).
    destruct (IH m1) as (rs & m' & Hall & Hs & Hl & He).
    exists ((a, r) :: rs), m'. split; [|split; [|split]].
    + cbn [BlockchainService.promise_all_map]. unfold bind at 1.
      rewrite Hone. unfold bind at 1. rewrite Hall. reflexivity.
    + now rewrite Hs, Hs1.
    + rewrite Hl, Hl1, filter_cons.
      destruct (well_formed a).
      * rewrite decide_True by exact I. cbn [length]. lia.
      * rewrite decide_False by (intros []). lia.
    + exact (batch_effects_trans _ _ _ He1 He).
Qed.

Lemma batchVerify_loop_cost fuel : forall i addrs results (m : Machine W),
  (length addrs <= i + fuel)%nat ->
  exists results' m',
    BlockchainService.batchVerify_loop
      (BlockchainService.verifyAttestation programId wallet) fuel i addrs results m
    = Some (Return results', m')
    /\ sleeps (trace m')
       = sleeps (trace m) ++ replicate ((length addrs - i - 1) / 10) 500
    /\ lookups (trace m')
       = (lookups (trace m) + length (filter well_formed (drop i addrs)))%nat
    /\ exists ext, trace m' = trace m ++ ext /\ Forall batch_effect ext.
Proof.
  induction fuel as [|fuel IH]; intros i addrs results m Hfuel;
    rewrite batchVerify_loop_unfold.
  - assert (Hge : (i <? length addrs)%nat = false) by (apply Nat.ltb_ge; lia).
    rewrite Hge. exists results, m. split; [reflexivity|].
    replace (length addrs - i - 1)%nat with 0%nat by lia.
    rewrite drop_ge by lia. cbn. rewrite app_nil_r.
    split; [reflexivity|]. split; [lia | apply batch_effects_refl].
  - destruct (i <? length addrs)%nat eqn:Hlt.
    2:{ apply Nat.ltb_ge in Hlt. exists results, m. split; [reflexivity|].
        replace (length addrs - i - 1)%nat with 0%nat by lia.
        rewrite drop_ge by lia. cbn. rewrite app_nil_r.
        split; [reflexivity|]. split; [lia | apply batch_effects_refl]. }
    apply Nat.ltb_lt in Hlt.
    destruct (promise_all_map_cost (take BlockchainService.BATCH_SIZE (drop i addrs)) m)
      as (rs & m1 & Hall & Hs1 & Hl1 & He1).
    unfold bind at 1. rewrite Hall. unfold bind at 1.
    unfold BlockchainService.BATCH_SIZE in *.
    assert (Hfilter : (length (filter well_formed (drop i addrs))
                       = length (filter well_formed (take 10 (drop i addrs)))
                         + length (filter well_formed (drop (i + 10) addrs)))%nat).
    { rewrite <- (take_drop 10 (drop i addrs)) at 1.
      rewrite filter_app, length_app, drop_drop. reflexivity. }
    destruct (i + 10 <? length addrs)%nat eqn:Hmore.
    + apply Nat.ltb_lt in Hmore. rewrite sleep_eq.
      destruct (IH (i + 10)%nat addrs (BlockchainService.merge_results results rs)
                  (mkMachine (timer_fires 500 (world m1)) (trace m1 ++ [Slept 500])))
        as (results' & m' & Hloop & Hs & Hl & He); [lia|].
      exists results', m'. split; [exact Hloop|]. split; [|split].
      * rewrite Hs. cbn [trace]. rewrite sleeps_app, Hs1. cbn [sleeps].
        rewrite <- app_assoc. f_equal.
        replace (length addrs - i - 1)%nat
          with ((length addrs - (i + 10) - 1) + 1 * 10)%nat by lia.
        rewrite Nat.div_add by lia.
        rewrite Nat.add_1_r. reflexivity.
      * rewrite Hl. cbn [trace]. rewrite lookups_app, Hl1, Hfilter.
        change (lookups [Slept 500]) with 0%nat. lia.
      * cbn [trace] in He.
        refine (batch_effects_trans _ _ _ He1 (batch_effects_trans _ _ _ _ He)).
        exists [Slept 500]. split; [reflexivity|].
        constructor; [right; reflexivity | constructor].
    + apply Nat.ltb_ge in Hmore. unfold ret at 1.
      destruct (IH (i + 10)%nat addrs (BlockchainService.merge_results results rs) m1)
        as (results' & m' & Hloop & Hs & Hl & He); [lia|].
      exists results', m'. split; [exact Hloop|]. split; [|split].
      * rewrite Hs, Hs1.
        replace (length addrs - (i + 10) - 1)%nat with 0%nat by lia.
        rewrite (Nat.div_small (length addrs - i - 1)) by lia. reflexivity.
      * rewrite Hl, Hl1, Hfilter. lia.
      * exact (batch_effects_trans _ _ _ He1 He).
Qed.

(** X25: what a batch costs.  [batchVerifyAttestations] asks the ledger
    for one account per address that is well formed, and for nothing else:
    all it adds to the trace are requests for an account and pauses of
    500 ms.  It pauses 500 ms after every ten addresses but the last ten,
    that is [(n - 1) / 10] times for [n] addresses, and not at all for ten
    or fewer. *)
Theorem X25_batch_cost addrs (m : Machine W) :
  exists results m',
    BlockchainService.batchVerifyAttestations programId wallet addrs m
    = Some (Return results, m')
    /\ sleeps (trace m')
       = sleeps (trace m) ++ replicate ((length addrs - 1) / 10) 500
    /\ lookups (trace m')
       = (lookups (trace m) + length (filter well_formed addrs))%nat
    /\ (exists ext,
          trace m' = trace m ++ ext
          /\ Forall (fun e => e = Requested GetAccountInfo \/ e = Slept 500) ext)
    /\ ((length addrs <= 10)%nat -> sleeps (trace m') = sleeps (trace m)).
Proof.
  unfold BlockchainService.batchVerifyAttestations,
    BlockchainService.batchVerifyAttestations_with.
  destruct (batchVerify_loop_cost (length addrs) 0 addrs BlockchainService.no_results m)
    as (results & m' & Hrun & Hs & Hl & He); [lia|].
  exists results, m'. split; [exact Hrun|].
  rewrite Nat.sub_0_r in Hs. rewrite drop_0 in Hl.
  split; [exact Hs|]. split; [exact Hl|]. split; [exact He|].
  intros Hfew. rewrite Hs, Nat.div_small by lia. cbn. now rewrite app_nil_r.
Qed.

End BatchCost.

Section BatchCostRuns.
Import Sim.

(** Twelve addresses, eleven of them well formed: eleven lookups, one
    pause. *)
Example twelve_cost :
  match BlockchainService.batchVerifyAttestations program Sim.wallet twelve
          (start ledger_world) with
  | Some (Return _, m') => (sleeps (trace m'), lookups (trace m')) = ([500], 11%nat)
  | _ => False
  end.
Proof. vm_compute. reflexivity. Qed.

End BatchCostRuns.

(** ** Validation reads the normal form *)

Section Normalisation.
Context {L : Type} `{Web3}.

(** X26: [validateNIN] judges the NIN trimmed and in upper case: two NINs
    with the same normal form get the same answer for a country, when
    neither answer comes from the cache. *)
Theorem X26_validation_normalises
    nin1 nin2 cc (m1 m2 : Machine (NINService.State L)) r1 r2 m1' m2' :
  nin1 <> EmptyString ->
  nin2 <> EmptyString ->
  Text.toUpperCase (Text.trim nin1) = Text.toUpperCase (Text.trim nin2) ->
  NINService.ninCache (world m1) !! ("nin_validation_" +:+ cc +:+ "_" +:+ nin1) = None ->
  NINService.ninCache (world m2) !! ("nin_validation_" +:+ cc +:+ "_" +:+ nin2) = None ->
  NINService.validateNIN nin1 (Some cc) m1 = Some (Return r1, m1') ->
  NINService.validateNIN nin2 (Some cc) m2 = Some (Return r2, m2') ->
  r1 = r2.
Proof.
  intros Hnin1 Hnin2 Hnormal Hmiss1 Hmiss2 Hrun1 Hrun2.
  unfold NINService.validateNIN in Hrun1, Hrun2.
  cbv beta iota zeta delta [from_option id] in Hrun1, Hrun2.
  apply String.eqb_neq in Hnin1, Hnin2. rewrite Hnin1 in Hrun1. rewrite Hnin2 in Hrun2.
  unfold bind at 1 in Hrun1. unfold bind at 1 in Hrun2.
  unfold NINService.cache_get, read_world in Hrun1, Hrun2.
  rewrite Hmiss1 in Hrun1. rewrite Hmiss2 in Hrun2.
  cbn [fmap option_fmap option_map] in Hrun1, Hrun2.
  rewrite <- Hnormal in Hrun2.
  destruct (NINService.lookup_pattern cc) as [p|]; [|discriminate].
  destruct (negb (NINService.pattern_test p (Text.toUpperCase (Text.trim nin1))));
    [|destruct (String.eqb cc "NG"
                && negb (NINService.validateNGNIN (Text.toUpperCase (Text.trim nin1))))];
    unfold bind, NINService.cache_set, update_world, ret in Hrun1, Hrun2;
    inversion Hrun1; inversion Hrun2; reflexivity.
Qed.

End Normalisation.

Section NormalisationRuns.
Import Sim.

Lemma X26_witness :
  let fresh := start (NINService.mkState (@nil (Completion Z)) empty_cache) in
  let r := NINService.validation_result true None "NG" in
  let left_ :=
    mkMachine
      (NINService.mkState []
         (<["nin_validation_NG_ 00100000008" := (r, None)]> empty_cache)) [] in
  let right_ :=
    mkMachine
      (NINService.mkState []
         (<["nin_validation_NG_00100000008" := (r, None)]> empty_cache)) [] in
  NINService.validateNIN " 00100000008" (Some "NG") fresh = Some (Return r, left_)
  /\ NINService.validateNIN "00100000008" (Some "NG") fresh = Some (Return r, right_)
  /\ r = r.
Proof.
  intros fresh r left_ right_.
  split; [reflexivity|]. split; [reflexivity|].
  apply (@X26_validation_normalises (list (Completion Z)) web3
           " 00100000008" "00100000008" "NG" fresh fresh r r left_ right_).
  - discriminate.
  - discriminate.
  - reflexivity.
  - reflexivity.
  - reflexivity.
  - reflexivity.
  - reflexivity.
Defined.

End NormalisationRuns.
